(** * Certificate issuance and verification: hashing, anchoring, reconciliation

    A shallow embedding of the two Python modules of the certificate system:

    - [blockchain.py]: class [BlockchainManager] with
      [store_certificate_on_blockchain], [verify_certificate_on_blockchain]
      and [get_total_certificates];
    - [app.py]: the Flask handlers [verify_certificate] and
      [upload_certificate_page], with the SQLAlchemy table [Student].

    Python values, strings and exceptions are modelled in [Py]; the digest
    used for the certificate hash in [Sha256]; the effects of a request
    (database session, flashed messages, calls that leave the process) in
    the monad of [Eff]. *)

From Stdlib Require Import ZArith NArith List String Ascii Bool Lia QArith.
From Stdlib.Strings Require Import Byte.
From Stdlib.Numbers Require DecimalString.
Import ListNotations.
Local Open Scope Z_scope.

(* ================================================================== *)
(** ** Python strings, values and exceptions *)
(* ================================================================== *)

Module Py.

(** A Python [str] is a sequence of Unicode code points; [len] counts code
    points and slicing cuts between them. *)
Definition str := list N.

(** A Python [bytes] object. *)
Definition bytes := list byte.

Definition byte_of_N (n : N) : byte :=
  match Byte.of_N n with Some b => b | None => x00 end.

(** Decoding of the UTF-8 text of a literal of this file into the [str] it
    denotes.  Used for literals only; an ill-formed sequence yields U+FFFD. *)
Fixpoint utf8_decode (bs : list byte) : str :=
  match bs with
  | [] => []
  | b0 :: r0 =>
    let c0 := Byte.to_N b0 in
    if (c0 <? 128)%N then c0 :: utf8_decode r0
    else if ((192 <=? c0) && (c0 <? 224))%N then
      match r0 with
      | b1 :: r1 =>
        ((c0 - 192) * 64 + (Byte.to_N b1 - 128))%N :: utf8_decode r1
      | _ => [65533%N]
      end
    else if ((224 <=? c0) && (c0 <? 240))%N then
      match r0 with
      | b1 :: b2 :: r2 =>
        ((c0 - 224) * 4096 + (Byte.to_N b1 - 128) * 64
         + (Byte.to_N b2 - 128))%N :: utf8_decode r2
      | _ => [65533%N]
      end
    else if (240 <=? c0)%N then
      match r0 with
      | b1 :: b2 :: b3 :: r3 =>
        ((c0 - 240) * 262144 + (Byte.to_N b1 - 128) * 4096
         + (Byte.to_N b2 - 128) * 64 + (Byte.to_N b3 - 128))%N
        :: utf8_decode r3
      | _ => [65533%N]
      end
    else 65533%N :: utf8_decode r0
  end.

(** The [str] written as the literal [s]. *)
Definition lit (s : string) : str := utf8_decode (list_byte_of_string s).

(** [c] can be encoded: a code point that is not a surrogate. *)
Definition encodable (c : N) : bool :=
  ((c <? 55296) || ((57343 <? c) && (c <? 1114112)))%N.

Definition utf8_encode_char (c : N) : bytes :=
  if (c <? 128)%N then [byte_of_N c]
  else if (c <? 2048)%N then
    [byte_of_N (192 + c / 64); byte_of_N (128 + c mod 64)]
  else if (c <? 65536)%N then
    [byte_of_N (224 + c / 4096); byte_of_N (128 + (c / 64) mod 64);
     byte_of_N (128 + c mod 64)]
  else
    [byte_of_N (240 + c / 262144); byte_of_N (128 + (c / 4096) mod 64);
     byte_of_N (128 + (c / 64) mod 64); byte_of_N (128 + c mod 64)].

(** [s.encode('utf-8')]: [None] stands for [UnicodeEncodeError], raised on
    a lone surrogate. *)
Fixpoint encode_utf8 (s : str) : option bytes :=
  match s with
  | [] => Some []
  | c :: r =>
    if encodable c then
      match encode_utf8 r with
      | Some bs => Some (utf8_encode_char c ++ bs)
      | None => None
      end
    else None
  end.

(** A well-formed string: every element is a Unicode scalar value. *)
Definition well_formed (s : str) : Prop := forallb encodable s = true.

(** [c.isspace()], the characters removed by [str.strip()]. *)
Definition isspace (c : N) : bool :=
  (((9 <=? c) && (c <=? 13)) || ((28 <=? c) && (c <=? 32))
   || (c =? 133) || (c =? 160) || (c =? 5760)
   || ((8192 <=? c) && (c <=? 8202)) || (c =? 8232) || (c =? 8233)
   || (c =? 8239) || (c =? 8287) || (c =? 12288))%N.

Fixpoint lstrip (s : str) : str :=
  match s with
  | [] => []
  | c :: r => if isspace c then lstrip r else s
  end.

Definition rstrip (s : str) : str := rev (lstrip (rev s)).

(** [s.strip()] *)
Definition strip (s : str) : str := rstrip (lstrip s).

(** [len(s)] *)
Definition len (s : str) : Z := Z.of_nat (List.length s).

(** Truth value of a [str]: non-empty. *)
Definition str_truthy (s : str) : bool :=
  match s with [] => false | _ => true end.

Fixpoint str_eqb (a b : str) : bool :=
  match a, b with
  | [], [] => true
  | x :: a', y :: b' => (x =? y)%N && str_eqb a' b'
  | _, _ => false
  end.

(** [s[:n]] for a literal [n >= 0]. *)
Definition slice_to (n : nat) (s : str) : str := firstn n s.

(** [str(n)] for an [int]. *)
Definition str_of_int (z : Z) : str :=
  lit (DecimalString.NilZero.string_of_int (Z.to_int z)).

(** The values that cross the boundary to the ledger client and sit in the
    dictionaries it returns. *)
Inductive value : Type :=
| VNone
| VBool (b : bool)
| VInt (z : Z)
| VStr (s : str).

(** Truth value, as tested by [if v:]. *)
Definition truthy (v : value) : bool :=
  match v with
  | VNone => false
  | VBool b => b
  | VInt z => negb (z =? 0)
  | VStr s => str_truthy s
  end.

(** [v == n] for an [int] literal [n] ([True == 1] holds in Python). *)
Definition eq_int (v : value) (n : Z) : bool :=
  match v with
  | VInt z => z =? n
  | VBool b => Z.b2z b =? n
  | _ => false
  end.

(** [str(v)], as interpolated by an f-string. *)
Definition str_of (v : value) : str :=
  match v with
  | VNone => lit "None"
  | VBool true => lit "True"
  | VBool false => lit "False"
  | VInt z => str_of_int z
  | VStr s => s
  end.

(** A [dict] with literal keys, in insertion order. *)
Definition dict := list (string * value).

Fixpoint get (d : dict) (k : string) : option value :=
  match d with
  | [] => None
  | (k', v) :: r => if String.eqb k' k then Some v else get r k
  end.

(** An exception object (an instance of a subclass of [Exception]):
    its class name and [str(e)]. *)
Record exn : Type := Exn { exn_class : string; exn_str : str }.

(** The result of evaluating something that may raise. *)
Inductive outcome (A : Type) : Type :=
| Ok (a : A)
| Raise (e : exn).
Arguments Ok {A} a.
Arguments Raise {A} e.

(** [KeyError(k)]; its [str] is the [repr] of the key. *)
Definition KeyError (k : string) : exn :=
  Exn "KeyError" (lit "'" ++ lit k ++ lit "'").

End Py.

(* ================================================================== *)
(** ** SHA-256 ([hashlib.sha256(...).hexdigest()]) *)
(* ================================================================== *)

Module Sha256.

Definition mask32 (x : Z) : Z := x mod 4294967296.
Definition add32 (x y : Z) : Z := mask32 (x + y).
Definition rotr (n x : Z) : Z :=
  mask32 (Z.lor (Z.shiftr x n) (Z.shiftl x (32 - n))).
Definition shr (n x : Z) : Z := Z.shiftr x n.

Definition Ch (x y z : Z) : Z :=
  Z.lxor (Z.land x y) (Z.land (Z.lxor x 4294967295) z).
Definition Maj (x y z : Z) : Z :=
  Z.lxor (Z.lxor (Z.land x y) (Z.land x z)) (Z.land y z).
Definition Sigma0 (x : Z) : Z := Z.lxor (Z.lxor (rotr 2 x) (rotr 13 x)) (rotr 22 x).
Definition Sigma1 (x : Z) : Z := Z.lxor (Z.lxor (rotr 6 x) (rotr 11 x)) (rotr 25 x).
Definition sigma0 (x : Z) : Z := Z.lxor (Z.lxor (rotr 7 x) (rotr 18 x)) (shr 3 x).
Definition sigma1 (x : Z) : Z := Z.lxor (Z.lxor (rotr 17 x) (rotr 19 x)) (shr 10 x).

(** The constants of FIPS 180-4 are the first 32 bits of the fractional
    parts of the cube roots (round constants) and square roots (initial
    hash value) of the first primes. *)
Definition primes : list Z :=
  [ 2; 3; 5; 7; 11; 13; 17; 19; 23; 29; 31; 37; 41; 43; 47; 53; 59; 61; 67;
    71; 73; 79; 83; 89; 97; 101; 103; 107; 109; 113; 127; 131; 137; 139; 149;
    151; 157; 163; 167; 173; 179; 181; 191; 193; 197; 199; 211; 223; 227;
    229; 233; 239; 241; 251; 257; 263; 269; 271; 277; 281; 283; 293; 307;
    311 ].

(** Integer cube root, by bisection between [lo] and [hi]. *)
Fixpoint cube_root_between (fuel : nat) (n lo hi : Z) : Z :=
  match fuel with
  | O => lo
  | S fuel' =>
    let mid := (lo + hi) / 2 in
    if mid * mid * mid <=? n then cube_root_between fuel' n mid hi
    else cube_root_between fuel' n lo mid
  end.

Definition cube_root_fraction (p : Z) : Z :=
  mask32 (cube_root_between 64 (p * 2 ^ 96) 0 (2 ^ 36)).

Definition square_root_fraction (p : Z) : Z :=
  mask32 (Z.sqrt (p * 2 ^ 64)).

Definition K : list Z := Eval vm_compute in map cube_root_fraction primes.

(** The eight working variables, also the chaining value. *)
Record state : Type :=
  State { sa : Z; sb : Z; sc : Z; sd : Z; se : Z; sf : Z; sg : Z; sh : Z }.

Definition H0 : state :=
  Eval vm_compute in
    match map square_root_fraction (firstn 8 primes) with
    | [a; b; c; d; e; f; g; h] => State a b c d e f g h
    | _ => State 0 0 0 0 0 0 0 0
    end.

(** Padding: the bit 1, zeros up to 56 mod 64 bytes, the bit length on
    eight bytes, big-endian. *)
Definition be_bytes (n : nat) (x : Z) : list Z :=
  map (fun i => (x / 256 ^ Z.of_nat i) mod 256) (rev (seq 0 n)).

Definition pad (msg : list Z) : list Z :=
  let l := Z.of_nat (List.length msg) in
  let k := Z.to_nat ((55 - l) mod 64) in
  msg ++ [128] ++ repeat 0 k ++ be_bytes 8 (8 * l).

(** Big-endian words of a block. *)
Fixpoint words (n : nat) (bs : list Z) : list Z :=
  match n with
  | O => []
  | S n' =>
    match bs with
    | b0 :: b1 :: b2 :: b3 :: r =>
      (((b0 * 256 + b1) * 256 + b2) * 256 + b3) :: words n' r
    | _ => []
    end
  end.

(** Message schedule; [ws] holds the words computed so far, latest first. *)
Fixpoint schedule (n : nat) (ws : list Z) : list Z :=
  match n with
  | O => ws
  | S n' =>
    let w := add32 (add32 (sigma1 (nth 1 ws 0)) (nth 6 ws 0))
                   (add32 (sigma0 (nth 14 ws 0)) (nth 15 ws 0)) in
    schedule n' (w :: ws)
  end.

Definition round (s : state) (kw : Z * Z) : state :=
  let (k, w) := kw in
  let t1 := add32 (add32 (add32 (sh s) (Sigma1 (se s)))
                         (add32 (Ch (se s) (sf s) (sg s)) k)) w in
  let t2 := add32 (Sigma0 (sa s)) (Maj (sa s) (sb s) (sc s)) in
  State (add32 t1 t2) (sa s) (sb s) (sc s) (add32 (sd s) t1) (se s) (sf s) (sg s).

Definition compress (h : state) (block : list Z) : state :=
  let w := rev (schedule 48 (rev (words 16 block))) in
  let s := fold_left round (combine K w) h in
  State (add32 (sa h) (sa s)) (add32 (sb h) (sb s)) (add32 (sc h) (sc s))
        (add32 (sd h) (sd s)) (add32 (se h) (se s)) (add32 (sf h) (sf s))
        (add32 (sg h) (sg s)) (add32 (sh h) (sh s)).

Fixpoint blocks (n : nat) (h : state) (bs : list Z) : state :=
  match n with
  | O => h
  | S n' => blocks n' (compress h (firstn 64 bs)) (skipn 64 bs)
  end.

Definition digest (msg : Py.bytes) : state :=
  let p := pad (map (fun b => Z.of_N (Byte.to_N b)) msg) in
  blocks (List.length p / 64) H0 p.

(** Lower-case hexadecimal digit of [d mod 16]. *)
Definition hexdigit (d : Z) : N :=
  let n := Z.to_N (d mod 16) in
  if (n <? 10)%N then (48 + n)%N else (87 + n)%N.

Definition hex32 (x : Z) : Py.str :=
  map (fun i => hexdigit (x / 16 ^ Z.of_nat i)) (rev (seq 0 8)).

(** [hashlib.sha256(msg).hexdigest()] *)
Definition hexdigest (msg : Py.bytes) : Py.str :=
  let s := digest msg in
  hex32 (sa s) ++ hex32 (sb s) ++ hex32 (sc s) ++ hex32 (sd s) ++
  hex32 (se s) ++ hex32 (sf s) ++ hex32 (sg s) ++ hex32 (sh s).

End Sha256.

(* ================================================================== *)
(** ** The [Student] table and the effects of a request *)
(* ================================================================== *)

Module Eff.
Import Py.

(** A row of the table [student] (class [Student]).  The three ledger
    columns are nullable; [on_blockchain] defaults to [False]. *)
Record Student : Type := mkStudent {
  id : Z;
  full_name : str;
  matric_number : str;
  date_of_award : str;
  year_of_graduation : str;
  honors : str;
  course_of_study : str;
  certificate_hash : str;
  certificate_path : str;
  blockchain_tx_hash : value;
  blockchain_block_number : value;
  on_blockchain : bool
}.

(** A transaction for the contract function [storeCertificate], as passed
    to [build_transaction]. *)
Record transaction : Type := mkTransaction {
  tx_certificate_hash : str;
  tx_matric_number : str;
  tx_from : str;
  tx_nonce : Z;
  tx_gas : Z;
  tx_gasPrice : Z
}.

(** Everything a request does outside the interpreter, in order: output,
    JSON-RPC calls of the web3 client, round trips to the database, and the
    rendering of the PDF. *)
Inductive event : Type :=
| EPrint (line : str)
| EIsConnected
| EGetBalance (address : str)
| EGetTransactionCount (address : str)
| EEstimateGas (certificate_hash matric_number from : str)
| EGasPrice
| EBuildTransaction (tx : transaction)
| ESignTransaction (tx : transaction)
| ESendRawTransaction (tx : transaction)
| EWaitForReceipt (tx_hash : str) (timeout : Z)
| ECallVerifyCertificate (certificate_hash : str)
| ECallGetTotalCertificates
| EQueryByMatric (matric_number : str)
| EQueryByHash (certificate_hash : str)
| ECommit
| ERollback
| EGeneratePdf (matric_number certificate_hash : str).

(** A change held by the SQLAlchemy session until the next flush. *)
Inductive change : Type :=
| Insert (row : Student)
| SetTxHash (row_id : Z) (v : value)
| SetBlockNumber (row_id : Z) (v : value)
| SetOnBlockchain (row_id : Z) (b : bool).

(** The state a request runs in. *)
Record world : Type := mkWorld {
  table : list Student;              (* committed rows of [student] *)
  pending : list change;             (* the session's unflushed changes *)
  flashes : list (string * str);     (* [flash(message, category)], as (category, message) *)
  trace : list event;                (* events so far, oldest first *)
  db_trips : nat                     (* database round trips so far *)
}.

Definition M (A : Type) : Type := world -> outcome A * world.

Definition ret {A} (a : A) : M A := fun w => (Ok a, w).

Definition raise {A} (e : exn) : M A := fun w => (Raise e, w).

Definition bind {A B} (m : M A) (k : A -> M B) : M B :=
  fun w =>
    match m w with
    | (Ok a, w') => k a w'
    | (Raise e, w') => (Raise e, w')
    end.

(** [try: body except Exception as e: handler] *)
Definition try_except {A} (body : M A) (handler : exn -> M A) : M A :=
  fun w =>
    match body w with
    | (Ok a, w') => (Ok a, w')
    | (Raise e, w') => handler e w'
    end.

Definition emit (ev : event) : M unit :=
  fun w => (Ok tt, mkWorld (table w) (pending w) (flashes w)
                           (trace w ++ [ev]) (db_trips w)).

Definition of_outcome {A} (o : outcome A) : M A :=
  match o with Ok a => ret a | Raise e => raise e end.

(** A call that leaves the process: it is recorded, then returns or raises
    as the outside decides. *)
Definition call {A} (ev : event) (o : outcome A) : M A :=
  bind (emit ev) (fun _ => of_outcome o).

Definition print (line : str) : M unit := emit (EPrint line).

(** [flash(message, category)] *)
Definition flash (message : str) (category : string) : M unit :=
  fun w => (Ok tt, mkWorld (table w) (pending w)
                           (flashes w ++ [(category, message)])
                           (trace w) (db_trips w)).

(** [d[k]] *)
Definition getitem (d : dict) (k : string) : M value :=
  match get d k with Some v => ret v | None => raise (KeyError k) end.

End Eff.

Declare Scope eff_scope.
Delimit Scope eff_scope with eff.
Notation "x <- m ;; k" := (Eff.bind m (fun x => k))
  (at level 100, m at next level, right associativity) : eff_scope.
Notation "m ;;; k" := (Eff.bind m (fun _ => k))
  (at level 100, right associativity) : eff_scope.

(** A dictionary entry [k: v]. *)
Definition entry (k : string) (v : Py.value) : string * Py.value := (k, v).
Notation "k ':-' v" := (entry k v) (at level 60, no associativity).

(* ================================================================== *)
(** ** blockchain.py *)
(* ================================================================== *)

Module Blockchain.
Import Py Eff.
Local Open Scope eff_scope.

(** What the interpreter and its library supply and this development does
    not spell out: the [str] of a [float], and
    [datetime.fromtimestamp(t).strftime('%Y-%m-%d %H:%M:%S')] in the
    server's time zone (which raises on a timestamp out of range). *)
Record Runtime : Type := mkRuntime {
  float_str : Q -> str;
  local_date_str : Z -> outcome str
}.

(** The node behind [self.w3]: what each JSON-RPC call answers. *)
Record Web3 : Type := mkWeb3 {
  w3_is_connected : outcome bool;
  eth_get_balance : str -> outcome N;                  (* wei, a uint256 *)
  eth_get_transaction_count : str -> outcome Z;
  eth_gas_price : outcome Z;
  eth_sign_transaction : transaction -> str -> option exn;
  eth_send_raw_transaction : transaction -> outcome str;  (* [tx_hash.hex()] *)
  eth_wait_for_transaction_receipt : str -> Z -> outcome dict
}.

(** The deployed contract behind [self.contract], with the outputs of
    [CONTRACT_ABI]. *)
Record Contract : Type := mkContract {
  storeCertificate_estimate_gas : str -> str -> str -> outcome Z;
  storeCertificate_build_transaction : transaction -> option exn;
  verifyCertificate_call : str -> outcome (bool * str * Z);
  getTotalCertificates_call : outcome Z
}.

Record BlockchainManager : Type := mkBlockchainManager {
  w3 : Web3;
  contract : Contract;
  contract_address : str;
  private_key : str;
  account_address : str
}.

Definition raising (o : option exn) : outcome unit :=
  match o with None => Ok tt | Some e => Raise e end.

Section Methods.

Variable rt : Runtime.
Variable self : BlockchainManager.

Definition is_connected : M bool :=
  call EIsConnected (w3_is_connected (w3 self)).

(** [w3.from_wei(balance_wei, 'ether')], then [float]: the balance is kept
    as the exact quotient.  Balances are whole numbers of wei and the
    doubles around 0.001 lie less than 1e-18 apart, so rounding to [float]
    does not change the outcome of the comparison with 0.001 below. *)
Definition from_wei_ether (balance_wei : N) : Q :=
  Qmake (Z.of_N balance_wei) 1000000000000000000.

Definition get_balance : M Q :=
  balance_wei <- call (EGetBalance (account_address self))
                      (eth_get_balance (w3 self) (account_address self)) ;;
  ret (from_wei_ether balance_wei).

(** [x < y] on balances *)
Definition balance_lt (x y : Q) : bool := negb (Qle_bool y x).

Definition store_certificate_on_blockchain
    (certificate_hash matric_number : str) : M dict :=
  try_except
    (connected <- is_connected ;;
     if negb connected then
       ret [ "success" :- VBool false;
             "error" :- VStr (lit "Not connected to blockchain network") ]
     else
     balance <- get_balance ;;
     if balance_lt balance (1 # 1000) then
       ret [ "success" :- VBool false;
             "error" :- VStr (lit "Insufficient balance: " ++ float_str rt balance
                              ++ lit " ETH. Need at least 0.001 ETH") ]
     else
     nonce <- call (EGetTransactionCount (account_address self))
                   (eth_get_transaction_count (w3 self) (account_address self)) ;;
     gas_estimate <- call (EEstimateGas certificate_hash matric_number
                                        (account_address self))
                          (storeCertificate_estimate_gas (contract self)
                             certificate_hash matric_number
                             (account_address self)) ;;
     gas_price <- call EGasPrice (eth_gas_price (w3 self)) ;;
     let transaction :=
       mkTransaction certificate_hash matric_number (account_address self)
                     nonce (gas_estimate + 10000) gas_price in
     call (EBuildTransaction transaction)
          (raising (storeCertificate_build_transaction (contract self)
                      transaction)) ;;;
     call (ESignTransaction transaction)
          (raising (eth_sign_transaction (w3 self) transaction
                      (private_key self))) ;;;
     tx_hash <- call (ESendRawTransaction transaction)
                     (eth_send_raw_transaction (w3 self) transaction) ;;
     print (lit "📤 Transaction sent: " ++ tx_hash) ;;;
     print (lit "⏳ Waiting for confirmation...") ;;;
     tx_receipt <- call (EWaitForReceipt tx_hash 120)
                        (eth_wait_for_transaction_receipt (w3 self)
                           tx_hash 120) ;;
     status <- getitem tx_receipt "status" ;;
     if eq_int status 1 then
       block <- getitem tx_receipt "blockNumber" ;;
       print (lit "✅ Transaction confirmed in block " ++ str_of block) ;;;
       block_number <- getitem tx_receipt "blockNumber" ;;
       gas_used <- getitem tx_receipt "gasUsed" ;;
       ret [ "success" :- VBool true;
             "tx_hash" :- VStr tx_hash;
             "block_number" :- block_number;
             "gas_used" :- gas_used ]
     else
       ret [ "success" :- VBool false;
             "error" :- VStr (lit "Transaction failed on blockchain");
             "tx_hash" :- VStr tx_hash ])
    (fun e =>
       print (lit "❌ Blockchain error: " ++ exn_str e) ;;;
       ret [ "success" :- VBool false;
             "error" :- VStr (exn_str e) ]).

Definition verify_certificate_on_blockchain (certificate_hash : str) : M dict :=
  try_except
    (result <- call (ECallVerifyCertificate certificate_hash)
                    (verifyCertificate_call (contract self) certificate_hash) ;;
     let '(exists_, matric_number, timestamp) := result in
     if exists_ then
       date_stored <- of_outcome (local_date_str rt timestamp) ;;
       ret [ "exists" :- VBool true;
             "matric_number" :- VStr matric_number;
             "timestamp" :- VInt timestamp;
             "date_stored" :- VStr date_stored ]
     else
       ret [ "exists" :- VBool false ])
    (fun e =>
       print (lit "❌ Verification error: " ++ exn_str e) ;;;
       ret [ "exists" :- VBool false;
             "error" :- VStr (exn_str e) ]).

Definition get_total_certificates : M Z :=
  try_except
    (total <- call ECallGetTotalCertificates
                   (getTotalCertificates_call (contract self)) ;;
     ret total)
    (fun e =>
       print (lit "❌ Error getting total: " ++ exn_str e) ;;;
       ret 0).

End Methods.

End Blockchain.

(* ================================================================== *)
(** ** app.py *)
(* ================================================================== *)

Module App.
Import Py Eff Blockchain.
Local Open Scope eff_scope.

(** The SQLite database behind [db]: whether the [n]-th round trip of the
    request fails on its own (locked file, full disk, ...), and the
    [IntegrityError] the engine raises for a row that breaks a [UNIQUE]
    constraint. *)
Record Database : Type := mkDatabase {
  io_fault : nat -> option exn;
  integrity_error : Student -> exn
}.

(** The dictionary [student_data] handed to the PDF generator. *)
Record student_data : Type := mkStudentData {
  data_full_name : str;
  data_matric_number : str;
  data_year_of_graduation : str;
  data_date_of_award : str;
  data_honors : str;
  data_course_of_study : str
}.

(** The module-level state of [app.py]: [blockchain] is [None] when the
    ledger is not configured.  [generate_certificate_pdf] only draws and
    writes a file; it is kept as what it answers, the path of the file,
    or the exception it raises. *)
Record Globals : Type := mkGlobals {
  runtime : Runtime;
  blockchain : option BlockchainManager;
  db : Database;
  pdf_generator : student_data -> str -> outcome str
}.

Inductive method : Type := GET | POST | HEAD.

Record request : Type := mkRequest {
  req_method : method;
  args : list (string * str);
  form : list (string * str)
}.

Inductive template_value : Type :=
| TNone
| TStudent (s : Student)
| TDict (d : dict).

(** What a view returns: [render_template(name, **context)] or
    [redirect(url_for(endpoint, **values))]. *)
Inductive response : Type :=
| render_template (name : string) (context : list (string * template_value))
| redirect (endpoint : string) (values : list (string * str)).

Fixpoint lookup (l : list (string * str)) (k : string) : option str :=
  match l with
  | [] => None
  | (k', v) :: r => if String.eqb k' k then Some v else lookup r k
  end.

(** [x.strip()] where [x] is the result of a [.get(...)]: [None] has no
    [strip]. *)
Definition strip_opt (x : option str) : M str :=
  match x with
  | Some s => ret (strip s)
  | None =>
    raise (Exn "AttributeError"
               (lit "'NoneType' object has no attribute 'strip'"))
  end.

(** lines 385-386 of [upload_certificate_page] *)
Definition data_string (full_name matric_number year_of_graduation
                        date_of_award honors course_of_study : str) : str :=
  full_name ++ lit "|" ++ matric_number ++ lit "|" ++ year_of_graduation
  ++ lit "|" ++ date_of_award ++ lit "|" ++ honors ++ lit "|" ++ course_of_study.

(** [hashlib.sha256(s.encode('utf-8')).hexdigest()]; the [str] of the
    [UnicodeEncodeError] is cut down to its reason. *)
Definition sha256_hexdigest (s : str) : outcome str :=
  match encode_utf8 s with
  | Some b => Ok (Sha256.hexdigest b)
  | None => Raise (Exn "UnicodeEncodeError" (lit "surrogates not allowed"))
  end.

Definition certificate_hash_of (full_name matric_number year_of_graduation
                                date_of_award honors course_of_study : str)
  : outcome str :=
  sha256_hexdigest (data_string full_name matric_number year_of_graduation
                                date_of_award honors course_of_study).

(** *** The session *)

Definition set_id (s : Student) (k : Z) : Student :=
  mkStudent k (full_name s) (matric_number s) (date_of_award s)
            (year_of_graduation s) (honors s) (course_of_study s)
            (certificate_hash s) (certificate_path s) (blockchain_tx_hash s)
            (blockchain_block_number s) (on_blockchain s).

Definition set_tx_hash (v : value) (s : Student) : Student :=
  mkStudent (id s) (full_name s) (matric_number s) (date_of_award s)
            (year_of_graduation s) (honors s) (course_of_study s)
            (certificate_hash s) (certificate_path s) v
            (blockchain_block_number s) (on_blockchain s).

Definition set_block_number (v : value) (s : Student) : Student :=
  mkStudent (id s) (full_name s) (matric_number s) (date_of_award s)
            (year_of_graduation s) (honors s) (course_of_study s)
            (certificate_hash s) (certificate_path s) (blockchain_tx_hash s)
            v (on_blockchain s).

Definition set_on_blockchain (b : bool) (s : Student) : Student :=
  mkStudent (id s) (full_name s) (matric_number s) (date_of_award s)
            (year_of_graduation s) (honors s) (course_of_study s)
            (certificate_hash s) (certificate_path s) (blockchain_tx_hash s)
            (blockchain_block_number s) b.

(** The row id SQLite gives to the next inserted row. *)
Definition fresh_id (t : list Student) : Z :=
  1 + fold_right (fun s m => Z.max (id s) m) 0 t.

(** [matric_number] and [certificate_hash] are declared [unique=True]. *)
Definition unique_violation (t : list Student) (row : Student) : bool :=
  existsb (fun s => str_eqb (matric_number s) (matric_number row)
                    || str_eqb (certificate_hash s) (certificate_hash row)) t.

Definition update_row (k : Z) (f : Student -> Student) (t : list Student)
  : list Student :=
  map (fun s => if id s =? k then f s else s) t.

(** The flush of a commit: the changes are applied in order, inside one
    transaction; [keys] collects the primary keys given to inserted rows. *)
Fixpoint flush (d : Database) (cs : list change) (t : list Student)
               (keys : list Z) : outcome (list Student * list Z) :=
  match cs with
  | [] => Ok (t, keys)
  | Insert row :: r =>
    if unique_violation t row then Raise (integrity_error d row)
    else let k := fresh_id t in flush d r (t ++ [set_id row k]) (keys ++ [k])
  | SetTxHash k v :: r => flush d r (update_row k (set_tx_hash v) t) keys
  | SetBlockNumber k v :: r => flush d r (update_row k (set_block_number v) t) keys
  | SetOnBlockchain k b :: r => flush d r (update_row k (set_on_blockchain b) t) keys
  end.

Section Views.

Variable g : Globals.

(** One round trip to the database. *)
Definition db_trip (ev : event) : M unit :=
  fun w =>
    let w' := mkWorld (table w) (pending w) (flashes w) (trace w ++ [ev])
                      (S (db_trips w)) in
    match io_fault (db g) (db_trips w) with
    | Some e => (Raise e, w')
    | None => (Ok tt, w')
    end.

Definition select_first (p : Student -> bool) : M (option Student) :=
  fun w => (Ok (find p (table w)), w).

(** [Student.query.filter_by(matric_number=m).first()] *)
Definition query_first_by_matric (m : str) : M (option Student) :=
  db_trip (EQueryByMatric m) ;;;
  select_first (fun s => str_eqb (matric_number s) m).

(** [Student.query.filter_by(certificate_hash=h).first()] *)
Definition query_first_by_hash (h : str) : M (option Student) :=
  db_trip (EQueryByHash h) ;;;
  select_first (fun s => str_eqb (certificate_hash s) h).

(** [db.session.add(obj)], and an attribute assignment on an object that
    is already stored. *)
Definition session_record (c : change) : M unit :=
  fun w => (Ok tt, mkWorld (table w) (pending w ++ [c]) (flashes w)
                           (trace w) (db_trips w)).

(** [db.session.commit()].  It answers the primary keys of the rows it
    inserted (SQLAlchemy sets them on the objects). *)
Definition commit : M (list Z) :=
  db_trip ECommit ;;;
  fun w =>
    match flush (db g) (pending w) (table w) [] with
    | Ok (t', keys) =>
      (Ok keys, mkWorld t' [] (flashes w) (trace w) (db_trips w))
    | Raise e => (Raise e, w)
    end.

(** [db.session.rollback()] *)
Definition rollback : M unit :=
  emit ERollback ;;;
  fun w => (Ok tt, mkWorld (table w) [] (flashes w) (trace w) (db_trips w)).

Definition generate_certificate_pdf (d : student_data) (certificate_hash : str)
  : M str :=
  call (EGeneratePdf (data_matric_number d) certificate_hash)
       (pdf_generator g d certificate_hash).

(** [v[:10]] *)
Definition slice10 (v : value) : M str :=
  match v with
  | VStr s => ret (slice_to 10 s)
  | _ => raise (Exn "TypeError" (lit "object is not subscriptable"))
  end.

(** The view of [/verify]. *)
Definition verify_certificate (request : request) : M response :=
  hash_value <-
    match req_method request with
    | GET =>
      match lookup (args request) "hash" with
      | Some _ =>
        h <- strip_opt (lookup (args request) "hash") ;; ret (Some h)
      | None => ret None
      end
    | POST =>
      h <- strip_opt (lookup (form request) "certificate_hash") ;; ret (Some h)
    | HEAD => ret None
    end ;;
  match hash_value with
  | Some hash_value =>
    if str_truthy hash_value then
      if len hash_value =? 64 then
        student <- query_first_by_hash hash_value ;;
        blockchain_result <-
          match blockchain g with
          | Some bc =>
            r <- verify_certificate_on_blockchain (runtime g) bc hash_value ;;
            ret (TDict r)
          | None => ret TNone
          end ;;
        ret (render_template "verification_results.html"
               [ ("student"%string,
                  match student with Some s => TStudent s | None => TNone end);
                 ("blockchain_result"%string, blockchain_result) ])
      else
        ret (render_template "verification_results.html"
               [ ("student"%string, TNone);
                 ("blockchain_result"%string, TNone) ])
    else ret (render_template "verify_certificate.html" [])
  | None => ret (render_template "verify_certificate.html" [])
  end.

(** [upload_certificate_page], lines 370-408 (method [POST]): the form is
    read and checked and the PDF generated.  The result is the response of
    an early [return], or the object [new_student] that is stored next;
    its [certificate_hash] and [matric_number] are the local variables of
    these names. *)
Definition prepare (request : request) : M (response + Student) :=
  full_name <- strip_opt (lookup (form request) "full_name") ;;
  matric_number <- strip_opt (lookup (form request) "matric_number") ;;
  year_of_graduation <- strip_opt (lookup (form request) "year_of_graduation") ;;
  date_of_award <- strip_opt (lookup (form request) "date_of_award") ;;
  honors <- strip_opt (lookup (form request) "honors") ;;
  course_of_study <- strip_opt (lookup (form request) "course_of_study") ;;
  if negb (forallb str_truthy
             [full_name; matric_number; year_of_graduation; date_of_award;
              honors; course_of_study]) then
    flash (lit "Error: All fields are required!") "danger" ;;;
    ret (inl (redirect "upload_certificate_page" []))
  else
  existing <- query_first_by_matric matric_number ;;
  match existing with
  | Some _ =>
    flash (lit "Error: Certificate for Matric No. " ++ matric_number
           ++ lit " already exists.") "danger" ;;;
    ret (inl (redirect "upload_certificate_page" []))
  | None =>
    certificate_hash <-
      of_outcome (certificate_hash_of full_name matric_number
                    year_of_graduation date_of_award honors course_of_study) ;;
    certificate_path <-
      generate_certificate_pdf
        (mkStudentData full_name matric_number year_of_graduation
                       date_of_award honors course_of_study)
        certificate_hash ;;
    ret (inr (mkStudent 0 full_name matric_number date_of_award
                        year_of_graduation honors course_of_study
                        certificate_hash certificate_path VNone VNone false))
  end.

(** [upload_certificate_page], lines 410-440: the [try] block that stores
    the row and then anchors it, and its [except] clause. *)
Definition persist_and_anchor (new_student : Student) : M response :=
  try_except
    (session_record (Insert new_student) ;;;
     keys <- commit ;;
     let new_student_id := hd 0 keys in
     match blockchain g with
     | Some bc =>
       flash (lit "Certificate saved to database. Storing on blockchain...")
             "info" ;;;
       blockchain_result <-
         store_certificate_on_blockchain (runtime g) bc
           (certificate_hash new_student) (matric_number new_student) ;;
       success <- getitem blockchain_result "success" ;;
       if truthy success then
         tx_hash <- getitem blockchain_result "tx_hash" ;;
         session_record (SetTxHash new_student_id tx_hash) ;;;
         block_number <- getitem blockchain_result "block_number" ;;
         session_record (SetBlockNumber new_student_id block_number) ;;;
         session_record (SetOnBlockchain new_student_id true) ;;;
         commit ;;;
         tx_hash' <- getitem blockchain_result "tx_hash" ;;
         prefix <- slice10 tx_hash' ;;
         flash (lit "✅ Certificate stored on blockchain! Tx: " ++ prefix
                ++ lit "...") "success"
       else
         error <- getitem blockchain_result "error" ;;
         flash (lit "⚠️ Blockchain storage failed: " ++ str_of error
                ++ lit ". Certificate saved in database only.") "warning"
     | None =>
       flash (lit "Certificate saved successfully! (Blockchain not configured)")
             "success"
     end ;;;
     ret (redirect "upload_success_page"
                   [("hash_value"%string, certificate_hash new_student)]))
    (fun e =>
       rollback ;;;
       flash (lit "Database Error: Could not save certificate data. "
              ++ exn_str e) "danger" ;;;
       ret (redirect "upload_certificate_page" [])).

(** The view of [/upload_certificate], for a logged-in administrator. *)
Definition upload_certificate_page (request : request) : M response :=
  match req_method request with
  | POST =>
    prepared <- prepare request ;;
    match prepared with
    | inl early => ret early
    | inr new_student => persist_and_anchor new_student
    end
  | _ => ret (render_template "upload_certificate.html" [])
  end.

End Views.

End App.

(* ================================================================== *)
(** ** Vocabulary of the statements *)
(* ================================================================== *)

Module Spec.
Import Py Eff Blockchain App.

Definition is_hex_digit (c : N) : bool :=
  (((48 <=? c) && (c <=? 57)) || ((97 <=? c) && (c <=? 102)))%N.

(** The shape of a fingerprint: 64 lower-case hexadecimal digits. *)
Definition fingerprint_shaped (s : str) : bool :=
  (len s =? 64) && forallb is_hex_digit s.

(** Calls that reach the ledger node. *)
Definition is_ledger_event (ev : event) : bool :=
  match ev with
  | EIsConnected | EGetBalance _ | EGetTransactionCount _
  | EEstimateGas _ _ _ | EGasPrice | EBuildTransaction _
  | ESignTransaction _ | ESendRawTransaction _ | EWaitForReceipt _ _
  | ECallVerifyCertificate _ | ECallGetTotalCertificates => true
  | _ => false
  end.

(** Building, signing or submitting a transaction. *)
Definition is_transaction_event (ev : event) : bool :=
  match ev with
  | EBuildTransaction _ | ESignTransaction _ | ESendRawTransaction _ => true
  | _ => false
  end.

Definition is_print_event (ev : event) : bool :=
  match ev with EPrint _ => true | _ => false end.

(** A look-up of the table by certificate hash. *)
Definition is_hash_lookup (ev : event) : bool :=
  match ev with EQueryByHash _ => true | _ => false end.

(** [row] is the stored form of the object [s]: the same certificate, under
    some primary key and with whatever the ledger columns hold. *)
Definition stores (row s : Student) : Prop :=
  full_name row = full_name s /\ matric_number row = matric_number s
  /\ certificate_hash row = certificate_hash s
  /\ certificate_path row = certificate_path s.

(** The six fields of an issuance request, stripped, when the form has
    them all. *)
Definition request_fields (request : request) : option student_data :=
  match lookup (form request) "full_name",
        lookup (form request) "matric_number",
        lookup (form request) "year_of_graduation",
        lookup (form request) "date_of_award",
        lookup (form request) "honors",
        lookup (form request) "course_of_study" with
  | Some a, Some b, Some c, Some d, Some e, Some f =>
    Some (mkStudentData (strip a) (strip b) (strip c) (strip d) (strip e)
                        (strip f))
  | _, _, _, _, _, _ => None
  end.

(** The fingerprint of the fields of a request. *)
Definition fingerprint (d : student_data) : outcome str :=
  certificate_hash_of (data_full_name d) (data_matric_number d)
    (data_year_of_graduation d) (data_date_of_award d) (data_honors d)
    (data_course_of_study d).

(** The candidate submitted to [/verify]: the query parameter [hash] of a
    [GET], the form field [certificate_hash] of a [POST], stripped. *)
Definition candidate (request : request) : option str :=
  match req_method request with
  | GET => option_map strip (lookup (args request) "hash")
  | POST => option_map strip (lookup (form request) "certificate_hash")
  | HEAD => None
  end.

(** The world with [evs] added to its trace. *)
Definition logged (w : world) (evs : list event) : world :=
  mkWorld (table w) (pending w) (flashes w) (trace w ++ evs) (db_trips w).

(** The two preconditions of the anchor call, in the order they are
    checked: the cause reported when one fails, and the calls made up to
    there. *)
Inductive precondition_failure (rt : Runtime) (self : BlockchainManager)
  : str -> list event -> Prop :=
| not_connected :
    w3_is_connected (w3 self) = Ok false ->
    precondition_failure rt self
      (lit "Not connected to blockchain network")
      [EIsConnected]
| balance_below_minimum (wei : N) :
    w3_is_connected (w3 self) = Ok true ->
    eth_get_balance (w3 self) (account_address self) = Ok wei ->
    (wei < 1000000000000000)%N ->
    precondition_failure rt self
      (lit "Insufficient balance: " ++ float_str rt (from_wei_ether wei)
       ++ lit " ETH. Need at least 0.001 ETH")
      [EIsConnected; EGetBalance (account_address self)].

(** The exception with which the commit of the new row [s] fails in world
    [w], if it fails: a fault of the round trip, or a [UNIQUE] constraint
    that the row breaks. *)
Definition commit_failure (g : Globals) (w : world) (s : Student) : option exn :=
  match io_fault (db g) (db_trips w) with
  | Some e => Some e
  | None =>
    if unique_violation (table w) s then Some (integrity_error (db g) s)
    else None
  end.

(** The two shapes of the dictionary that the anchor call returns. *)
Definition anchor_success (d : dict) : Prop :=
  exists tx_hash block_number gas_used,
    d = [ "success" :- VBool true; "tx_hash" :- VStr tx_hash;
          "block_number" :- block_number; "gas_used" :- gas_used ].

Definition anchor_failure (d : dict) : Prop :=
  exists cause rest,
    d = ("success" :- VBool false) :: ("error" :- VStr cause) :: rest.

Definition empty_world : world := mkWorld [] [] [] [] 0.

(** What a run of a view reports as an error: its response and the
    messages it flashed with category ['danger']. *)
Definition reported_error (run : outcome response * world)
  : outcome response * list str :=
  (fst run,
   map snd (filter (fun cm => String.eqb (fst cm) "danger") (flashes (snd run)))).

(** A computation that only adds events to the trace, and whose result and
    events do not depend on the world it starts in. *)
Definition trace_only {A} (m : M A) : Prop :=
  forall w, m w = (fst (m empty_world), logged w (trace (snd (m empty_world)))).

(** What the anchor call answers, and the events it causes, in any world. *)
Definition anchor_outcome (rt : Runtime) (self : BlockchainManager)
                          (certificate_hash matric_number : str)
  : outcome dict :=
  fst (store_certificate_on_blockchain rt self certificate_hash matric_number
         empty_world).

Definition anchor_events (rt : Runtime) (self : BlockchainManager)
                         (certificate_hash matric_number : str)
  : list event :=
  trace (snd (store_certificate_on_blockchain rt self certificate_hash
                matric_number empty_world)).

End Spec.

(* ================================================================== *)
(** ** Sample deployments *)
(* ================================================================== *)

Module Sample.
Import Py Eff Blockchain App Spec.

(** A runtime for the samples: the only balance printed is 0.0005 ETH. *)
Definition rt : Runtime :=
  mkRuntime (fun _ => lit "0.0005") (fun _ => Ok (lit "2024-07-01 12:00:00")).

Definition tx_hash : str :=
  lit "0x5c504ed432cb51138bcf09aa5e8a410dd4a1e204ef84bfed1be16dfba1b22060".

Definition receipt : dict :=
  [ "status" :- VInt 1; "blockNumber" :- VInt 4370000; "gasUsed" :- VInt 91234 ].

(** A node that answers every call, with [wei] on the account. *)
Definition node (connected : bool) (wei : N) : Web3 :=
  mkWeb3 (Ok connected) (fun _ => Ok wei) (fun _ => Ok 7) (Ok 20000000000)
         (fun _ _ => None) (fun _ => Ok tx_hash) (fun _ _ => Ok receipt).

Definition timeout : exn :=
  Exn "ConnectionError" (lit "HTTPSConnectionPool: Read timed out.").

(** A contract that holds no certificate. *)
Definition empty_contract : Contract :=
  mkContract (fun _ _ _ => Ok 81234) (fun _ => None)
             (fun _ => Ok (false, [], 0)) (Ok 0).

(** A contract behind a node that cannot be reached. *)
Definition unreachable_contract : Contract :=
  mkContract (fun _ _ _ => Raise timeout) (fun _ => Some timeout)
             (fun _ => Raise timeout) (Raise timeout).

Definition manager (n : Web3) (c : Contract) : BlockchainManager :=
  mkBlockchainManager n c (lit "0xC0FFEE") (lit "key") (lit "0xACC0FFEE").

Definition funded : BlockchainManager :=
  manager (node true 1000000000000000000) empty_contract.
Definition underfunded : BlockchainManager :=
  manager (node true 500000000000000) empty_contract.
Definition unreachable : BlockchainManager :=
  manager (node false 0) unreachable_contract.

Definition integrity (s : Student) : exn :=
  Exn "IntegrityError" (lit "(sqlite3.IntegrityError) UNIQUE constraint failed").

Definition disk_full : exn :=
  Exn "OperationalError" (lit "(sqlite3.OperationalError) database or disk is full").

(** A database whose [k]-th round trip fails. *)
Definition fault_at (k : nat) : nat -> option exn :=
  fun n => if Nat.eqb n k then Some disk_full else None.

Definition no_fault : nat -> option exn := fun _ => None.

Definition pdf_path : str := lit "certificates/CS_2020_001_baf3559c.pdf".

Definition globals (bc : option BlockchainManager)
                   (faults : nat -> option exn) : Globals :=
  mkGlobals rt bc (mkDatabase faults integrity) (fun _ _ => Ok pdf_path).

Definition issue (name matric year date honors course : string) : request :=
  mkRequest POST []
    [ ("full_name"%string, lit name); ("matric_number"%string, lit matric);
      ("year_of_graduation"%string, lit year);
      ("date_of_award"%string, lit date); ("honors"%string, lit honors);
      ("course_of_study"%string, lit course) ].

(** The request of the end-to-end scenario. *)
Definition jane : request :=
  issue "Jane Doe" "CS/2020/001" "2024" "2024-07-01" "Second Class Upper"
        "Computer Science".

Definition jane_fields : student_data :=
  mkStudentData (lit "Jane Doe") (lit "CS/2020/001") (lit "2024")
                (lit "2024-07-01") (lit "Second Class Upper")
                (lit "Computer Science").

Definition jane_hash : str :=
  lit "baf3559c207c70c377a05b8166e6a3fde0b751b8861991396ccf34f49fd2dfd8".

(** The object [new_student] for that request, and the world in which it
    is about to be stored when the request starts in the empty world. *)
Definition jane_row : Student :=
  mkStudent 0 (lit "Jane Doe") (lit "CS/2020/001") (lit "2024-07-01")
            (lit "2024") (lit "Second Class Upper") (lit "Computer Science")
            jane_hash pdf_path VNone VNone false.

Definition jane_prepared : world :=
  mkWorld [] [] []
          [EQueryByMatric (lit "CS/2020/001");
           EGeneratePdf (lit "CS/2020/001") jane_hash] 1.

(** Two runs of the same request against a funded account: in the first
    the second commit (round trip 2) fails, after the ledger has confirmed
    the anchor; in the second the first commit (round trip 1) fails. *)
Definition partial_anchor_run : outcome response * world :=
  upload_certificate_page (globals (Some funded) (fault_at 2)) jane empty_world.

Definition storage_failure_run : outcome response * world :=
  upload_certificate_page (globals (Some funded) (fault_at 1)) jane empty_world.

(** A table that holds the row of [jane]. *)
Definition jane_stored : world :=
  mkWorld [App.set_id jane_row 1] [] [] [] 0.

(** Two requests whose fields differ and whose joined strings agree: the
    name of the second ends where the identifier of the first begins.
    [bar_stored] holds the row of the first. *)
Definition bar_first : request :=
  issue "Jane Doe" "CS|2020|001" "2024" "2024-07-01" "Second Class Upper"
        "Computer Science".

Definition bar_second : request :=
  issue "Jane Doe|CS" "2020|001" "2024" "2024-07-01" "Second Class Upper"
        "Computer Science".

Definition bar_hash : str :=
  lit "084e971b424a8a0e79b361dc8ff9459b1fafb84181880e920d608735d021af4b".

Definition bar_stored : world :=
  mkWorld
    [ mkStudent 1 (lit "Jane Doe") (lit "CS|2020|001") (lit "2024-07-01")
                (lit "2024") (lit "Second Class Upper")
                (lit "Computer Science") bar_hash pdf_path VNone VNone false ]
    [] [] [] 0.

(** Candidates for [/verify]: 64 characters that are not hexadecimal
    digits, a candidate that is too short, and a well-formed fingerprint
    that no table and no ledger holds. *)
Definition sixty_four_z : str := repeat 122%N 64.
Definition too_short : str := lit "abc".

Definition verify_get (candidate : str) : request :=
  mkRequest GET [("hash"%string, candidate)] [].

End Sample.

(* ================================================================== *)
(** ** blockchain.py: construction of the client *)
(* ================================================================== *)

Module Setup.
Import Py Eff Blockchain App.
Local Open Scope eff_scope.

(** What the constructor of [BlockchainManager] uses of web3 and
    eth_account: the provider for a URL, the address of the account of a
    private key (which raises on a malformed key), the checksum form of an
    address (which raises on a malformed address), and the contract object
    at an address. *)
Record Library : Type := mkLibrary {
  http_provider : str -> Web3;
  account_from_key : str -> outcome str;
  to_checksum_address : str -> outcome str;
  contract_at : Web3 -> str -> Contract
}.

Section Construction.

Variable lib : Library.

(** [BlockchainManager.__init__] *)
Definition init (infura_url contract_address private_key : str)
  : M BlockchainManager :=
  let w3 := http_provider lib infura_url in
  account_address <- of_outcome (account_from_key lib private_key) ;;
  checksum <- of_outcome (to_checksum_address lib contract_address) ;;
  let contract := contract_at lib w3 checksum in
  print (lit "✅ Connected to blockchain") ;;;
  print (lit "✅ Account: " ++ account_address) ;;;
  print (lit "✅ Contract: " ++ contract_address) ;;;
  ret (mkBlockchainManager w3 contract contract_address private_key
                           account_address).

Definition not_configured : M (option BlockchainManager) :=
  print (lit "⚠️ Blockchain not configured. Set environment variables:") ;;;
  print (lit "   - INFURA_URL") ;;;
  print (lit "   - CONTRACT_ADDRESS") ;;;
  print (lit "   - PRIVATE_KEY") ;;;
  ret None.

(** [initialize_blockchain], with the process environment as a list of
    variables: [os.getenv] answers [None] for a variable that is not set,
    and [all] rejects [None] and the empty string. *)
Definition initialize_blockchain (environ : list (string * str))
  : M (option BlockchainManager) :=
  match lookup environ "INFURA_URL", lookup environ "CONTRACT_ADDRESS",
        lookup environ "PRIVATE_KEY" with
  | Some infura_url, Some contract_address, Some private_key =>
    if forallb str_truthy [infura_url; contract_address; private_key] then
      try_except
        (blockchain <- init infura_url contract_address private_key ;;
         ret (Some blockchain))
        (fun e =>
           print (lit "❌ Failed to initialize blockchain: " ++ exn_str e) ;;;
           ret None)
    else not_configured
  | _, _, _ => not_configured
  end.

End Construction.

End Setup.

(* ================================================================== *)
(** ** app.py: the other views of the administrator *)
(* ================================================================== *)

Module Pages.
Import Py Eff Blockchain App.
Local Open Scope eff_scope.

Inductive context_value : Type :=
| CStr (s : str)
| CInt (z : Z)
| CBool (b : bool)
| CStudent (s : Student)
| CStudents (l : list Student)
| CStrs (l : list str).

(** [render_template(name, **context)] and [redirect(url_for(endpoint))]
    for the views below. *)
Inductive page : Type :=
| template (name : string) (context : list (string * context_value))
| redirect_to (endpoint : string).

(** The exception of [first_or_404] and [get_or_404]. *)
Definition NotFound : exn :=
  Exn "NotFound"
      (lit "404 Not Found: The requested URL was not found on the server. If you entered the URL manually please check your spelling and try again.").

(** [ORDER BY]: insertion into a list ordered by [leb]. *)
Fixpoint insert_by {A : Type} (leb : A -> A -> bool) (x : A) (l : list A)
  : list A :=
  match l with
  | [] => [x]
  | y :: r => if leb x y then x :: l else y :: insert_by leb x r
  end.

Definition sort_by {A : Type} (leb : A -> A -> bool) (l : list A) : list A :=
  fold_right (insert_by leb) [] l.

(** The order of SQLite on text (collation [BINARY]): that of the UTF-8
    bytes, which is the order of the code points. *)
Fixpoint str_leb (a b : str) : bool :=
  match a, b with
  | [], _ => true
  | _ :: _, [] => false
  | x :: a', y :: b' =>
    if (x <? y)%N then true
    else if (x =? y)%N then str_leb a' b' else false
  end.

(** [SELECT DISTINCT] *)
Fixpoint distinct (l : list str) : list str :=
  match l with
  | [] => []
  | x :: r => if existsb (str_eqb x) r then distinct r else x :: distinct r
  end.

Section Views.

Variable g : Globals.

(** [url_for('verify_certificate', hash=h, _external=True)] *)
Variable url_for_verify : str -> str.

(** A round trip to the database that is not one of the look-ups traced
    for the issuance and verification flows: it is counted, and may fail,
    like the others. *)
Definition db_round_trip : M unit :=
  fun w =>
    let w' := mkWorld (table w) (pending w) (flashes w) (trace w)
                      (S (db_trips w)) in
    match io_fault (db g) (db_trips w) with
    | Some e => (Raise e, w')
    | None => (Ok tt, w')
    end.

(** [x.first_or_404()], [Student.query.get_or_404(k)] *)
Definition or_404 (x : option Student) : M Student :=
  match x with Some s => ret s | None => raise NotFound end.

(** [Student.query.get_or_404(student_id)] *)
Definition get_or_404 (student_id : Z) : M Student :=
  db_round_trip ;;;
  found <- select_first (fun s => id s =? student_id) ;;
  or_404 found.

(** The view of [/upload_success/<hash_value>]. *)
Definition upload_success_page (hash_value : str) : M page :=
  found <- query_first_by_hash g hash_value ;;
  student <- or_404 found ;;
  let qr_data := url_for_verify (certificate_hash student) in
  ret (template "upload_success.html"
         [ ("student"%string, CStudent student);
           ("qr_data"%string, CStr qr_data) ]).

(** The view of [/dashboard]. *)
Definition dashboard_home : M page :=
  db_round_trip ;;;
  total_certificates <- (fun w => (Ok (Z.of_nat (List.length (table w))), w)) ;;
  db_round_trip ;;;
  blockchain_certificates <-
    (fun w => (Ok (Z.of_nat (List.length (filter on_blockchain (table w)))), w)) ;;
  blockchain_total <-
    match blockchain g with
    | Some bc => get_total_certificates bc
    | None => ret 0
    end ;;
  ret (template "dashboard_overview.html"
         [ ("total_certificates"%string, CInt total_certificates);
           ("blockchain_certificates"%string, CInt blockchain_certificates);
           ("blockchain_total"%string, CInt blockchain_total);
           ("blockchain_enabled"%string,
            CBool match blockchain g with Some _ => true | None => false end) ]).

(** [request.args.get(k, '')] *)
Definition arg_or_empty (request : request) (k : string) : str :=
  match lookup (args request) k with Some s => s | None => [] end.

(** The rows selected by [view_certificates]: a filter applies when its
    value is not empty. *)
Definition selected (selected_course selected_year : str) (s : Student)
  : bool :=
  (negb (str_truthy selected_course)
   || str_eqb (course_of_study s) selected_course)
  && (negb (str_truthy selected_year)
      || str_eqb (year_of_graduation s) selected_year).

(** The view of [/view_certificates]. *)
Definition view_certificates (request : request) : M page :=
  let selected_course := arg_or_empty request "course" in
  let selected_year := arg_or_empty request "year" in
  db_round_trip ;;;
  students <-
    (fun w =>
       (Ok (sort_by (fun a b => id b <=? id a)
                    (filter (selected selected_course selected_year)
                            (table w))), w)) ;;
  db_round_trip ;;;
  unique_courses <-
    (fun w =>
       (Ok (sort_by str_leb (distinct (map course_of_study (table w)))), w)) ;;
  db_round_trip ;;;
  unique_years <-
    (fun w =>
       (Ok (sort_by (fun a b => str_leb b a)
                    (distinct (map year_of_graduation (table w)))), w)) ;;
  ret (template "view_certificates.html"
         [ ("students"%string, CStudents students);
           ("unique_courses"%string, CStrs unique_courses);
           ("unique_years"%string, CStrs unique_years);
           ("selected_course"%string, CStr selected_course);
           ("selected_year"%string, CStr selected_year) ]).

(** [db.session.delete(student)] followed by [db.session.commit()]: the
    flush applies what the session holds and removes the row. *)
Definition delete_and_commit (student : Student) : M unit :=
  db_trip g ECommit ;;;
  fun w =>
    match flush (db g) (pending w) (table w) [] with
    | Ok (t', _) =>
      (Ok tt,
       mkWorld (filter (fun s => negb (id s =? id student)) t') []
               (flashes w) (trace w) (db_trips w))
    | Raise e => (Raise e, w)
    end.

(** The view of [/delete_certificate/<int:student_id>]. *)
Definition delete_certificate (student_id : Z) : M page :=
  student <- get_or_404 student_id ;;
  try_except
    (delete_and_commit student ;;;
     flash (lit "Record for " ++ full_name student ++ lit " (ID: "
            ++ str_of_int student_id ++ lit ") successfully deleted.")
           "success")
    (fun e =>
       rollback ;;;
       flash (lit "Error deleting record: " ++ exn_str e) "danger") ;;;
  ret (redirect_to "view_certificates").

End Views.

End Pages.

(* ================================================================== *)
(** ** app.py: where the PDF is written *)
(* ================================================================== *)

Module Pdf.
Import Py Eff Blockchain App.

Definition slash : N := 47.
Definition underscore : N := 95.

(** [s.replace(old, new)] for two strings of one character each. *)
Definition replace_char (old new : N) (s : str) : str :=
  map (fun c => if (c =? old)%N then new else c) s.

Definition startswith_char (c : N) (s : str) : bool :=
  match s with
  | x :: _ => (x =? c)%N
  | [] => false
  end.

Definition endswith_char (c : N) (s : str) : bool :=
  startswith_char c (rev s).

(** [os.path.join(a, b)] of [posixpath]. *)
Definition path_join (a b : str) : str :=
  if startswith_char slash b then b
  else if negb (str_truthy a) || endswith_char slash a then a ++ b
  else a ++ lit "/" ++ b.

(** lines 99-100 of [generate_certificate_pdf] *)
Definition pdf_filename (d : student_data) (certificate_hash : str) : str :=
  replace_char slash underscore (data_matric_number d) ++ lit "_"
  ++ slice_to 8 certificate_hash ++ lit ".pdf".

Definition file_path (d : student_data) (certificate_hash : str) : str :=
  path_join (lit "certificates") (pdf_filename d certificate_hash).

End Pdf.

(* ================================================================== *)
(** ** Vocabulary of the further statements *)
(* ================================================================== *)

Module Facts.
Import Py Eff Blockchain App Spec.

(** The constraints of the table [student]: the primary key and the two
    [unique=True] columns. *)
Definition table_ok (t : list Student) : Prop :=
  NoDup (map id t) /\ NoDup (map matric_number t)
  /\ NoDup (map certificate_hash t).

(** The row of [s] under key [k] once its anchor has been written. *)
Definition anchored_row (s : Student) (k : Z) (tx_hash block_number : value)
  : Student :=
  set_on_blockchain true
    (set_block_number block_number (set_tx_hash tx_hash (set_id s k))).

(** No white space at either end. *)
Definition trimmed (s : str) : Prop := strip s = s.

(** The certificate hash of a row is the hash of its own six fields. *)
Definition hash_matches_fields (row : Student) : Prop :=
  certificate_hash_of (full_name row) (matric_number row)
    (year_of_graduation row) (date_of_award row) (honors row)
    (course_of_study row) = Ok (certificate_hash row).

(** The code point of ["|"], and the strings without it. *)
Definition bar : N := 124.

Definition bar_free (s : str) : Prop :=
  forallb (fun c => negb (c =? bar)%N) s = true.

(** The events of a run that build, sign or send a transaction. *)
Definition transaction_events (evs : list event) : list event :=
  filter is_transaction_event evs.

(** The anchor call has got as far as sending [tx], and the node has
    acknowledged it with [tx_hash]: the client is connected, the balance
    reaches 0.001 ETH, and nonce, gas estimate, gas price, building,
    signing and sending have all gone through. *)
Definition submitted (self : BlockchainManager)
                     (certificate_hash matric_number : str)
                     (tx : transaction) (tx_hash : str) : Prop :=
  w3_is_connected (w3 self) = Ok true
  /\ (exists wei,
        eth_get_balance (w3 self) (account_address self) = Ok wei
        /\ (1000000000000000 <= wei)%N)
  /\ (exists nonce gas_estimate gas_price,
        eth_get_transaction_count (w3 self) (account_address self) = Ok nonce
        /\ storeCertificate_estimate_gas (contract self) certificate_hash
             matric_number (account_address self) = Ok gas_estimate
        /\ eth_gas_price (w3 self) = Ok gas_price
        /\ tx = mkTransaction certificate_hash matric_number
                              (account_address self) nonce
                              (gas_estimate + 10000) gas_price)
  /\ storeCertificate_build_transaction (contract self) tx = None
  /\ eth_sign_transaction (w3 self) tx (private_key self) = None
  /\ eth_send_raw_transaction (w3 self) tx = Ok tx_hash.

(** The three variables of the ledger configuration, when each is set
    and not empty. *)
Definition configured (environ : list (string * str))
  : option (str * str * str) :=
  match lookup environ "INFURA_URL", lookup environ "CONTRACT_ADDRESS",
        lookup environ "PRIVATE_KEY" with
  | Some ((_ :: _) as url), Some ((_ :: _) as address),
    Some ((_ :: _) as key) =>
    Some (url, address, key)
  | _, _, _ => None
  end.

(** The events of a verification: the look-up by hash, the call of the
    view function of the contract, and output. *)
Definition is_read_event (ev : event) : bool :=
  match ev with
  | EQueryByHash _ | ECallVerifyCertificate _ | EPrint _ => true
  | _ => false
  end.

(** [AttributeError] of [None.strip()]. *)
Definition none_has_no_strip : exn :=
  Exn "AttributeError" (lit "'NoneType' object has no attribute 'strip'").

(** The next [n] round trips to the database go through. *)
Definition db_answers (g : Globals) (w : world) (n : nat) : Prop :=
  forall k, (k < n)%nat -> io_fault (db g) (k + db_trips w) = None.

(** The world after [n] further round trips that are not traced. *)
Definition after_trips (w : world) (n : nat) : world :=
  mkWorld (table w) (pending w) (flashes w) (trace w) (n + db_trips w).

(** The strings without a slash. *)
Definition slash_free (s : str) : Prop :=
  forallb (fun c => negb (c =? Pdf.slash)%N) s = true.

End Facts.

(* ================================================================== *)
(** ** Further sample deployments *)
(* ================================================================== *)

Module Cases.
Import Py Eff Blockchain App Spec Setup Pages.

(** The transaction that the sample managers send for [Sample.jane]. *)
Definition jane_tx : transaction :=
  mkTransaction Sample.jane_hash (lit "CS/2020/001") (lit "0xACC0FFEE") 7
                (81234 + 10000) 20000000000.

Definition reverted_receipt : dict :=
  [ "status" :- VInt 0; "blockNumber" :- VInt 4370001; "gasUsed" :- VInt 30000 ].

(** A node on which the transaction is mined and reverts. *)
Definition reverting : BlockchainManager :=
  Sample.manager
    (mkWeb3 (Ok true) (fun _ => Ok 1000000000000000000%N) (fun _ => Ok 7)
            (Ok 20000000000) (fun _ _ => None) (fun _ => Ok Sample.tx_hash)
            (fun _ _ => Ok reverted_receipt))
    Sample.empty_contract.

Definition time_exhausted : exn :=
  Exn "TimeExhausted"
      (lit "Transaction is not in the chain after 120 seconds").

(** A node that accepts the transaction and does not mine it in time. *)
Definition stalling : BlockchainManager :=
  Sample.manager
    (mkWeb3 (Ok true) (fun _ => Ok 1000000000000000000%N) (fun _ => Ok 7)
            (Ok 20000000000) (fun _ _ => None) (fun _ => Ok Sample.tx_hash)
            (fun _ _ => Raise time_exhausted))
    Sample.empty_contract.

(** The hash that [upload_certificate_page] computes for six fields. *)
Definition hash_of (name matric year date honors course : string) : str :=
  match certificate_hash_of (lit name) (lit matric) (lit year) (lit date)
                            (lit honors) (lit course) with
  | Ok h => h
  | Raise _ => []
  end.

Definition john_hash : str :=
  Eval vm_compute in
    hash_of "John Roe" "PH/2019/014" "2023" "2023-07-03" "First Class"
            "Physics".

Definition ada_hash : str :=
  Eval vm_compute in
    hash_of "Ada Obi" "CS/2020/017" "2024" "2024-07-01" "First Class"
            "Computer Science".

Definition john_row : Student :=
  mkStudent 2 (lit "John Roe") (lit "PH/2019/014") (lit "2023-07-03")
            (lit "2023") (lit "First Class") (lit "Physics") john_hash
            (lit "certificates/PH_2019_014.pdf")
            (VStr Sample.tx_hash) (VInt 4370000) true.

(** A table of three certificates, the second of them anchored. *)
Definition register : world :=
  mkWorld
    [ set_id Sample.jane_row 1;
      john_row;
      mkStudent 3 (lit "Ada Obi") (lit "CS/2020/017") (lit "2024-07-01")
                (lit "2024") (lit "First Class") (lit "Computer Science")
                ada_hash (lit "certificates/CS_2020_017.pdf")
                VNone VNone false ]
    [] [] [] 0.

(** The request of [/view_certificates] with both filters set. *)
Definition list_request (course year : string) : request :=
  mkRequest GET [ ("course"%string, lit course); ("year"%string, lit year) ] [].

Definition verify_url (h : str) : str :=
  lit "http://localhost:5000/verify?hash=" ++ h.

End Cases.

(* ================================================================== *)
(** ** Strings and the digest *)
(* ================================================================== *)

Import Py Eff Blockchain App Spec.

Example sha256_empty :
  Sha256.hexdigest [] =
  lit "e3b0c44298fc1c149afbf4c8996fb92427ae41e4649b934ca495991b7852b855".
Proof. vm_compute. reflexivity. Qed.

Example sha256_abc :
  Sha256.hexdigest (list_byte_of_string "abc") =
  lit "ba7816bf8f01cfea414140de5dae2223b00361a396177a9cb410ff61f20015ad".
Proof. vm_compute. reflexivity. Qed.

Example sha256_two_blocks :
  Sha256.hexdigest
    (list_byte_of_string
       "abcdbcdecdefdefgefghfghighijhijkijkljklmklmnlmnomnopnopq") =
  lit "248d6a61d20638b8e5c026930c3e6039a33ce45964ff2167f6ecedd419db06c1".
Proof. vm_compute. reflexivity. Qed.

Example sha256_padding_boundaries :
  Sha256.hexdigest (repeat "a"%byte 55) = lit "9f4390f8d30c2dd92ec9f095b65e2b9ae9b0a925a5258e241c9f1e910f734318"
  /\ Sha256.hexdigest (repeat "a"%byte 56) = lit "b35439a4ac6f0948b6d6f9e3c6af0f5f590ce20f1bde7090ef7970686ec6738a"
  /\ Sha256.hexdigest (repeat "a"%byte 64) = lit "ffe054fe7ae0cb6dc65c3af9b61d5209f439851db43d0ba5997337df154668eb".
Proof. repeat split; vm_compute; reflexivity. Qed.

Example sha256_of_encoded_text :
  sha256_hexdigest (lit "Zoë|✅") = Ok (lit "72d6ed9fc52cb05e0ebfb1467e2c9fbfd087f34e5b7067a937d2c270dd2ce525").
Proof. vm_compute. reflexivity. Qed.

Lemma hexdigit_is_hex (d : Z) : is_hex_digit (Sha256.hexdigit d) = true.
Proof.
  unfold Sha256.hexdigit, is_hex_digit.
  assert (H : 0 <= d mod 16 < 16) by (apply Z.mod_pos_bound; lia).
  destruct (Z.to_N (d mod 16) <? 10)%N eqn:E.
  - apply N.ltb_lt in E. apply orb_true_iff. left.
    apply andb_true_iff. split; apply N.leb_le; lia.
  - apply N.ltb_ge in E. apply orb_true_iff. right.
    apply andb_true_iff. split; apply N.leb_le; lia.
Qed.

Lemma hex32_length (x : Z) : List.length (Sha256.hex32 x) = 8%nat.
Proof. unfold Sha256.hex32. rewrite length_map. reflexivity. Qed.

Lemma hex32_is_hex (x : Z) : forallb is_hex_digit (Sha256.hex32 x) = true.
Proof.
  unfold Sha256.hex32. apply forallb_forall. intros c Hc.
  apply in_map_iff in Hc. destruct Hc as [i [<- _]]. apply hexdigit_is_hex.
Qed.

Lemma hexdigest_length (b : bytes) : len (Sha256.hexdigest b) = 64.
Proof.
  unfold len, Sha256.hexdigest. cbv zeta.
  rewrite !length_app, !hex32_length. reflexivity.
Qed.

Lemma hexdigest_is_hex (b : bytes) :
  forallb is_hex_digit (Sha256.hexdigest b) = true.
Proof.
  unfold Sha256.hexdigest. cbv zeta.
  rewrite !forallb_app, !hex32_is_hex. reflexivity.
Qed.

Lemma encode_utf8_app (a b : str) :
  encode_utf8 (a ++ b) =
  match encode_utf8 a, encode_utf8 b with
  | Some x, Some y => Some (x ++ y)
  | _, _ => None
  end.
Proof.
  induction a as [|c a IH]; simpl.
  - destruct (encode_utf8 b); reflexivity.
  - destruct (encodable c); [|reflexivity].
    rewrite IH. destruct (encode_utf8 a); [|reflexivity].
    destruct (encode_utf8 b); [|reflexivity].
    rewrite app_assoc. reflexivity.
Qed.

Lemma well_formed_encode (s : str) :
  well_formed s -> exists b, encode_utf8 s = Some b.
Proof.
  unfold well_formed. induction s as [|c s IH]; simpl; intros H.
  - eauto.
  - apply andb_true_iff in H. destruct H as [Hc Hs]. rewrite Hc.
    destruct (IH Hs) as [b ->]. eauto.
Qed.

Lemma well_formed_app (a b : str) :
  well_formed a -> well_formed b -> well_formed (a ++ b).
Proof.
  unfold well_formed. intros Ha Hb. rewrite forallb_app, Ha, Hb. reflexivity.
Qed.

(** C2.  For well-formed fields (empty ones included) the certificate hash
    is the SHA-256 hex digest of the UTF-8 encoding of the six fields in
    the order name, identifier, graduation year, award date, honors,
    program, joined by "|"; it has 64 characters, all of them hexadecimal
    digits, and it is a function of the six fields alone. *)
Theorem certificate_hash_is_sha256_of_fields :
  forall name identifier year date honors program : str,
    well_formed name -> well_formed identifier -> well_formed year ->
    well_formed date -> well_formed honors -> well_formed program ->
    exists b : bytes,
      encode_utf8 (name ++ lit "|" ++ identifier ++ lit "|" ++ year
                   ++ lit "|" ++ date ++ lit "|" ++ honors ++ lit "|"
                   ++ program) = Some b
      /\ certificate_hash_of name identifier year date honors program
         = Ok (Sha256.hexdigest b)
      /\ len (Sha256.hexdigest b) = 64
      /\ fingerprint_shaped (Sha256.hexdigest b) = true
      /\ (forall h1 h2,
            certificate_hash_of name identifier year date honors program = Ok h1 ->
            certificate_hash_of name identifier year date honors program = Ok h2 ->
            h1 = h2).
Proof.
  intros name identifier year date honors program Hn Hi Hy Hd Hh Hp.
  assert (Hbar : well_formed (lit "|")) by reflexivity.
  destruct (well_formed_encode
              (name ++ lit "|" ++ identifier ++ lit "|" ++ year ++ lit "|"
               ++ date ++ lit "|" ++ honors ++ lit "|" ++ program))
    as [b Hb].
  { repeat (apply well_formed_app; try assumption). }
  exists b. split; [exact Hb|]. split.
  - unfold certificate_hash_of, sha256_hexdigest, data_string.
    rewrite Hb. reflexivity.
  - split; [apply hexdigest_length|]. split.
    + unfold fingerprint_shaped.
      rewrite hexdigest_length, hexdigest_is_hex. reflexivity.
    + intros h1 h2 H1 H2. rewrite H1 in H2. congruence.
Qed.

Lemma certificate_hash_is_sha256_of_fields_witness :
  exists b : bytes,
    encode_utf8 (lit "Jane Doe" ++ lit "|" ++ lit "CS/2020/001" ++ lit "|"
                 ++ lit "2024" ++ lit "|" ++ lit "2024-07-01" ++ lit "|"
                 ++ lit "Second Class Upper" ++ lit "|"
                 ++ lit "Computer Science") = Some b
    /\ certificate_hash_of (lit "Jane Doe") (lit "CS/2020/001") (lit "2024")
         (lit "2024-07-01") (lit "Second Class Upper")
         (lit "Computer Science") = Ok (Sha256.hexdigest b)
    /\ len (Sha256.hexdigest b) = 64
    /\ fingerprint_shaped (Sha256.hexdigest b) = true
    /\ (forall h1 h2,
          certificate_hash_of (lit "Jane Doe") (lit "CS/2020/001") (lit "2024")
            (lit "2024-07-01") (lit "Second Class Upper")
            (lit "Computer Science") = Ok h1 ->
          certificate_hash_of (lit "Jane Doe") (lit "CS/2020/001") (lit "2024")
            (lit "2024-07-01") (lit "Second Class Upper")
            (lit "Computer Science") = Ok h2 ->
          h1 = h2).
Proof.
  apply (certificate_hash_is_sha256_of_fields
           (lit "Jane Doe") (lit "CS/2020/001") (lit "2024")
           (lit "2024-07-01") (lit "Second Class Upper")
           (lit "Computer Science")); reflexivity.
Defined.

Example certificate_hash_of_empty_fields :
  certificate_hash_of [] [] [] [] [] []
  = Ok (lit "1867f76f89b18a0f04c72020a91ed03b5557354322022ed5b08d045d20b8689c").
Proof. vm_compute. reflexivity. Qed.

Example certificate_hash_jane_doe :
  certificate_hash_of (lit "Jane Doe") (lit "CS/2020/001") (lit "2024")
    (lit "2024-07-01") (lit "Second Class Upper") (lit "Computer Science")
  = Ok (lit "baf3559c207c70c377a05b8166e6a3fde0b751b8861991396ccf34f49fd2dfd8").
Proof. vm_compute. reflexivity. Qed.

(* ================================================================== *)
(** ** The ledger client *)
(* ================================================================== *)

(** Unfolds the monad; [split_outcomes] then splits on what the outside
    answers. *)
Ltac simpl_eff :=
  cbv beta iota zeta delta
      [try_except bind call print emit flash of_outcome ret raise getitem
       raising table pending flashes trace db_trips logged negb fst snd] in *.

Ltac split_stuck :=
  match goal with
  | |- context [match ?x with _ => _ end] =>
    lazymatch x with
    | context [match _ with _ => _ end] => fail
    | _ => destruct x eqn:?
    end
  end.

Ltac split_outcomes := repeat (split_stuck; simpl_eff).

Lemma logged_nil (w : world) : logged w [] = w.
Proof. destruct w. unfold logged. simpl. rewrite app_nil_r. reflexivity. Qed.

Lemma logged_logged (w : world) (a b : list event) :
  logged (logged w a) b = logged w (a ++ b).
Proof. unfold logged. simpl. rewrite app_assoc. reflexivity. Qed.

Lemma trace_only_run {A} (m : M A) :
  trace_only m ->
  exists r evs, forall w, m w = (r, logged w evs).
Proof.
  intros H. exists (fst (m empty_world)), (trace (snd (m empty_world))).
  exact H.
Qed.

Lemma trace_only_intro {A} (m : M A) (r : outcome A) (evs : list event) :
  (forall w, m w = (r, logged w evs)) -> trace_only m.
Proof.
  intros H w. rewrite (H empty_world), (H w). reflexivity.
Qed.

Lemma trace_only_ret {A} (a : A) : trace_only (ret a).
Proof. apply (trace_only_intro _ (Ok a) []). intros w. unfold ret. rewrite logged_nil. reflexivity. Qed.

Lemma trace_only_raise {A} (e : exn) : trace_only (@raise A e).
Proof. apply (trace_only_intro _ (Raise e) []). intros w. unfold raise. rewrite logged_nil. reflexivity. Qed.

Lemma trace_only_emit (ev : event) : trace_only (emit ev).
Proof. apply (trace_only_intro _ (Ok tt) [ev]). reflexivity. Qed.

Lemma trace_only_bind {A B} (m : M A) (k : A -> M B) :
  trace_only m -> (forall a, trace_only (k a)) -> trace_only (bind m k).
Proof.
  intros Hm Hk. destruct (trace_only_run m Hm) as [r [evs Hr]].
  destruct r as [a|e].
  - destruct (trace_only_run (k a) (Hk a)) as [r' [evs' Hr']].
    apply (trace_only_intro _ r' (evs ++ evs')). intros w.
    unfold bind. rewrite Hr, Hr', logged_logged. reflexivity.
  - apply (trace_only_intro _ (Raise e) evs). intros w.
    unfold bind. rewrite Hr. reflexivity.
Qed.

Lemma trace_only_try {A} (m : M A) (h : exn -> M A) :
  trace_only m -> (forall e, trace_only (h e)) -> trace_only (try_except m h).
Proof.
  intros Hm Hh. destruct (trace_only_run m Hm) as [r [evs Hr]].
  destruct r as [a|e].
  - apply (trace_only_intro _ (Ok a) evs). intros w.
    unfold try_except. rewrite Hr. reflexivity.
  - destruct (trace_only_run (h e) (Hh e)) as [r' [evs' Hr']].
    apply (trace_only_intro _ r' (evs ++ evs')). intros w.
    unfold try_except. rewrite Hr, Hr', logged_logged. reflexivity.
Qed.

Lemma trace_only_of_outcome {A} (o : outcome A) : trace_only (of_outcome o).
Proof. destruct o; [apply trace_only_ret | apply trace_only_raise]. Qed.

Lemma trace_only_call {A} (ev : event) (o : outcome A) : trace_only (call ev o).
Proof.
  apply trace_only_bind; [apply trace_only_emit|].
  intros _. apply trace_only_of_outcome.
Qed.

Lemma trace_only_getitem (d : dict) (k : string) : trace_only (getitem d k).
Proof.
  unfold getitem. destruct (get d k); [apply trace_only_ret | apply trace_only_raise].
Qed.

Ltac trace_only_step :=
  lazymatch goal with
  | |- trace_only (try_except _ _) => apply trace_only_try
  | |- trace_only (bind _ _) => apply trace_only_bind
  | |- trace_only (call _ _) => apply trace_only_call
  | |- trace_only (ret _) => apply trace_only_ret
  | |- trace_only (raise _) => apply trace_only_raise
  | |- trace_only (emit _) => apply trace_only_emit
  | |- trace_only (getitem _ _) => apply trace_only_getitem
  | |- trace_only (of_outcome _) => apply trace_only_of_outcome
  | |- trace_only (if ?b then _ else _) => destruct b
  | |- trace_only (match ?x with _ => _ end) => destruct x
  | |- trace_only _ => fail
  | |- forall _, _ => intro
  end.

Ltac trace_only_tac := repeat trace_only_step.

Lemma store_certificate_trace_only rt self h m :
  trace_only (store_certificate_on_blockchain rt self h m).
Proof.
  unfold store_certificate_on_blockchain, is_connected, get_balance, print.
  trace_only_tac.
Qed.

(** C5.  [store_certificate_on_blockchain] never raises: whatever the node
    and the contract answer, it returns a dictionary whose ['success'] is
    [True], or whose ['success'] is [False] and whose ['error'] is a string
    giving the cause. *)
Theorem store_certificate_never_raises :
  forall (rt : Runtime) (self : BlockchainManager)
         (certificate_hash matric_number : str) (w : world),
  exists (d : dict) (w' : world),
    store_certificate_on_blockchain rt self certificate_hash matric_number w
    = (Ok d, w')
    /\ (get d "success" = Some (VBool true)
        \/ (get d "success" = Some (VBool false)
            /\ exists cause : str, get d "error" = Some (VStr cause))).
Proof.
  intros rt self h m [t p f tr n].
  unfold store_certificate_on_blockchain, is_connected, get_balance.
  simpl_eff.
  split_outcomes;
    (do 2 eexists; split; [reflexivity|];
     first [ left; reflexivity
           | right; split; [reflexivity | eexists; reflexivity] ]).
Qed.

Lemma balance_lt_minimum (wei : N) :
  balance_lt (from_wei_ether wei) (1 # 1000) = true <->
  (wei < 1000000000000000)%N.
Proof.
  unfold balance_lt, from_wei_ether, Qle_bool. simpl Qnum. simpl Qden.
  rewrite negb_true_iff, Z.leb_gt. lia.
Qed.

(** C8.  The anchor call checks that the client is connected, and then
    that the balance reaches 0.001 ETH.  When the first check fails the
    balance is not asked for; when either fails the call returns the
    failure with its cause, and no transaction has been built, signed or
    sent. *)
Theorem store_certificate_checks_preconditions_first :
  forall (rt : Runtime) (self : BlockchainManager)
         (certificate_hash matric_number cause : str)
         (checks : list event) (w : world),
    precondition_failure rt self cause checks ->
    store_certificate_on_blockchain rt self certificate_hash matric_number w
    = (Ok ["success" :- VBool false; "error" :- VStr cause], logged w checks)
    /\ existsb is_transaction_event checks = false.
Proof.
  intros rt self h m cause checks [t p f tr n] Hpre.
  unfold store_certificate_on_blockchain, is_connected, get_balance.
  destruct Hpre as [Hc | wei Hc Hb Hlt]; simpl_eff; rewrite Hc; simpl_eff.
  - split; reflexivity.
  - rewrite Hb. simpl_eff.
    apply balance_lt_minimum in Hlt. rewrite Hlt.
    split; [|reflexivity]. rewrite <- app_assoc. reflexivity.
Qed.

Lemma store_certificate_checks_preconditions_first_witness :
  store_certificate_on_blockchain Sample.rt Sample.underfunded
    (lit "baf3559c") (lit "CS/2020/001") empty_world
  = (Ok ["success" :- VBool false;
         "error" :- VStr (lit "Insufficient balance: "
                          ++ float_str Sample.rt (from_wei_ether 500000000000000)
                          ++ lit " ETH. Need at least 0.001 ETH")],
     logged empty_world
            [EIsConnected; EGetBalance (account_address Sample.underfunded)])
  /\ existsb is_transaction_event
       [EIsConnected; EGetBalance (account_address Sample.underfunded)] = false.
Proof.
  apply (store_certificate_checks_preconditions_first
           Sample.rt Sample.underfunded).
  apply (balance_below_minimum Sample.rt Sample.underfunded 500000000000000);
    reflexivity.
Defined.

(** C7.  [verify_certificate_on_blockchain] only reads: it makes the one
    [call()] of the view function [verifyCertificate] and leaves the table,
    the session and the flashed messages alone.  When the call raises (the
    ledger cannot be reached) the result carries the key ['error'] with the
    cause; when the ledger answers that the hash is not stored the result is
    [{'exists': False}], without that key.  The key ['error'] is absent
    exactly when the ledger answered (and, for a stored hash, its timestamp
    could be rendered). *)
Theorem verify_on_blockchain_tells_unreachable_from_not_found :
  forall (rt : Runtime) (self : BlockchainManager) (certificate_hash : str)
         (w : world),
  exists (d : dict) (prints : list event),
    verify_certificate_on_blockchain rt self certificate_hash w
    = (Ok d, logged w (ECallVerifyCertificate certificate_hash :: prints))
    /\ forallb is_print_event prints = true
    /\ match verifyCertificate_call (contract self) certificate_hash with
       | Raise e =>
         d = ["exists" :- VBool false; "error" :- VStr (exn_str e)]
       | Ok (false, _, _) =>
         d = ["exists" :- VBool false]
       | Ok (true, matric_number, timestamp) =>
         get d "exists" = Some (VBool true) \/
         exists e, local_date_str rt timestamp = Raise e
       end
    /\ (get d "error" = None <->
        exists found matric_number timestamp,
          verifyCertificate_call (contract self) certificate_hash
          = Ok (found, matric_number, timestamp)
          /\ (found = true ->
              exists date, local_date_str rt timestamp = Ok date)).
Proof.
  intros rt self h [t p f tr n].
  unfold verify_certificate_on_blockchain. simpl_eff.
  destruct (verifyCertificate_call (contract self) h)
    as [[[found matric] timestamp]|e] eqn:Hcall; simpl_eff.
  - destruct found; simpl_eff.
    + destruct (local_date_str rt timestamp) as [date|e] eqn:Hdate; simpl_eff.
      * exists ["exists" :- VBool true; "matric_number" :- VStr matric;
                "timestamp" :- VInt timestamp; "date_stored" :- VStr date], [].
        repeat split; try reflexivity; try (left; reflexivity).
        intros _. exists true, matric, timestamp. split; [reflexivity|].
        intros _. exists date. exact Hdate.
      * exists ["exists" :- VBool false; "error" :- VStr (exn_str e)],
               [EPrint (lit "❌ Verification error: " ++ exn_str e)].
        split; [rewrite <- app_assoc; reflexivity|].
        split; [reflexivity|]. split; [right; exists e; reflexivity|].
        split; [discriminate|].
        intros [found [m' [t' [Heq Hd]]]]. inversion Heq; subst.
        destruct (Hd eq_refl) as [date Hdate']. congruence.
    + exists ["exists" :- VBool false], [].
      repeat split; try reflexivity.
      intros _. exists false, matric, timestamp. split; [reflexivity|].
      discriminate.
  - exists ["exists" :- VBool false; "error" :- VStr (exn_str e)],
           [EPrint (lit "❌ Verification error: " ++ exn_str e)].
    split; [rewrite <- app_assoc; reflexivity|].
    split; [reflexivity|]. split; [reflexivity|].
    split; [discriminate|].
    intros [found [m' [t' [Heq _]]]]. discriminate.
Qed.

(** C10.  [get_total_certificates] returns 0 whenever the call to the
    contract raises, which is also what it returns for a ledger that holds
    no certificate: the two cannot be told apart from the returned value. *)
Theorem total_certificates_is_zero_on_failure :
  forall (down holds_none : BlockchainManager) (w1 w2 : world) (e : exn),
    getTotalCertificates_call (contract down) = Raise e ->
    getTotalCertificates_call (contract holds_none) = Ok 0 ->
    fst (get_total_certificates down w1) = Ok 0
    /\ fst (get_total_certificates down w1)
       = fst (get_total_certificates holds_none w2).
Proof.
  intros down holds_none [t1 p1 f1 tr1 n1] [t2 p2 f2 tr2 n2] e Hdown Hnone.
  unfold get_total_certificates. simpl_eff.
  rewrite Hdown, Hnone. simpl_eff. split; reflexivity.
Qed.

Lemma total_certificates_is_zero_on_failure_witness :
  fst (get_total_certificates Sample.unreachable empty_world) = Ok 0
  /\ fst (get_total_certificates Sample.unreachable empty_world)
     = fst (get_total_certificates Sample.funded empty_world).
Proof.
  apply (total_certificates_is_zero_on_failure
           Sample.unreachable Sample.funded empty_world empty_world
           Sample.timeout); reflexivity.
Defined.

(* ================================================================== *)
(** ** The views *)
(* ================================================================== *)

Lemma store_certificate_shape rt self h m :
  exists d,
    anchor_outcome rt self h m = Ok d /\ (anchor_success d \/ anchor_failure d).
Proof.
  unfold anchor_outcome, empty_world.
  unfold store_certificate_on_blockchain, is_connected, get_balance.
  simpl_eff.
  split_outcomes;
    (eexists; split; [reflexivity|]; unfold anchor_success, anchor_failure;
     first [ left; do 3 eexists; reflexivity
           | right; do 2 eexists; reflexivity ]).
Qed.

Lemma store_certificate_frame rt self h m (w : world) :
  store_certificate_on_blockchain rt self h m w
  = (anchor_outcome rt self h m, logged w (anchor_events rt self h m)).
Proof. apply store_certificate_trace_only. Qed.

Lemma anchor_events_ledger_or_print rt self h m :
  forallb (fun ev => is_ledger_event ev || is_print_event ev)
          (anchor_events rt self h m) = true.
Proof.
  unfold anchor_events, empty_world.
  unfold store_certificate_on_blockchain, is_connected, get_balance.
  simpl_eff.
  split_outcomes; reflexivity.
Qed.

Lemma str_eqb_refl (s : str) : str_eqb s s = true.
Proof.
  induction s as [|c s IH]; simpl; [reflexivity|].
  rewrite N.eqb_refl, IH. reflexivity.
Qed.

Lemma str_eqb_eq (a b : str) : str_eqb a b = true <-> a = b.
Proof.
  split.
  - revert b. induction a as [|x a IH]; destruct b as [|y b]; simpl;
      try discriminate; [reflexivity|].
    intros H. apply andb_true_iff in H. destruct H as [Hx Hr].
    apply N.eqb_eq in Hx. rewrite Hx, (IH b Hr). reflexivity.
  - intros ->. apply str_eqb_refl.
Qed.

(** What is known once [prepare] has handed over [new_student]. *)
Lemma prepare_continues g request w s w1 :
  prepare g request w = (Ok (inr s), w1) ->
  exists d h path,
    request_fields request = Some d
    /\ fingerprint d = Ok h
    /\ pdf_generator g d h = Ok path
    /\ io_fault (db g) (db_trips w) = None
    /\ find (fun r => str_eqb (matric_number r) (data_matric_number d))
            (table w) = None
    /\ s = mkStudent 0 (data_full_name d) (data_matric_number d)
                     (data_date_of_award d) (data_year_of_graduation d)
                     (data_honors d) (data_course_of_study d) h path
                     VNone VNone false
    /\ w1 = mkWorld (table w) (pending w) (flashes w)
                    (trace w ++ [EQueryByMatric (data_matric_number d);
                                 EGeneratePdf (data_matric_number d) h])
                    (S (db_trips w)).
Proof.
  destruct w as [t p f tr n].
  unfold prepare, request_fields, fingerprint, strip_opt,
         query_first_by_matric, db_trip, select_first,
         generate_certificate_pdf.
  simpl_eff.
  split_outcomes; intros H; try discriminate H.
  inversion H; subst; clear H.
  do 3 eexists. repeat split; try eassumption; try reflexivity.
  simpl. rewrite <- app_assoc. reflexivity.
Qed.

(** The start of the [POST] branch, once [prepare] has handed over. *)
Lemma upload_after_prepare g request w s w1 :
  req_method request = POST ->
  prepare g request w = (Ok (inr s), w1) ->
  upload_certificate_page g request w = persist_and_anchor g s w1.
Proof.
  intros Hm Hp. unfold upload_certificate_page. rewrite Hm.
  unfold bind. rewrite Hp. reflexivity.
Qed.

Lemma commit_failure_none g w s :
  commit_failure g w s = None ->
  io_fault (db g) (db_trips w) = None /\ unique_violation (table w) s = false.
Proof.
  unfold commit_failure.
  destruct (io_fault (db g) (db_trips w)); [discriminate|].
  destruct (unique_violation (table w) s); [discriminate|]. auto.
Qed.

Lemma anchor_failure_inv d :
  anchor_success d \/ anchor_failure d ->
  get d "success" = Some (VBool false) ->
  anchor_failure d.
Proof.
  intros [[tx [bn [gu ->]]]|H] Hs; [discriminate Hs|exact H].
Qed.

Lemma anchor_success_inv d v :
  anchor_success d \/ anchor_failure d ->
  get d "success" = Some v -> truthy v = true ->
  anchor_success d.
Proof.
  intros [H|[c [r ->]]] Hs Ht; [exact H|].
  inversion Hs; subst. discriminate Ht.
Qed.

(** C9.  When the row has been stored and the anchor call then returns a
    failure, the row stays as it was stored, with no transaction hash, no
    block number and [on_blockchain] false; the cause is flashed as a
    warning; and the request ends like a successful one, with the redirect
    to the success page. *)
Theorem ledger_failure_keeps_record_and_warns :
  forall (g : Globals) (request : request) (w w1 : world) (s : Student)
         (bc : BlockchainManager) (d : dict),
    req_method request = POST ->
    pending w = [] ->
    prepare g request w = (Ok (inr s), w1) ->
    commit_failure g w1 s = None ->
    blockchain g = Some bc ->
    anchor_outcome (runtime g) bc (certificate_hash s) (matric_number s)
    = Ok d ->
    get d "success" = Some (VBool false) ->
    exists (cause : str) (row : Student),
      get d "error" = Some (VStr cause)
      /\ row = set_id s (fresh_id (table w))
      /\ upload_certificate_page g request w
         = (Ok (redirect "upload_success_page"
                         [("hash_value"%string, certificate_hash s)]),
            mkWorld
              (table w ++ [row]) []
              (flashes w
               ++ [("info"%string,
                    lit "Certificate saved to database. Storing on blockchain...");
                   ("warning"%string,
                    lit "⚠️ Blockchain storage failed: " ++ cause
                    ++ lit ". Certificate saved in database only.")])
              (trace w1
               ++ ECommit :: anchor_events (runtime g) bc (certificate_hash s)
                                           (matric_number s))
              (S (db_trips w1)))
      /\ blockchain_tx_hash row = VNone
      /\ blockchain_block_number row = VNone
      /\ on_blockchain row = false.
Proof.
  intros g request w w1 s bc d Hm Hpend Hprep Hcommit Hbc Hanchor Hsucc.
  rewrite (upload_after_prepare g request w s w1 Hm Hprep).
  destruct (prepare_continues g request w s w1 Hprep)
    as [fields [h [path [_ [_ [_ [_ [_ [Hs Hw1]]]]]]]]].
  destruct (commit_failure_none g w1 s Hcommit) as [Hio Huniq].
  destruct (store_certificate_shape (runtime g) bc (certificate_hash s)
              (matric_number s)) as [d' [Hd' Hshape]].
  rewrite Hanchor in Hd'. inversion Hd'; subst d'; clear Hd'.
  destruct (anchor_failure_inv d Hshape Hsucc) as [cause [rest Hd]].
  exists cause, (set_id s (fresh_id (table w))).
  destruct w as [t p f tr n]. simpl in Hpend. subst p.
  rewrite Hw1 in *. clear Hw1.
  split; [rewrite Hd; reflexivity|]. split; [reflexivity|].
  split; [|rewrite Hs; repeat split; reflexivity].
  unfold persist_and_anchor, session_record, commit, db_trip.
  simpl_eff. rewrite Hio. simpl_eff. cbn [app flush].
  rewrite Huniq. simpl_eff. cbn [app hd]. rewrite Hbc. simpl_eff.
  rewrite store_certificate_frame, Hanchor. simpl_eff.
  rewrite Hd. cbn [get entry String.eqb Ascii.eqb Bool.eqb truthy str_of].
  rewrite <- !app_assoc. reflexivity.
Qed.

Lemma ledger_failure_keeps_record_and_warns_witness :
  exists (cause : str) (row : Student),
    get [ "success" :- VBool false;
          "error" :- VStr (lit "Not connected to blockchain network") ]
        "error" = Some (VStr cause)
    /\ row = set_id Sample.jane_row (fresh_id (table empty_world))
    /\ upload_certificate_page
         (Sample.globals (Some Sample.unreachable) Sample.no_fault)
         Sample.jane empty_world
       = (Ok (redirect "upload_success_page"
                       [("hash_value"%string, certificate_hash Sample.jane_row)]),
          mkWorld
            (table empty_world ++ [row]) []
            (flashes empty_world
             ++ [("info"%string,
                  lit "Certificate saved to database. Storing on blockchain...");
                 ("warning"%string,
                  lit "⚠️ Blockchain storage failed: " ++ cause
                  ++ lit ". Certificate saved in database only.")])
            (trace Sample.jane_prepared
             ++ ECommit
                :: anchor_events
                     (runtime (Sample.globals (Some Sample.unreachable)
                                              Sample.no_fault))
                     Sample.unreachable
                     (certificate_hash Sample.jane_row)
                     (matric_number Sample.jane_row))
            (S (db_trips Sample.jane_prepared)))
    /\ blockchain_tx_hash row = VNone
    /\ blockchain_block_number row = VNone
    /\ on_blockchain row = false.
Proof.
  apply (ledger_failure_keeps_record_and_warns
           (Sample.globals (Some Sample.unreachable) Sample.no_fault)
           Sample.jane empty_world Sample.jane_prepared Sample.jane_row
           Sample.unreachable);
    vm_compute; reflexivity.
Defined.

(** C1, as stated, fails.  In [Sample.partial_anchor_run] the row is
    stored, the ledger confirms the anchor, and the write of the anchor
    fields fails; what the view reports is the response and the ['danger']
    message of [Sample.storage_failure_run], where nothing was stored and
    the ledger was never called. *)
Lemma partial_anchor_reported_like_storage_failure :
  anchor_success
    [ "success" :- VBool true; "tx_hash" :- VStr Sample.tx_hash;
      "block_number" :- VInt 4370000; "gas_used" :- VInt 91234 ]
  /\ anchor_outcome Sample.rt Sample.funded Sample.jane_hash
       (lit "CS/2020/001")
     = Ok [ "success" :- VBool true; "tx_hash" :- VStr Sample.tx_hash;
            "block_number" :- VInt 4370000; "gas_used" :- VInt 91234 ]
  /\ existsb is_ledger_event (trace (snd Sample.partial_anchor_run)) = true
  /\ map on_blockchain (table (snd Sample.partial_anchor_run)) = [false]
  /\ existsb is_ledger_event (trace (snd Sample.storage_failure_run)) = false
  /\ table (snd Sample.storage_failure_run) = []
  /\ reported_error Sample.partial_anchor_run
     = reported_error Sample.storage_failure_run
  /\ reported_error Sample.partial_anchor_run
     = (Ok (redirect "upload_certificate_page" []),
        [ lit "Database Error: Could not save certificate data. (sqlite3.OperationalError) database or disk is full" ]).
Proof.
  split; [do 3 eexists; reflexivity|].
  repeat match goal with |- _ /\ _ => split end; vm_compute; reflexivity.
Qed.

(** C1, amended.  When the row has been stored, the anchor call has
    returned a success, and the commit of the anchor fields then fails with
    [e], the view rolls back and reports the database error of its [except]
    clause: the ['danger'] message "Database Error: Could not save
    certificate data." followed by [e], and the redirect to the upload
    page.  The row stays stored without transaction hash and block number,
    [on_blockchain] false. *)
Theorem partial_anchor_reported_as_database_error :
  forall (g : Globals) (request : request) (w w1 : world) (s : Student)
         (bc : BlockchainManager) (d : dict) (e : exn),
    req_method request = POST ->
    pending w = [] ->
    prepare g request w = (Ok (inr s), w1) ->
    commit_failure g w1 s = None ->
    blockchain g = Some bc ->
    anchor_outcome (runtime g) bc (certificate_hash s) (matric_number s)
    = Ok d ->
    get d "success" = Some (VBool true) ->
    io_fault (db g) (S (db_trips w1)) = Some e ->
    exists row : Student,
      row = set_id s (fresh_id (table w))
      /\ upload_certificate_page g request w
         = (Ok (redirect "upload_certificate_page" []),
            mkWorld
              (table w ++ [row]) []
              (flashes w
               ++ [("info"%string,
                    lit "Certificate saved to database. Storing on blockchain...");
                   ("danger"%string,
                    lit "Database Error: Could not save certificate data. "
                    ++ exn_str e)])
              (trace w1
               ++ ECommit :: anchor_events (runtime g) bc (certificate_hash s)
                                           (matric_number s)
               ++ [ECommit; ERollback])
              (S (S (db_trips w1))))
      /\ blockchain_tx_hash row = VNone
      /\ blockchain_block_number row = VNone
      /\ on_blockchain row = false.
Proof.
  intros g request w w1 s bc d e Hm Hpend Hprep Hcommit Hbc Hanchor Hsucc Hio2.
  rewrite (upload_after_prepare g request w s w1 Hm Hprep).
  destruct (prepare_continues g request w s w1 Hprep)
    as [fields [h [path [_ [_ [_ [_ [_ [Hs Hw1]]]]]]]]].
  destruct (commit_failure_none g w1 s Hcommit) as [Hio Huniq].
  destruct (store_certificate_shape (runtime g) bc (certificate_hash s)
              (matric_number s)) as [d' [Hd' Hshape]].
  rewrite Hanchor in Hd'. inversion Hd'; subst d'; clear Hd'.
  destruct (anchor_success_inv d (VBool true) Hshape Hsucc eq_refl)
    as [tx [bn [gu Hd]]].
  exists (set_id s (fresh_id (table w))).
  destruct w as [t p f tr n]. simpl in Hpend. subst p.
  rewrite Hw1 in *. clear Hw1.
  split; [reflexivity|].
  split; [|rewrite Hs; repeat split; reflexivity].
  unfold persist_and_anchor, session_record, commit, db_trip, rollback.
  simpl_eff. rewrite Hio. simpl_eff. cbn [app flush].
  rewrite Huniq. simpl_eff. cbn [app hd]. rewrite Hbc. simpl_eff.
  rewrite store_certificate_frame, Hanchor. simpl_eff.
  rewrite Hd. cbn [get entry String.eqb Ascii.eqb Bool.eqb truthy].
  simpl_eff. cbn [db_trips] in Hio2. rewrite Hio2.
  rewrite <- !app_assoc. reflexivity.
Qed.

Lemma partial_anchor_reported_as_database_error_witness :
  exists row : Student,
    row = set_id Sample.jane_row (fresh_id (table empty_world))
    /\ upload_certificate_page
         (Sample.globals (Some Sample.funded) (Sample.fault_at 2))
         Sample.jane empty_world
       = (Ok (redirect "upload_certificate_page" []),
          mkWorld
            (table empty_world ++ [row]) []
            (flashes empty_world
             ++ [("info"%string,
                  lit "Certificate saved to database. Storing on blockchain...");
                 ("danger"%string,
                  lit "Database Error: Could not save certificate data. "
                  ++ exn_str Sample.disk_full)])
            (trace Sample.jane_prepared
             ++ ECommit
                :: anchor_events
                     (runtime (Sample.globals (Some Sample.funded)
                                              (Sample.fault_at 2)))
                     Sample.funded
                     (certificate_hash Sample.jane_row)
                     (matric_number Sample.jane_row)
             ++ [ECommit; ERollback])
            (S (S (db_trips Sample.jane_prepared))))
    /\ blockchain_tx_hash row = VNone
    /\ blockchain_block_number row = VNone
    /\ on_blockchain row = false.
Proof.
  apply (partial_anchor_reported_as_database_error
           (Sample.globals (Some Sample.funded) (Sample.fault_at 2))
           Sample.jane empty_world Sample.jane_prepared Sample.jane_row
           Sample.funded
           [ "success" :- VBool true; "tx_hash" :- VStr Sample.tx_hash;
             "block_number" :- VInt 4370000; "gas_used" :- VInt 91234 ]
           Sample.disk_full);
    vm_compute; reflexivity.
Defined.

Ltac solve_trace :=
  lazymatch goal with
  | |- ?tr = ?tr ++ _ => symmetry; apply app_nil_r
  | |- _ => rewrite <- ?app_assoc; reflexivity
  end.

(** [prepare] reaches neither the ledger nor the table's contents. *)
Lemma prepare_frame g request w :
  exists evs,
    trace (snd (prepare g request w)) = trace w ++ evs
    /\ existsb is_ledger_event evs = false
    /\ existsb is_hash_lookup evs = false
    /\ table (snd (prepare g request w)) = table w
    /\ pending (snd (prepare g request w)) = pending w.
Proof.
  destruct w as [t p f tr n].
  unfold prepare, strip_opt, query_first_by_matric, db_trip, select_first,
         generate_certificate_pdf.
  simpl_eff.
  split_outcomes;
    (eexists; split; [solve_trace|]; repeat split; reflexivity).
Qed.

Lemma update_row_stores k f t row s :
  (forall r, stores (f r) r) ->
  In row t -> stores row s ->
  exists row', In row' (update_row k f t) /\ stores row' s.
Proof.
  intros Hf Hin Hrow.
  exists (if id row =? k then f row else row). split.
  - unfold update_row.
    apply (in_map (fun r => if id r =? k then f r else r)). exact Hin.
  - destruct (id row =? k); [|exact Hrow].
    destruct (Hf row) as [H1 [H2 [H3 H4]]].
    destruct Hrow as [R1 [R2 [R3 R4]]].
    unfold stores. rewrite H1, H2, H3, H4. auto.
Qed.

Lemma setters_store r v b :
  stores (set_tx_hash v r) r /\ stores (set_block_number v r) r
  /\ stores (set_on_blockchain b r) r.
Proof. unfold stores. simpl. auto 10. Qed.

(** The two ways the [try] block can go: the commit of the row fails and
    nothing else happens, or it succeeds and the row is in the table from
    then on. *)
Lemma persist_and_anchor_cases g s w :
  pending w = [] ->
  match commit_failure g w s with
  | Some e =>
    persist_and_anchor g s w
    = (Ok (redirect "upload_certificate_page" []),
       mkWorld (table w) []
               (flashes w
                ++ [("danger"%string,
                     lit "Database Error: Could not save certificate data. "
                     ++ exn_str e)])
               (trace w ++ [ECommit; ERollback]) (S (db_trips w)))
  | None =>
    exists post row,
      trace (snd (persist_and_anchor g s w)) = trace w ++ ECommit :: post
      /\ In row (table (snd (persist_and_anchor g s w)))
      /\ stores row s
  end.
Proof.
  destruct w as [t p f tr n]. simpl. intros ->.
  unfold commit_failure. cbn [db_trips table].
  unfold persist_and_anchor, session_record, commit, db_trip, rollback.
  simpl_eff.
  destruct (io_fault (db g) n) as [e|] eqn:Hio; simpl_eff.
  { rewrite <- app_assoc. reflexivity. }
  cbn [app flush].
  destruct (unique_violation t s) eqn:Huniq; simpl_eff.
  { rewrite <- app_assoc. reflexivity. }
  cbn [app hd].
  assert (Hnew : In (set_id s (fresh_id t)) (t ++ [set_id s (fresh_id t)])).
  { apply in_or_app. right. left. reflexivity. }
  assert (Hst : stores (set_id s (fresh_id t)) s).
  { unfold stores. simpl. auto. }
  destruct (blockchain g) as [bc|]; simpl_eff.
  - rewrite store_certificate_frame.
    destruct (store_certificate_shape (runtime g) bc (certificate_hash s)
                (matric_number s)) as [d [Hd Hshape]].
    rewrite Hd. simpl_eff.
    destruct Hshape as [[tx [bn [gu ->]]]|[cause [rest ->]]];
      cbn [get entry String.eqb Ascii.eqb Bool.eqb truthy]; simpl_eff.
    + destruct (io_fault (db g) (S n)) as [e|] eqn:Hio2; simpl_eff.
      * do 2 eexists. split; [solve_trace|]. split; eassumption.
      * cbn [app flush]. simpl_eff. unfold slice10. simpl_eff.
        destruct (update_row_stores (fresh_id t) (set_tx_hash (VStr tx))
                    _ _ s (fun r => proj1 (setters_store r (VStr tx) true))
                    Hnew Hst) as [r1 [Hin1 Hst1]].
        destruct (update_row_stores (fresh_id t) (set_block_number bn)
                    _ _ s
                    (fun r => proj1 (proj2 (setters_store r bn true)))
                    Hin1 Hst1) as [r2 [Hin2 Hst2]].
        destruct (update_row_stores (fresh_id t) (set_on_blockchain true)
                    _ _ s
                    (fun r => proj2 (proj2 (setters_store r VNone true)))
                    Hin2 Hst2) as [r3 [Hin3 Hst3]].
        exists (anchor_events (runtime g) bc (certificate_hash s)
                              (matric_number s) ++ [ECommit]), r3.
        split; [solve_trace|]. split; assumption.
    + do 2 eexists. split; [solve_trace|]. split; eassumption.
  - do 2 eexists. split; [solve_trace|]. split; eassumption.
Qed.

(** C6.  In every run of the issuance view that starts with an empty
    session, either no call reaches the ledger, or the events of the run
    are some [pre], without a ledger call, then the commit of the new row,
    then the rest, and the row is in the table at the end.  When the commit
    of the row fails with [e], the view rolls back, flashes the database
    error with [e], redirects to the upload page, leaves the table as it
    was, and no call has reached the ledger. *)
Theorem anchoring_never_precedes_persistence :
  forall (g : Globals) (request : request) (w : world),
    pending w = [] ->
    exists evs : list event,
      trace (snd (upload_certificate_page g request w)) = trace w ++ evs
      /\ (existsb is_ledger_event evs = false
          \/ exists pre post s w1 row,
               req_method request = POST
               /\ prepare g request w = (Ok (inr s), w1)
               /\ commit_failure g w1 s = None
               /\ evs = pre ++ ECommit :: post
               /\ existsb is_ledger_event pre = false
               /\ In row (table (snd (upload_certificate_page g request w)))
               /\ stores row s)
      /\ (forall s w1 e,
            req_method request = POST ->
            prepare g request w = (Ok (inr s), w1) ->
            commit_failure g w1 s = Some e ->
            existsb is_ledger_event evs = false
            /\ fst (upload_certificate_page g request w)
               = Ok (redirect "upload_certificate_page" [])
            /\ table (snd (upload_certificate_page g request w)) = table w
            /\ flashes (snd (upload_certificate_page g request w))
               = flashes w
                 ++ [("danger"%string,
                      lit "Database Error: Could not save certificate data. "
                      ++ exn_str e)]).
Proof.
  intros g request w Hpend.
  destruct (req_method request) eqn:Hm;
    try (exists []; unfold upload_certificate_page; rewrite Hm;
         split; [symmetry; apply app_nil_r|];
         split; [left; reflexivity|]; intros; discriminate).
  destruct (prepare g request w) as [[[early|s]|e] w1] eqn:Hprep.
  - destruct (prepare_frame g request w) as [evs [Htr [Hled _]]].
    rewrite Hprep in Htr. exists evs.
    unfold upload_certificate_page. rewrite Hm. unfold bind. rewrite Hprep.
    split; [exact Htr|]. split; [left; exact Hled|]. intros; discriminate.
  - rewrite (upload_after_prepare g request w s w1 Hm Hprep).
    destruct (prepare_continues g request w s w1 Hprep)
      as [fields [h [path [_ [_ [_ [_ [_ [Hs Hw1]]]]]]]]].
    assert (Hpend1 : pending w1 = []) by (rewrite Hw1; exact Hpend).
    pose proof (persist_and_anchor_cases g s w1 Hpend1) as Hcases.
    destruct (commit_failure g w1 s) as [e|] eqn:Hfail.
    + rewrite Hcases.
      exists [EQueryByMatric (data_matric_number fields);
              EGeneratePdf (data_matric_number fields) h; ECommit; ERollback].
      split; [rewrite Hw1; cbn [snd trace]; solve_trace|].
      split; [left; reflexivity|].
      intros s' w1' e' _ Heq He. inversion Heq; subst s' w1'.
      rewrite Hfail in He. inversion He; subst e'.
      cbn [fst snd table flashes]. rewrite Hw1. repeat split; reflexivity.
    + destruct Hcases as [post [row [Htr [Hin Hst]]]].
      exists ([EQueryByMatric (data_matric_number fields);
               EGeneratePdf (data_matric_number fields) h]
              ++ ECommit :: post).
      split.
      { rewrite Htr, Hw1. cbn [trace]. solve_trace. }
      split.
      { right. exists [EQueryByMatric (data_matric_number fields);
                       EGeneratePdf (data_matric_number fields) h],
                      post, s, w1, row.
        repeat split; try assumption; try reflexivity; apply Hst. }
      intros s' w1' e' _ Heq He. inversion Heq; subst s' w1'.
      rewrite Hfail in He. discriminate.
  - destruct (prepare_frame g request w) as [evs [Htr [Hled _]]].
    rewrite Hprep in Htr. exists evs.
    unfold upload_certificate_page. rewrite Hm. unfold bind. rewrite Hprep.
    split; [exact Htr|]. split; [left; exact Hled|]. intros; discriminate.
Qed.

Lemma anchoring_never_precedes_persistence_witness :
  exists evs : list event,
    trace (snd Sample.storage_failure_run) = trace empty_world ++ evs
    /\ (existsb is_ledger_event evs = false
        \/ exists pre post s w1 row,
             req_method Sample.jane = POST
             /\ prepare (Sample.globals (Some Sample.funded) (Sample.fault_at 1))
                        Sample.jane empty_world = (Ok (inr s), w1)
             /\ commit_failure
                  (Sample.globals (Some Sample.funded) (Sample.fault_at 1))
                  w1 s = None
             /\ evs = pre ++ ECommit :: post
             /\ existsb is_ledger_event pre = false
             /\ In row (table (snd Sample.storage_failure_run))
             /\ stores row s)
    /\ (forall s w1 e,
          req_method Sample.jane = POST ->
          prepare (Sample.globals (Some Sample.funded) (Sample.fault_at 1))
                  Sample.jane empty_world = (Ok (inr s), w1) ->
          commit_failure
            (Sample.globals (Some Sample.funded) (Sample.fault_at 1)) w1 s
          = Some e ->
          existsb is_ledger_event evs = false
          /\ fst Sample.storage_failure_run
             = Ok (redirect "upload_certificate_page" [])
          /\ table (snd Sample.storage_failure_run) = table empty_world
          /\ flashes (snd Sample.storage_failure_run)
             = flashes empty_world
               ++ [("danger"%string,
                    lit "Database Error: Could not save certificate data. "
                    ++ exn_str e)]).
Proof.
  apply (anchoring_never_precedes_persistence
           (Sample.globals (Some Sample.funded) (Sample.fault_at 1))
           Sample.jane empty_world).
  reflexivity.
Defined.

(** The case of a failing commit in C6 does occur: in
    [Sample.storage_failure_run] the row is ready and its commit fails. *)
Example storage_failure_run_fails_at_commit :
  prepare (Sample.globals (Some Sample.funded) (Sample.fault_at 1))
          Sample.jane empty_world
  = (Ok (inr Sample.jane_row), Sample.jane_prepared)
  /\ commit_failure (Sample.globals (Some Sample.funded) (Sample.fault_at 1))
                    Sample.jane_prepared Sample.jane_row
     = Some Sample.disk_full.
Proof. split; vm_compute; reflexivity. Qed.

(** C4, as stated, fails.  A candidate of 64 characters that are not
    hexadecimal digits is looked up in the table; and for a candidate of
    the wrong length the view answers what it answers for a well-formed
    fingerprint that is not in the table, when no ledger is configured. *)
Lemma malformed_candidate_not_told_apart :
  fingerprint_shaped Sample.sixty_four_z = false
  /\ trace (snd (verify_certificate
                   (Sample.globals None Sample.no_fault)
                   (Sample.verify_get Sample.sixty_four_z) empty_world))
     = [EQueryByHash Sample.sixty_four_z]
  /\ fingerprint_shaped Sample.too_short = false
  /\ fingerprint_shaped Sample.jane_hash = true
  /\ fst (verify_certificate (Sample.globals None Sample.no_fault)
            (Sample.verify_get Sample.too_short) empty_world)
     = fst (verify_certificate (Sample.globals None Sample.no_fault)
              (Sample.verify_get Sample.jane_hash) empty_world).
Proof.
  repeat match goal with |- _ /\ _ => split end; vm_compute; reflexivity.
Qed.

(** C4, amended.  For a non-empty candidate whose length is not 64 the
    view makes no look-up in the table and no call to the ledger (the world
    is left as it was) and renders the results page with [student] and
    [blockchain_result] both [None].  It renders the same for a candidate
    of length 64 that is not in the table when no ledger is configured. *)
Theorem wrong_length_candidate_is_not_looked_up :
  forall (g : Globals) (request request' : request) (w w' : world)
         (h h' : str),
    candidate request = Some h ->
    str_truthy h = true ->
    len h <> 64 ->
    verify_certificate g request w
    = (Ok (render_template "verification_results.html"
             [ ("student"%string, TNone);
               ("blockchain_result"%string, TNone) ]), w)
    /\ (blockchain g = None ->
        candidate request' = Some h' ->
        len h' = 64 ->
        io_fault (db g) (db_trips w') = None ->
        find (fun s => str_eqb (certificate_hash s) h') (table w') = None ->
        fst (verify_certificate g request' w')
        = Ok (render_template "verification_results.html"
                [ ("student"%string, TNone);
                  ("blockchain_result"%string, TNone) ])).
Proof.
  intros g request request' w w' h h' Hcand Htruthy Hlen.
  split.
  - unfold candidate in Hcand. unfold verify_certificate, strip_opt.
    apply Z.eqb_neq in Hlen.
    destruct (req_method request); [| |discriminate].
    + destruct (lookup (args request) "hash") as [x|]; [|discriminate].
      simpl in Hcand. inversion Hcand; subst h. simpl_eff.
      rewrite Htruthy, Hlen. reflexivity.
    + destruct (lookup (form request) "certificate_hash") as [x|];
        [|discriminate].
      simpl in Hcand. inversion Hcand; subst h. simpl_eff.
      rewrite Htruthy, Hlen. reflexivity.
  - intros Hbc Hcand' Hlen' Hio Hfind.
    assert (Htruthy' : str_truthy h' = true).
    { destruct h'; [discriminate Hlen'|reflexivity]. }
    apply Z.eqb_eq in Hlen'.
    destruct w' as [t p f tr n]. cbn [db_trips table] in Hio, Hfind.
    unfold candidate in Hcand'.
    unfold verify_certificate, strip_opt, query_first_by_hash, db_trip,
           select_first.
    destruct (req_method request'); [| |discriminate].
    + destruct (lookup (args request') "hash") as [x|]; [|discriminate].
      simpl in Hcand'. inversion Hcand'; subst h'. simpl_eff.
      rewrite Htruthy', Hlen', Hio. simpl_eff. rewrite Hfind, Hbc.
      reflexivity.
    + destruct (lookup (form request') "certificate_hash") as [x|];
        [|discriminate].
      simpl in Hcand'. inversion Hcand'; subst h'. simpl_eff.
      rewrite Htruthy', Hlen', Hio. simpl_eff. rewrite Hfind, Hbc.
      reflexivity.
Qed.

Lemma wrong_length_candidate_is_not_looked_up_witness :
  verify_certificate (Sample.globals None Sample.no_fault)
    (Sample.verify_get Sample.too_short) empty_world
  = (Ok (render_template "verification_results.html"
           [ ("student"%string, TNone);
             ("blockchain_result"%string, TNone) ]), empty_world)
  /\ (blockchain (Sample.globals None Sample.no_fault) = None ->
      candidate (Sample.verify_get Sample.jane_hash) = Some Sample.jane_hash ->
      len Sample.jane_hash = 64 ->
      io_fault (db (Sample.globals None Sample.no_fault))
               (db_trips empty_world) = None ->
      find (fun s => str_eqb (certificate_hash s) Sample.jane_hash)
           (table empty_world) = None ->
      fst (verify_certificate
             (Sample.globals None Sample.no_fault)
             (Sample.verify_get Sample.jane_hash) empty_world)
      = Ok (render_template "verification_results.html"
              [ ("student"%string, TNone);
                ("blockchain_result"%string, TNone) ])).
Proof.
  apply (wrong_length_candidate_is_not_looked_up
           (Sample.globals None Sample.no_fault)
           (Sample.verify_get Sample.too_short)
           (Sample.verify_get Sample.jane_hash)
           empty_world empty_world Sample.too_short Sample.jane_hash).
  - reflexivity.
  - reflexivity.
  - vm_compute. discriminate.
Defined.

Lemma prepare_early_redirect g request w early w1 :
  prepare g request w = (Ok (inl early), w1) ->
  early = redirect "upload_certificate_page" [].
Proof.
  destruct w as [t p f tr n].
  unfold prepare, strip_opt, query_first_by_matric, db_trip, select_first,
         generate_certificate_pdf.
  simpl_eff.
  split_outcomes; intros H; try discriminate H;
    inversion H; reflexivity.
Qed.

Lemma request_fields_lookups request d :
  request_fields request = Some d ->
  exists a b c x y z,
    lookup (form request) "full_name" = Some a
    /\ lookup (form request) "matric_number" = Some b
    /\ lookup (form request) "year_of_graduation" = Some c
    /\ lookup (form request) "date_of_award" = Some x
    /\ lookup (form request) "honors" = Some y
    /\ lookup (form request) "course_of_study" = Some z
    /\ d = mkStudentData (strip a) (strip b) (strip c) (strip x) (strip y)
                         (strip z).
Proof.
  unfold request_fields.
  destruct (lookup (form request) "full_name") as [a|]; [|discriminate].
  destruct (lookup (form request) "matric_number") as [b|]; [|discriminate].
  destruct (lookup (form request) "year_of_graduation") as [c|]; [|discriminate].
  destruct (lookup (form request) "date_of_award") as [x|]; [|discriminate].
  destruct (lookup (form request) "honors") as [y|]; [|discriminate].
  destruct (lookup (form request) "course_of_study") as [z|]; [|discriminate].
  intros H. inversion H. exists a, b, c, x, y, z. repeat split; reflexivity.
Qed.

(** The dedup step: a row with the matric number of the request is found,
    and the view returns at once. *)
Lemma prepare_duplicate g request w d :
  request_fields request = Some d ->
  forallb str_truthy
    [data_full_name d; data_matric_number d; data_year_of_graduation d;
     data_date_of_award d; data_honors d; data_course_of_study d] = true ->
  io_fault (db g) (db_trips w) = None ->
  (exists row, In row (table w) /\ matric_number row = data_matric_number d) ->
  prepare g request w
  = (Ok (inl (redirect "upload_certificate_page" [])),
     mkWorld (table w) (pending w)
             (flashes w
              ++ [("danger"%string,
                   lit "Error: Certificate for Matric No. "
                   ++ data_matric_number d ++ lit " already exists.")])
             (trace w ++ [EQueryByMatric (data_matric_number d)])
             (S (db_trips w))).
Proof.
  intros Hfields Htruthy Hio [row [Hin Hrow]].
  destruct (request_fields_lookups request d Hfields)
    as [a [b [c [x [y [z [Ha [Hb [Hc [Hx [Hy [Hz Hd]]]]]]]]]]]].
  subst d. cbn [data_full_name data_matric_number data_year_of_graduation
                data_date_of_award data_honors data_course_of_study] in *.
  destruct w as [t p f tr n]. cbn [db_trips table] in *.
  unfold prepare, strip_opt, query_first_by_matric, db_trip, select_first.
  rewrite Ha, Hb, Hc, Hx, Hy, Hz. simpl_eff.
  rewrite Htruthy, Hio. simpl_eff.
  destruct (find (fun s => str_eqb (matric_number s) (strip b)) t) eqn:Hfind.
  - reflexivity.
  - pose proof (find_none _ _ Hfind row Hin) as Hno. cbv beta in Hno.
    rewrite Hrow, str_eqb_refl in Hno. discriminate.
Qed.

Lemma unique_violation_hash t s :
  (exists row, In row t /\ certificate_hash row = certificate_hash s) ->
  unique_violation t s = true.
Proof.
  intros [row [Hin Hrow]]. unfold unique_violation.
  apply existsb_exists. exists row. split; [exact Hin|].
  rewrite Hrow, str_eqb_refl. apply orb_true_r.
Qed.

(** C3, as stated, fails.  The fields of [Sample.bar_second] have the
    fingerprint of the row that [Sample.bar_stored] holds.  The view looks
    the table up by matric number, never by fingerprint, finds nothing,
    and goes on to the commit, where the [UNIQUE] constraint stops it: what
    it flashes is the database error, not the message for a duplicate. *)
Lemma duplicate_fingerprint_passes_dedup_step :
  request_fields Sample.bar_second
  = Some (mkStudentData (lit "Jane Doe|CS") (lit "2020|001") (lit "2024")
            (lit "2024-07-01") (lit "Second Class Upper")
            (lit "Computer Science"))
  /\ fingerprint
       (mkStudentData (lit "Jane Doe|CS") (lit "2020|001") (lit "2024")
          (lit "2024-07-01") (lit "Second Class Upper")
          (lit "Computer Science"))
     = Ok Sample.bar_hash
  /\ map certificate_hash (table Sample.bar_stored) = [Sample.bar_hash]
  /\ trace (snd (upload_certificate_page
                   (Sample.globals None Sample.no_fault)
                   Sample.bar_second Sample.bar_stored))
     = [ EQueryByMatric (lit "2020|001");
         EGeneratePdf (lit "2020|001") Sample.bar_hash; ECommit; ERollback ]
  /\ flashes (snd (upload_certificate_page
                     (Sample.globals None Sample.no_fault)
                     Sample.bar_second Sample.bar_stored))
     = [ ("danger"%string,
          lit "Database Error: Could not save certificate data. (sqlite3.IntegrityError) UNIQUE constraint failed") ]
  /\ table (snd (upload_certificate_page
                   (Sample.globals None Sample.no_fault)
                   Sample.bar_second Sample.bar_stored))
     = table Sample.bar_stored.
Proof.
  repeat match goal with |- _ /\ _ => split end; vm_compute; reflexivity.
Qed.

(** C3, amended.  A request whose fingerprint is already in the table is
    never stored: the table is left as it was, no call reaches the ledger,
    and the view answers with the redirect to the upload page (or ends in
    an exception), never with the success page.  The table is not looked
    up by fingerprint.  The dedup step is the look-up by matric number:
    when a row with the matric number of the request exists, the view
    flashes that the certificate already exists and returns. *)
Theorem duplicate_fingerprint_is_never_stored :
  forall (g : Globals) (request : request) (w : world) (d : student_data)
         (h : str),
    req_method request = POST ->
    pending w = [] ->
    request_fields request = Some d ->
    fingerprint d = Ok h ->
    (exists row, In row (table w) /\ certificate_hash row = h) ->
    exists evs : list event,
      table (snd (upload_certificate_page g request w)) = table w
      /\ trace (snd (upload_certificate_page g request w)) = trace w ++ evs
      /\ existsb is_ledger_event evs = false
      /\ existsb is_hash_lookup evs = false
      /\ (fst (upload_certificate_page g request w)
          = Ok (redirect "upload_certificate_page" [])
          \/ exists e, fst (upload_certificate_page g request w) = Raise e)
      /\ ((exists row, In row (table w)
                       /\ matric_number row = data_matric_number d) ->
          forallb str_truthy
            [data_full_name d; data_matric_number d;
             data_year_of_graduation d; data_date_of_award d; data_honors d;
             data_course_of_study d] = true ->
          io_fault (db g) (db_trips w) = None ->
          upload_certificate_page g request w
          = (Ok (redirect "upload_certificate_page" []),
             mkWorld (table w) []
                     (flashes w
                      ++ [("danger"%string,
                           lit "Error: Certificate for Matric No. "
                           ++ data_matric_number d
                           ++ lit " already exists.")])
                     (trace w ++ [EQueryByMatric (data_matric_number d)])
                     (S (db_trips w)))).
Proof.
  intros g request w d h Hm Hpend Hfields Hfp Hdup.
  assert (Hlast :
    (exists row, In row (table w)
                 /\ matric_number row = data_matric_number d) ->
    forallb str_truthy
      [data_full_name d; data_matric_number d; data_year_of_graduation d;
       data_date_of_award d; data_honors d; data_course_of_study d] = true ->
    io_fault (db g) (db_trips w) = None ->
    upload_certificate_page g request w
    = (Ok (redirect "upload_certificate_page" []),
       mkWorld (table w) []
               (flashes w
                ++ [("danger"%string,
                     lit "Error: Certificate for Matric No. "
                     ++ data_matric_number d ++ lit " already exists.")])
               (trace w ++ [EQueryByMatric (data_matric_number d)])
               (S (db_trips w)))).
  { intros Hrow Htruthy Hio.
    unfold upload_certificate_page. rewrite Hm. unfold bind.
    rewrite (prepare_duplicate g request w d Hfields Htruthy Hio Hrow).
    rewrite Hpend. reflexivity. }
  destruct (prepare g request w) as [[[early|s]|e] w1] eqn:Hprep.
  - destruct (prepare_frame g request w) as [evs [Htr [Hled [Hq [Htab _]]]]].
    rewrite Hprep in Htr, Htab. cbn [snd] in Htr, Htab.
    pose proof (prepare_early_redirect g request w early w1 Hprep) as ->.
    exists evs. unfold upload_certificate_page. rewrite Hm. unfold bind.
    rewrite Hprep. cbn [fst snd ret].
    repeat match goal with |- _ /\ _ => split end; auto.
    unfold upload_certificate_page in Hlast. rewrite Hm in Hlast.
    unfold bind in Hlast. rewrite Hprep in Hlast. exact Hlast.
  - destruct (prepare_continues g request w s w1 Hprep)
      as [d' [h' [path [Hf' [Hh' [_ [_ [Hfind [Hs Hw1]]]]]]]]].
    rewrite Hfields in Hf'. inversion Hf'; subst d'; clear Hf'.
    rewrite Hfp in Hh'. inversion Hh'; subst h'; clear Hh'.
    assert (Hpend1 : pending w1 = []) by (rewrite Hw1; exact Hpend).
    assert (Huniq : unique_violation (table w1) s = true).
    { apply unique_violation_hash. rewrite Hw1, Hs. exact Hdup. }
    pose proof (persist_and_anchor_cases g s w1 Hpend1) as Hcases.
    unfold commit_failure in Hcases. rewrite Huniq in Hcases.
    exists [EQueryByMatric (data_matric_number d);
            EGeneratePdf (data_matric_number d) h; ECommit; ERollback].
    rewrite (upload_after_prepare g request w s w1 Hm Hprep).
    assert (Hrun : exists e,
      persist_and_anchor g s w1
      = (Ok (redirect "upload_certificate_page" []),
         mkWorld (table w1) []
                 (flashes w1
                  ++ [("danger"%string,
                       lit "Database Error: Could not save certificate data. "
                       ++ exn_str e)])
                 (trace w1 ++ [ECommit; ERollback]) (S (db_trips w1)))).
    { destruct (io_fault (db g) (db_trips w1)); eexists; exact Hcases. }
    destruct Hrun as [e Hrun]. rewrite Hrun. cbn [fst snd table trace].
    rewrite Hw1. cbn [table trace].
    repeat match goal with |- _ /\ _ => split end;
      try reflexivity; try solve_trace; try (left; reflexivity).
    intros [row [Hin Hrow]] _ _. exfalso.
    pose proof (find_none _ _ Hfind row Hin) as Hno. cbv beta in Hno.
    rewrite Hrow, str_eqb_refl in Hno. discriminate.
  - destruct (prepare_frame g request w) as [evs [Htr [Hled [Hq [Htab _]]]]].
    rewrite Hprep in Htr, Htab. cbn [snd] in Htr, Htab.
    exists evs. unfold upload_certificate_page. rewrite Hm. unfold bind.
    rewrite Hprep. cbn [fst snd].
    repeat match goal with |- _ /\ _ => split end; eauto.
    unfold upload_certificate_page in Hlast. rewrite Hm in Hlast.
    unfold bind in Hlast. rewrite Hprep in Hlast. exact Hlast.
Qed.

Lemma duplicate_fingerprint_is_never_stored_witness :
  exists evs : list event,
    table (snd (upload_certificate_page
                  (Sample.globals (Some Sample.funded) Sample.no_fault)
                  Sample.jane Sample.jane_stored))
    = table Sample.jane_stored
    /\ trace (snd (upload_certificate_page
                     (Sample.globals (Some Sample.funded) Sample.no_fault)
                     Sample.jane Sample.jane_stored))
       = trace Sample.jane_stored ++ evs
    /\ existsb is_ledger_event evs = false
    /\ existsb is_hash_lookup evs = false
    /\ (fst (upload_certificate_page
               (Sample.globals (Some Sample.funded) Sample.no_fault)
               Sample.jane Sample.jane_stored)
        = Ok (redirect "upload_certificate_page" [])
        \/ exists e,
             fst (upload_certificate_page
                    (Sample.globals (Some Sample.funded) Sample.no_fault)
                    Sample.jane Sample.jane_stored) = Raise e)
    /\ ((exists row, In row (table Sample.jane_stored)
                     /\ matric_number row
                        = data_matric_number Sample.jane_fields) ->
        forallb str_truthy
          [data_full_name Sample.jane_fields;
           data_matric_number Sample.jane_fields;
           data_year_of_graduation Sample.jane_fields;
           data_date_of_award Sample.jane_fields;
           data_honors Sample.jane_fields;
           data_course_of_study Sample.jane_fields] = true ->
        io_fault (db (Sample.globals (Some Sample.funded) Sample.no_fault))
                 (db_trips Sample.jane_stored) = None ->
        upload_certificate_page
          (Sample.globals (Some Sample.funded) Sample.no_fault)
          Sample.jane Sample.jane_stored
        = (Ok (redirect "upload_certificate_page" []),
           mkWorld (table Sample.jane_stored) []
                   (flashes Sample.jane_stored
                    ++ [("danger"%string,
                         lit "Error: Certificate for Matric No. "
                         ++ data_matric_number Sample.jane_fields
                         ++ lit " already exists.")])
                   (trace Sample.jane_stored
                    ++ [EQueryByMatric (data_matric_number Sample.jane_fields)])
                   (S (db_trips Sample.jane_stored)))).
Proof.
  apply (duplicate_fingerprint_is_never_stored
           (Sample.globals (Some Sample.funded) Sample.no_fault)
           Sample.jane Sample.jane_stored Sample.jane_fields
           Sample.jane_hash).
  - reflexivity.
  - reflexivity.
  - vm_compute. reflexivity.
  - vm_compute. reflexivity.
  - exists (set_id Sample.jane_row 1). split; [left; reflexivity|reflexivity].
Defined.

(** In the sample of the witness above the dedup step is what rejects the
    request. *)
Example duplicate_matric_is_rejected :
  upload_certificate_page
    (Sample.globals (Some Sample.funded) Sample.no_fault)
    Sample.jane Sample.jane_stored
  = (Ok (redirect "upload_certificate_page" []),
     mkWorld (table Sample.jane_stored) []
             [("danger"%string,
               lit "Error: Certificate for Matric No. CS/2020/001 already exists.")]
             [EQueryByMatric (lit "CS/2020/001")] 1).
Proof. vm_compute. reflexivity. Qed.

(* ================================================================== *)
(** ** The sample worlds are worlds the views produce *)
(* ================================================================== *)

(** Issuing [Sample.bar_first] into an empty table gives the table of
    [Sample.bar_stored]. *)
Example bar_stored_is_issued :
  upload_certificate_page (Sample.globals None Sample.no_fault)
                          Sample.bar_first empty_world
  = (Ok (redirect "upload_success_page"
                  [("hash_value"%string, Sample.bar_hash)]),
     mkWorld (table Sample.bar_stored) []
             [("success"%string,
               lit "Certificate saved successfully! (Blockchain not configured)")]
             [EQueryByMatric (lit "CS|2020|001");
              EGeneratePdf (lit "CS|2020|001") Sample.bar_hash; ECommit]
             2).
Proof. vm_compute. reflexivity. Qed.

(** The end-to-end scenario: the request of [Sample.jane], with a ledger
    that confirms the transaction, gives a row with a 64-character
    fingerprint, [on_blockchain] true and the transaction hash. *)
Example issuance_end_to_end :
  fst (upload_certificate_page
         (Sample.globals (Some Sample.funded) Sample.no_fault)
         Sample.jane empty_world)
  = Ok (redirect "upload_success_page"
                 [("hash_value"%string, Sample.jane_hash)])
  /\ table (snd (upload_certificate_page
                   (Sample.globals (Some Sample.funded) Sample.no_fault)
                   Sample.jane empty_world))
     = [ mkStudent 1 (lit "Jane Doe") (lit "CS/2020/001") (lit "2024-07-01")
                   (lit "2024") (lit "Second Class Upper")
                   (lit "Computer Science") Sample.jane_hash Sample.pdf_path
                   (VStr Sample.tx_hash) (VInt 4370000) true ]
  /\ flashes (snd (upload_certificate_page
                     (Sample.globals (Some Sample.funded) Sample.no_fault)
                     Sample.jane empty_world))
     = [ ("info"%string,
          lit "Certificate saved to database. Storing on blockchain...");
         ("success"%string,
          lit "✅ Certificate stored on blockchain! Tx: 0x5c504ed4...") ]
  /\ len Sample.jane_hash = 64.
Proof.
  repeat match goal with |- _ /\ _ => split end; vm_compute; reflexivity.
Qed.

(** Without a ledger the same request stores the row of
    [Sample.jane_stored]. *)
Example jane_stored_is_issued :
  table (snd (upload_certificate_page
                (Sample.globals None Sample.no_fault)
                Sample.jane empty_world))
  = table Sample.jane_stored.
Proof. vm_compute. reflexivity. Qed.

(* ================================================================== *)
(** ** The table through an issuance *)
(* ================================================================== *)

From Stdlib Require Import Sorting.Permutation Sorting.Sorted.

Import Setup Pages Pdf Facts.

Lemma fresh_id_above (t : list Student) (r : Student) :
  In r t -> id r < fresh_id t.
Proof.
  unfold fresh_id. induction t as [|x t IH]; cbn [In fold_right]; [tauto|].
  intros [Hx|H]; [subst x; lia|]. specialize (IH H). lia.
Qed.

Lemma update_row_fresh (k : Z) (f : Student -> Student) (t : list Student)
      (x : Student) :
  (forall r, In r t -> id r < k) -> id x = k ->
  update_row k f (t ++ [x]) = t ++ [f x].
Proof.
  intros Hlt Hx. unfold update_row. rewrite map_app. simpl.
  rewrite Hx, Z.eqb_refl. f_equal.
  rewrite <- (map_id t) at 2. apply map_ext_in. intros r Hr.
  specialize (Hlt r Hr).
  destruct (id r =? k) eqn:E; [apply Z.eqb_eq in E; lia|reflexivity].
Qed.

Lemma anchored_table (t : list Student) (s : Student) (tx bn : value) :
  update_row (fresh_id t) (set_on_blockchain true)
    (update_row (fresh_id t) (set_block_number bn)
       (update_row (fresh_id t) (set_tx_hash tx)
          (t ++ [set_id s (fresh_id t)])))
  = t ++ [anchored_row s (fresh_id t) tx bn].
Proof.
  rewrite !update_row_fresh; try reflexivity; apply fresh_id_above.
Qed.

(** The table after the [try] block: as it was when the commit of the
    row fails, and otherwise with the one new row, stored plainly or with
    its anchor. *)
Lemma persist_and_anchor_table g s w :
  pending w = [] ->
  match commit_failure g w s with
  | Some _ => table (snd (persist_and_anchor g s w)) = table w
  | None =>
    table (snd (persist_and_anchor g s w))
    = table w ++ [set_id s (fresh_id (table w))]
    \/ exists tx bn,
         table (snd (persist_and_anchor g s w))
         = table w ++ [anchored_row s (fresh_id (table w)) tx bn]
  end.
Proof.
  destruct w as [t p f tr n]. simpl. intros ->.
  unfold commit_failure. cbn [db_trips table].
  unfold persist_and_anchor, session_record, commit, db_trip, rollback.
  simpl_eff.
  destruct (io_fault (db g) n) as [e|] eqn:Hio; simpl_eff; [reflexivity|].
  cbn [app flush].
  destruct (unique_violation t s) eqn:Huniq; simpl_eff; [reflexivity|].
  cbn [app hd].
  destruct (blockchain g) as [bc|]; simpl_eff; [|left; reflexivity].
  rewrite store_certificate_frame.
  destruct (store_certificate_shape (runtime g) bc (certificate_hash s)
              (matric_number s)) as [d [Hd Hshape]].
  rewrite Hd. simpl_eff.
  destruct Hshape as [[tx [bn [gu ->]]]|[cause [rest ->]]];
    cbn [get entry String.eqb Ascii.eqb Bool.eqb truthy]; simpl_eff;
    [|left; reflexivity].
  destruct (io_fault (db g) (S n)) as [e|] eqn:Hio2; simpl_eff;
    [left; reflexivity|].
  cbn [app flush]. simpl_eff. unfold slice10. simpl_eff.
  right. exists (VStr tx), bn. apply anchored_table.
Qed.

(** The table after the view: as it was unless [prepare] handed over a
    row whose commit went through. *)
Lemma upload_table g request w :
  pending w = [] ->
  table (snd (upload_certificate_page g request w)) = table w
  \/ exists s w1,
       req_method request = POST
       /\ prepare g request w = (Ok (inr s), w1)
       /\ commit_failure g w1 s = None
       /\ (table (snd (upload_certificate_page g request w))
           = table w ++ [set_id s (fresh_id (table w))]
           \/ exists tx bn,
                table (snd (upload_certificate_page g request w))
                = table w ++ [anchored_row s (fresh_id (table w)) tx bn]).
Proof.
  intros Hpend.
  destruct (req_method request) eqn:Hm;
    try (left; unfold upload_certificate_page; rewrite Hm; reflexivity).
  destruct (prepare_frame g request w) as [evs [_ [_ [_ [Htab Hp]]]]].
  destruct (prepare g request w) as [[[early|s]|e] w1] eqn:Hprep;
    cbn [snd] in Htab, Hp.
  - left. unfold upload_certificate_page. rewrite Hm. unfold bind.
    rewrite Hprep. exact Htab.
  - rewrite (upload_after_prepare g request w s w1 Hm Hprep).
    assert (Hpend1 : pending w1 = []) by congruence.
    pose proof (persist_and_anchor_table g s w1 Hpend1) as H.
    destruct (commit_failure g w1 s) eqn:Hc; rewrite Htab in H;
      [left; exact H|].
    right. exists s, w1. repeat split; assumption.
  - left. unfold upload_certificate_page. rewrite Hm. unfold bind.
    rewrite Hprep. exact Htab.
Qed.

(** The table after a request whose row was stored. *)
Lemma upload_table_stored g request w s w1 :
  req_method request = POST ->
  pending w = [] ->
  prepare g request w = (Ok (inr s), w1) ->
  commit_failure g w1 s = None ->
  table (snd (upload_certificate_page g request w))
  = table w ++ [set_id s (fresh_id (table w))]
  \/ exists tx bn,
       table (snd (upload_certificate_page g request w))
       = table w ++ [anchored_row s (fresh_id (table w)) tx bn].
Proof.
  intros Hm Hpend Hprep Hc.
  destruct (prepare_frame g request w) as [evs [_ [_ [_ [Htab Hp]]]]].
  rewrite Hprep in Htab, Hp. cbn [snd] in Htab, Hp.
  rewrite (upload_after_prepare g request w s w1 Hm Hprep).
  assert (Hpend1 : pending w1 = []) by congruence.
  pose proof (persist_and_anchor_table g s w1 Hpend1) as H.
  rewrite Hc, Htab in H. exact H.
Qed.

(** *** [str.strip] *)

Lemma lstrip_idem (s : str) : lstrip (lstrip s) = lstrip s.
Proof.
  induction s as [|c s IH]; [reflexivity|]. simpl.
  destruct (isspace c) eqn:E; [exact IH|]. simpl. rewrite E. reflexivity.
Qed.

Lemma lstrip_app_keep (a : str) (c : N) :
  isspace c = false -> exists a', lstrip (a ++ [c]) = a' ++ [c].
Proof.
  intros Hc. induction a as [|x a IH]; simpl.
  - rewrite Hc. exists []. reflexivity.
  - destruct (isspace x); [exact IH|]. exists (x :: a). reflexivity.
Qed.

Lemma lstrip_head (s : str) :
  lstrip s = [] \/ exists c r, lstrip s = c :: r /\ isspace c = false.
Proof.
  induction s as [|c s IH]; [left; reflexivity|]. simpl.
  destruct (isspace c) eqn:E; [exact IH|]. right. exists c, s. auto.
Qed.

Lemma lstrip_fixed (c : N) (r : str) :
  isspace c = false -> lstrip (c :: r) = c :: r.
Proof. intros H. simpl. rewrite H. reflexivity. Qed.

Lemma strip_idem (s : str) : strip (strip s) = strip s.
Proof.
  destruct (lstrip_head s) as [H|[c [r [H Hc]]]].
  - unfold strip, rstrip. rewrite H. reflexivity.
  - destruct (lstrip_app_keep (rev r) c Hc) as [a' Ha].
    assert (Hfix : lstrip (a' ++ [c]) = a' ++ [c]).
    { rewrite <- Ha. apply lstrip_idem. }
    assert (E : strip s = c :: rev a').
    { unfold strip, rstrip. rewrite H. cbn [rev]. rewrite Ha.
      rewrite rev_app_distr. reflexivity. }
    rewrite E. unfold strip, rstrip.
    rewrite (lstrip_fixed c (rev a') Hc). cbn [rev].
    rewrite rev_involutive, Hfix, rev_app_distr. reflexivity.
Qed.

Lemma lstrip_blank (s : str) :
  forallb isspace s = true <-> lstrip s = [].
Proof.
  induction s as [|c s IH]; simpl; [tauto|].
  destruct (isspace c); simpl; [exact IH|]. split; discriminate.
Qed.

Lemma strip_blank (s : str) :
  forallb isspace s = true <-> strip s = [].
Proof.
  unfold strip, rstrip. split.
  - intros H. apply lstrip_blank in H. rewrite H. reflexivity.
  - intros H. apply lstrip_blank.
    destruct (lstrip_head s) as [H0|[c [r [H0 Hc]]]]; [exact H0|].
    rewrite H0 in H.
    destruct (lstrip_app_keep (rev r) c Hc) as [a' Ha].
    cbn [rev] in H. rewrite Ha, rev_app_distr in H. discriminate H.
Qed.

Lemma lstrip_no_space (s : str) :
  forallb (fun c => negb (isspace c)) s = true -> lstrip s = s.
Proof.
  destruct s as [|c s]; [reflexivity|]. simpl. intros H.
  apply andb_true_iff in H. destruct H as [H _].
  apply negb_true_iff in H. rewrite H. reflexivity.
Qed.

Lemma strip_no_space (s : str) :
  forallb (fun c => negb (isspace c)) s = true -> strip s = s.
Proof.
  intros H. unfold strip, rstrip. rewrite (lstrip_no_space s H).
  rewrite lstrip_no_space; [apply rev_involutive|].
  apply forallb_forall. intros c Hc. apply in_rev in Hc.
  exact (proj1 (forallb_forall _ _) H c Hc).
Qed.

Lemma hex_digit_not_space (c : N) :
  is_hex_digit c = true -> negb (isspace c) = true.
Proof.
  unfold is_hex_digit, isspace. intros H.
  apply orb_true_iff in H.
  destruct H as [H|H]; apply andb_true_iff in H; destruct H as [H1 H2];
    apply N.leb_le in H1; apply N.leb_le in H2;
    apply negb_true_iff;
    repeat (apply orb_false_iff; split);
    try (apply andb_false_iff;
         first [left; apply N.leb_gt; lia | right; apply N.leb_gt; lia]);
    apply N.eqb_neq; lia.
Qed.

Lemma fingerprint_shaped_strip (h : str) :
  fingerprint_shaped h = true -> strip h = h /\ str_truthy h = true
                                 /\ len h = 64.
Proof.
  unfold fingerprint_shaped. intros H. apply andb_true_iff in H.
  destruct H as [Hlen Hhex]. apply Z.eqb_eq in Hlen.
  split; [|split; [|exact Hlen]].
  - apply strip_no_space. apply forallb_forall. intros c Hc.
    apply hex_digit_not_space.
    exact (proj1 (forallb_forall _ _) Hhex c Hc).
  - destruct h; [discriminate Hlen|reflexivity].
Qed.

Lemma certificate_hash_shaped a b c d e f h :
  certificate_hash_of a b c d e f = Ok h -> fingerprint_shaped h = true.
Proof.
  unfold certificate_hash_of, sha256_hexdigest.
  destruct (encode_utf8 (data_string a b c d e f)); [|discriminate].
  intros H. inversion H. unfold fingerprint_shaped.
  rewrite hexdigest_length, hexdigest_is_hex. reflexivity.
Qed.

(** What [prepare] guarantees of the object it hands over. *)
Lemma prepare_row g request w s w1 :
  prepare g request w = (Ok (inr s), w1) ->
  hash_matches_fields s
  /\ Forall (fun field => trimmed field /\ str_truthy field = true)
            [full_name s; matric_number s; year_of_graduation s;
             date_of_award s; honors s; course_of_study s]
  /\ blockchain_tx_hash s = VNone /\ blockchain_block_number s = VNone
  /\ on_blockchain s = false.
Proof.
  destruct w as [t p f tr n].
  unfold prepare, strip_opt, query_first_by_matric, db_trip, select_first,
         generate_certificate_pdf.
  simpl_eff.
  split_outcomes; intros H; try discriminate H.
  inversion H; subst; clear H.
  match goal with
  | Ht : forallb str_truthy _ = true |- _ =>
    cbn [forallb] in Ht;
    repeat (apply andb_true_iff in Ht; destruct Ht as [? Ht])
  end.
  unfold hash_matches_fields, trimmed. cbn.
  split; [assumption|].
  split; [|auto].
  repeat (apply Forall_cons; [split; [apply strip_idem|assumption]|]).
  apply Forall_nil.
Qed.

Lemma NoDup_snoc {A : Type} (l : list A) (a : A) :
  NoDup l -> ~ In a l -> NoDup (l ++ [a]).
Proof.
  induction l as [|x l IH]; simpl; intros Hnd Hin.
  - constructor; [tauto|constructor].
  - inversion Hnd; subst. constructor.
    + intros Hx. apply in_app_or in Hx. destruct Hx as [Hx|[Hx|[]]];
        [tauto|subst; tauto].
    + apply IH; tauto.
Qed.

Lemma unique_violation_false t s r :
  unique_violation t s = false -> In r t ->
  matric_number r <> matric_number s
  /\ certificate_hash r <> certificate_hash s.
Proof.
  unfold unique_violation. intros Hu Hin.
  destruct (existsb _ t) eqn:E in Hu; [discriminate|]. clear Hu.
  split; intros Heq;
    assert (Ht : existsb
                   (fun s0 => str_eqb (matric_number s0) (matric_number s)
                              || str_eqb (certificate_hash s0)
                                         (certificate_hash s)) t = true);
    try (apply existsb_exists; exists r; split; [exact Hin|];
         rewrite Heq, str_eqb_refl; auto using orb_true_r);
    rewrite E in Ht; discriminate.
Qed.

Lemma table_ok_snoc t s row :
  table_ok t -> unique_violation t s = false ->
  id row = fresh_id t -> matric_number row = matric_number s ->
  certificate_hash row = certificate_hash s ->
  table_ok (t ++ [row]).
Proof.
  intros [Hid [Hm Hh]] Hu Hrid Hrm Hrh. unfold table_ok.
  rewrite !map_app. cbn [map].
  repeat split; apply NoDup_snoc; try assumption.
  - intros Hin. apply in_map_iff in Hin. destruct Hin as [r [Hr Hin]].
    pose proof (fresh_id_above t r Hin). lia.
  - intros Hin. apply in_map_iff in Hin. destruct Hin as [r [Hr Hin]].
    destruct (unique_violation_false t s r Hu Hin) as [H _]. congruence.
  - intros Hin. apply in_map_iff in Hin. destruct Hin as [r [Hr Hin]].
    destruct (unique_violation_false t s r Hu Hin) as [_ H]. congruence.
Qed.

(** X1.  An issuance only ever appends to the table: the rows that were
    there stay, unchanged and in place, and at most one row is added, under
    the next row id. *)
Theorem issuance_only_appends :
  forall (g : Globals) (request : request) (w : world),
    pending w = [] ->
    exists rest : list Student,
      table (snd (upload_certificate_page g request w)) = table w ++ rest
      /\ (List.length rest <= 1)%nat
      /\ (forall row, In row rest -> id row = fresh_id (table w)).
Proof.
  intros g request w Hpend.
  destruct (upload_table g request w Hpend)
    as [H|[s [w1 [_ [_ [_ [H|[tx [bn H]]]]]]]]].
  - exists []. rewrite app_nil_r. split; [exact H|]. split; [auto|].
    intros row [].
  - eexists. split; [exact H|]. split; [reflexivity|].
    intros row [<-|[]]. reflexivity.
  - eexists. split; [exact H|]. split; [reflexivity|].
    intros row [<-|[]]. reflexivity.
Qed.

Lemma issuance_only_appends_witness :
  exists rest : list Student,
    table (snd (upload_certificate_page
                  (Sample.globals None Sample.no_fault)
                  Sample.bar_first Sample.jane_stored))
    = table Sample.jane_stored ++ rest
    /\ (List.length rest <= 1)%nat
    /\ (forall row, In row rest -> id row = fresh_id (table Sample.jane_stored)).
Proof.
  apply (issuance_only_appends (Sample.globals None Sample.no_fault)
           Sample.bar_first Sample.jane_stored).
  reflexivity.
Defined.

(** X2.  An issuance keeps the constraints of the table: row ids, matric
    numbers and certificate hashes stay pairwise distinct. *)
Theorem issuance_keeps_table_constraints :
  forall (g : Globals) (request : request) (w : world),
    pending w = [] ->
    table_ok (table w) ->
    table_ok (table (snd (upload_certificate_page g request w))).
Proof.
  intros g request w Hpend Hok.
  destruct (upload_table g request w Hpend)
    as [H|[s [w1 [_ [Hprep [Hc H]]]]]]; [rewrite H; exact Hok|].
  destruct (prepare_frame g request w) as [evs [_ [_ [_ [Htab _]]]]].
  rewrite Hprep in Htab. cbn [snd] in Htab.
  destruct (commit_failure_none g w1 s Hc) as [_ Hu]. rewrite Htab in Hu.
  destruct H as [H|[tx [bn H]]]; rewrite H;
    apply (table_ok_snoc _ s); auto.
Qed.

Lemma issuance_keeps_table_constraints_witness :
  table_ok (table (snd (upload_certificate_page
                          (Sample.globals None Sample.no_fault)
                          Sample.bar_first Sample.jane_stored))).
Proof.
  apply (issuance_keeps_table_constraints
           (Sample.globals None Sample.no_fault)
           Sample.bar_first Sample.jane_stored).
  - reflexivity.
  - unfold table_ok. simpl.
    repeat split; (constructor; [simpl; tauto|constructor]).
Defined.

(** X3.  Every row that an issuance adds carries the hash of its own six
    fields, a hash of 64 hexadecimal digits; its six fields are not empty
    and have no white space at either end; and its id is the next row id
    of the table. *)
Theorem stored_row_matches_its_fields :
  forall (g : Globals) (request : request) (w : world) (row : Student),
    pending w = [] ->
    In row (table (snd (upload_certificate_page g request w))) ->
    ~ In row (table w) ->
    hash_matches_fields row
    /\ fingerprint_shaped (certificate_hash row) = true
    /\ Forall (fun field => trimmed field /\ str_truthy field = true)
              [full_name row; matric_number row; year_of_graduation row;
               date_of_award row; honors row; course_of_study row]
    /\ id row = fresh_id (table w).
Proof.
  intros g request w row Hpend Hin Hnew.
  destruct (upload_table g request w Hpend)
    as [H|[s [w1 [_ [Hprep [_ H]]]]]]; [rewrite H in Hin; tauto|].
  destruct (prepare_row g request w s w1 Hprep) as [Hh [Hf _]].
  assert (Hrow : row = set_id s (fresh_id (table w))
                 \/ exists tx bn,
                      row = anchored_row s (fresh_id (table w)) tx bn).
  { destruct H as [H|[tx [bn H]]]; rewrite H in Hin;
      apply in_app_or in Hin; destruct Hin as [Hin|[Hin|[]]];
      try tauto; [left|right; exists tx, bn]; symmetry; exact Hin. }
  assert (Hs : fingerprint_shaped (certificate_hash s) = true).
  { unfold hash_matches_fields in Hh.
    exact (certificate_hash_shaped _ _ _ _ _ _ _ Hh). }
  destruct Hrow as [->|[tx [bn ->]]]; repeat split; assumption.
Qed.

Lemma stored_row_matches_its_fields_witness :
  hash_matches_fields (set_id Sample.jane_row 1)
  /\ fingerprint_shaped (certificate_hash (set_id Sample.jane_row 1)) = true
  /\ Forall (fun field => trimmed field /\ str_truthy field = true)
            [full_name (set_id Sample.jane_row 1);
             matric_number (set_id Sample.jane_row 1);
             year_of_graduation (set_id Sample.jane_row 1);
             date_of_award (set_id Sample.jane_row 1);
             honors (set_id Sample.jane_row 1);
             course_of_study (set_id Sample.jane_row 1)]
  /\ id (set_id Sample.jane_row 1) = fresh_id (table empty_world).
Proof.
  apply (stored_row_matches_its_fields
           (Sample.globals None Sample.no_fault) Sample.jane empty_world
           (set_id Sample.jane_row 1)).
  - reflexivity.
  - vm_compute. left. reflexivity.
  - simpl. tauto.
Defined.

(** X4.  With no ledger configured, a request whose row can be stored is
    stored, without anchor and with [on_blockchain] false; the view
    flashes that the certificate is saved and the blockchain not
    configured, redirects to the success page, and no call reaches a
    ledger. *)
Theorem issuance_without_ledger :
  forall (g : Globals) (request : request) (w w1 : world) (s : Student),
    req_method request = POST ->
    pending w = [] ->
    prepare g request w = (Ok (inr s), w1) ->
    commit_failure g w1 s = None ->
    blockchain g = None ->
    upload_certificate_page g request w
    = (Ok (redirect "upload_success_page"
                    [("hash_value"%string, certificate_hash s)]),
       mkWorld (table w ++ [set_id s (fresh_id (table w))]) []
               (flashes w
                ++ [("success"%string,
                     lit "Certificate saved successfully! (Blockchain not configured)")])
               (trace w1 ++ [ECommit]) (S (db_trips w1)))
    /\ on_blockchain (set_id s (fresh_id (table w))) = false
    /\ blockchain_tx_hash (set_id s (fresh_id (table w))) = VNone
    /\ existsb is_ledger_event (trace w1 ++ [ECommit])
       = existsb is_ledger_event (trace w).
Proof.
  intros g request w w1 s Hm Hpend Hprep Hcommit Hbc.
  rewrite (upload_after_prepare g request w s w1 Hm Hprep).
  destruct (prepare_row g request w s w1 Hprep) as [_ [_ [Htx [_ Hon]]]].
  destruct (prepare_continues g request w s w1 Hprep)
    as [fields [h [path [_ [_ [_ [_ [_ [_ Hw1]]]]]]]]].
  destruct (commit_failure_none g w1 s Hcommit) as [Hio Huniq].
  destruct w as [t p f tr n]. simpl in Hpend. subst p.
  rewrite Hw1 in *. clear Hw1. cbn [table db_trips trace] in *.
  split; [|split; [exact Hon|split; [exact Htx|]]].
  - unfold persist_and_anchor, session_record, commit, db_trip.
    simpl_eff. rewrite Hio. simpl_eff. cbn [app flush].
    rewrite Huniq. simpl_eff. cbn [app hd]. rewrite Hbc. simpl_eff.
    rewrite <- !app_assoc. reflexivity.
  - rewrite !existsb_app. cbn. rewrite !orb_false_r. reflexivity.
Qed.

Lemma issuance_without_ledger_witness :
  upload_certificate_page (Sample.globals None Sample.no_fault)
                          Sample.jane empty_world
  = (Ok (redirect "upload_success_page"
                  [("hash_value"%string, certificate_hash Sample.jane_row)]),
     mkWorld (table empty_world
              ++ [set_id Sample.jane_row (fresh_id (table empty_world))]) []
             (flashes empty_world
              ++ [("success"%string,
                   lit "Certificate saved successfully! (Blockchain not configured)")])
             (trace Sample.jane_prepared ++ [ECommit])
             (S (db_trips Sample.jane_prepared)))
  /\ on_blockchain (set_id Sample.jane_row (fresh_id (table empty_world)))
     = false
  /\ blockchain_tx_hash (set_id Sample.jane_row (fresh_id (table empty_world)))
     = VNone
  /\ existsb is_ledger_event (trace Sample.jane_prepared ++ [ECommit])
     = existsb is_ledger_event (trace empty_world).
Proof.
  apply (issuance_without_ledger (Sample.globals None Sample.no_fault)
           Sample.jane empty_world Sample.jane_prepared Sample.jane_row);
    vm_compute; reflexivity.
Defined.

(** X5.  When the row is stored, the anchor call returns a success and
    the second commit goes through, the row ends with the transaction hash
    and the block number of the returned dictionary and with
    [on_blockchain] true; the view flashes the first ten characters of the
    transaction hash and redirects to the success page. *)
Theorem issuance_records_confirmed_anchor :
  forall (g : Globals) (request : request) (w w1 : world) (s : Student)
         (bc : BlockchainManager) (d : dict),
    req_method request = POST ->
    pending w = [] ->
    prepare g request w = (Ok (inr s), w1) ->
    commit_failure g w1 s = None ->
    blockchain g = Some bc ->
    anchor_outcome (runtime g) bc (certificate_hash s) (matric_number s)
    = Ok d ->
    get d "success" = Some (VBool true) ->
    io_fault (db g) (S (db_trips w1)) = None ->
    exists (tx_hash : str) (block_number : value),
      get d "tx_hash" = Some (VStr tx_hash)
      /\ get d "block_number" = Some block_number
      /\ upload_certificate_page g request w
         = (Ok (redirect "upload_success_page"
                         [("hash_value"%string, certificate_hash s)]),
            mkWorld
              (table w
               ++ [anchored_row s (fresh_id (table w)) (VStr tx_hash)
                                block_number]) []
              (flashes w
               ++ [("info"%string,
                    lit "Certificate saved to database. Storing on blockchain...");
                   ("success"%string,
                    lit "✅ Certificate stored on blockchain! Tx: "
                    ++ slice_to 10 tx_hash ++ lit "...")])
              (trace w1
               ++ ECommit :: anchor_events (runtime g) bc (certificate_hash s)
                                           (matric_number s)
               ++ [ECommit])
              (S (S (db_trips w1)))).
Proof.
  intros g request w w1 s bc d Hm Hpend Hprep Hcommit Hbc Hanchor Hsucc Hio2.
  rewrite (upload_after_prepare g request w s w1 Hm Hprep).
  destruct (prepare_continues g request w s w1 Hprep)
    as [fields [h [path [_ [_ [_ [_ [_ [_ Hw1]]]]]]]]].
  destruct (commit_failure_none g w1 s Hcommit) as [Hio Huniq].
  destruct (store_certificate_shape (runtime g) bc (certificate_hash s)
              (matric_number s)) as [d' [Hd' Hshape]].
  rewrite Hanchor in Hd'. inversion Hd'; subst d'; clear Hd'.
  destruct (anchor_success_inv d (VBool true) Hshape Hsucc eq_refl)
    as [tx [bn [gu Hd]]].
  exists tx, bn.
  destruct w as [t p f tr n]. simpl in Hpend. subst p.
  rewrite Hw1 in *. clear Hw1. cbn [table db_trips trace] in *.
  split; [rewrite Hd; reflexivity|]. split; [rewrite Hd; reflexivity|].
  unfold persist_and_anchor, session_record, commit, db_trip.
  simpl_eff. rewrite Hio. simpl_eff. cbn [app flush].
  rewrite Huniq. simpl_eff. cbn [app hd]. rewrite Hbc. simpl_eff.
  rewrite store_certificate_frame, Hanchor. simpl_eff.
  rewrite Hd. cbn [get entry String.eqb Ascii.eqb Bool.eqb truthy].
  simpl_eff. rewrite Hio2. simpl_eff. cbn [app flush]. simpl_eff.
  unfold slice10. simpl_eff.
  rewrite anchored_table. rewrite <- !app_assoc. reflexivity.
Qed.

Lemma issuance_records_confirmed_anchor_witness :
  exists (tx_hash : str) (block_number : value),
    get [ "success" :- VBool true; "tx_hash" :- VStr Sample.tx_hash;
          "block_number" :- VInt 4370000; "gas_used" :- VInt 91234 ]
        "tx_hash" = Some (VStr tx_hash)
    /\ get [ "success" :- VBool true; "tx_hash" :- VStr Sample.tx_hash;
             "block_number" :- VInt 4370000; "gas_used" :- VInt 91234 ]
           "block_number" = Some block_number
    /\ upload_certificate_page
         (Sample.globals (Some Sample.funded) Sample.no_fault)
         Sample.jane empty_world
       = (Ok (redirect "upload_success_page"
                       [("hash_value"%string, certificate_hash Sample.jane_row)]),
          mkWorld
            (table empty_world
             ++ [anchored_row Sample.jane_row (fresh_id (table empty_world))
                              (VStr tx_hash) block_number]) []
            (flashes empty_world
             ++ [("info"%string,
                  lit "Certificate saved to database. Storing on blockchain...");
                 ("success"%string,
                  lit "✅ Certificate stored on blockchain! Tx: "
                  ++ slice_to 10 tx_hash ++ lit "...")])
            (trace Sample.jane_prepared
             ++ ECommit
                :: anchor_events
                     (runtime (Sample.globals (Some Sample.funded)
                                              Sample.no_fault))
                     Sample.funded (certificate_hash Sample.jane_row)
                     (matric_number Sample.jane_row)
             ++ [ECommit])
            (S (S (db_trips Sample.jane_prepared)))).
Proof.
  apply (issuance_records_confirmed_anchor
           (Sample.globals (Some Sample.funded) Sample.no_fault)
           Sample.jane empty_world Sample.jane_prepared Sample.jane_row
           Sample.funded
           [ "success" :- VBool true; "tx_hash" :- VStr Sample.tx_hash;
             "block_number" :- VInt 4370000; "gas_used" :- VInt 91234 ]);
    vm_compute; reflexivity.
Defined.

Lemma persist_and_anchor_returns g s w :
  exists r, fst (persist_and_anchor g s w) = Ok r.
Proof.
  unfold persist_and_anchor, try_except.
  match goal with
  | |- context [match ?body w with _ => _ end] => destruct (body w) as [[r|e] w']
  end.
  - exists r. reflexivity.
  - destruct w' as [t p f tr n]. unfold rollback. simpl_eff.
    eexists. reflexivity.
Qed.

(** X6.  The issuance view lets an exception escape only before anything
    is stored: when a form field is missing, when the look-up of the
    matric number fails, when the fields cannot be encoded, or when the
    PDF generator raises.  The table is then as it was, and no commit and
    no ledger call has been made. *)
Theorem issuance_raises_only_before_storing :
  forall (g : Globals) (request : request) (w : world) (e : exn),
    fst (upload_certificate_page g request w) = Raise e ->
    req_method request = POST
    /\ table (snd (upload_certificate_page g request w)) = table w
    /\ (exists evs,
          trace (snd (upload_certificate_page g request w)) = trace w ++ evs
          /\ existsb is_ledger_event evs = false
          /\ ~ In ECommit evs)
    /\ ((request_fields request = None /\ e = none_has_no_strip)
        \/ exists d,
             request_fields request = Some d
             /\ (io_fault (db g) (db_trips w) = Some e
                 \/ fingerprint d = Raise e
                 \/ exists h, fingerprint d = Ok h
                              /\ pdf_generator g d h = Raise e)).
Proof.
  intros g request w e.
  unfold upload_certificate_page.
  destruct (req_method request) eqn:Hm; try discriminate.
  unfold bind at 1.
  destruct (prepare g request w) as [[[early|s]|e'] w1] eqn:Hprep.
  - discriminate.
  - destruct (persist_and_anchor_returns g s w1) as [r Hr].
    rewrite Hr. discriminate.
  - cbn [fst snd]. intros H. inversion H; subst e'; clear H.
    split; [reflexivity|]. revert Hprep.
    destruct w as [t p f tr n].
    unfold prepare, strip_opt, query_first_by_matric, db_trip, select_first,
           generate_certificate_pdf, request_fields, fingerprint,
           none_has_no_strip.
    simpl_eff.
    split_outcomes; intros H; try discriminate H;
      inversion H; subst; clear H; cbn [table trace];
      (split; [reflexivity|]);
      (split;
       [eexists; split; [solve_trace|];
        split; [reflexivity|cbn; intuition discriminate]|]);
      first [ left; split; reflexivity
            | right; eexists; split; [reflexivity|]; cbn;
              first [ left; first [assumption|reflexivity]
                    | right; left; assumption
                    | right; right; eexists; split; eassumption ] ].
Qed.

Lemma issuance_raises_only_before_storing_witness :
  req_method (mkRequest POST [] []) = POST
  /\ table (snd (upload_certificate_page
                   (Sample.globals None Sample.no_fault)
                   (mkRequest POST [] []) Sample.jane_stored))
     = table Sample.jane_stored
  /\ (exists evs,
        trace (snd (upload_certificate_page
                      (Sample.globals None Sample.no_fault)
                      (mkRequest POST [] []) Sample.jane_stored))
        = trace Sample.jane_stored ++ evs
        /\ existsb is_ledger_event evs = false
        /\ ~ In ECommit evs)
  /\ ((request_fields (mkRequest POST [] []) = None
       /\ none_has_no_strip = none_has_no_strip)
      \/ exists d,
           request_fields (mkRequest POST [] []) = Some d
           /\ (io_fault (db (Sample.globals None Sample.no_fault))
                        (db_trips Sample.jane_stored) = Some none_has_no_strip
               \/ fingerprint d = Raise none_has_no_strip
               \/ exists h, fingerprint d = Ok h
                            /\ pdf_generator
                                 (Sample.globals None Sample.no_fault) d h
                               = Raise none_has_no_strip)).
Proof.
  apply (issuance_raises_only_before_storing
           (Sample.globals None Sample.no_fault) (mkRequest POST [] [])
           Sample.jane_stored none_has_no_strip).
  reflexivity.
Defined.

Lemma blank_fields_fail (l : list str) :
  existsb (forallb isspace) l = true ->
  forallb str_truthy (map strip l) = false.
Proof.
  induction l as [|s l IH]; simpl; [discriminate|].
  intros H. apply orb_true_iff in H. destruct H as [H|H].
  - apply strip_blank in H. rewrite H. reflexivity.
  - rewrite (IH H). apply andb_false_r.
Qed.

(** X7.  A request in which one of the six fields is empty or consists of
    white space only is turned down before anything else happens: the
    view flashes that all fields are required and redirects to the form;
    there is no look-up, no PDF, no row and no ledger call. *)
Theorem blank_field_is_rejected :
  forall (g : Globals) (request : request) (w : world)
         (full_name matric_number year_of_graduation date_of_award honors
          course_of_study : str),
    req_method request = POST ->
    lookup (form request) "full_name" = Some full_name ->
    lookup (form request) "matric_number" = Some matric_number ->
    lookup (form request) "year_of_graduation" = Some year_of_graduation ->
    lookup (form request) "date_of_award" = Some date_of_award ->
    lookup (form request) "honors" = Some honors ->
    lookup (form request) "course_of_study" = Some course_of_study ->
    existsb (forallb isspace)
      [full_name; matric_number; year_of_graduation; date_of_award; honors;
       course_of_study] = true ->
    upload_certificate_page g request w
    = (Ok (redirect "upload_certificate_page" []),
       mkWorld (table w) (pending w)
               (flashes w
                ++ [("danger"%string, lit "Error: All fields are required!")])
               (trace w) (db_trips w)).
Proof.
  intros g request w a b c x y z Hm Ha Hb Hc Hx Hy Hz Hblank.
  apply blank_fields_fail in Hblank. cbn [map] in Hblank.
  destruct w as [t p f tr n].
  unfold upload_certificate_page. rewrite Hm.
  unfold prepare, strip_opt. rewrite Ha, Hb, Hc, Hx, Hy, Hz.
  simpl_eff. rewrite Hblank. reflexivity.
Qed.

Lemma blank_field_is_rejected_witness :
  upload_certificate_page (Sample.globals (Some Sample.funded) Sample.no_fault)
    (Sample.issue "Jane Doe" "CS/2020/001" "2024" "2024-07-01" "  " "Computer Science")
    Sample.jane_stored
  = (Ok (redirect "upload_certificate_page" []),
     mkWorld (table Sample.jane_stored) (pending Sample.jane_stored)
             (flashes Sample.jane_stored
              ++ [("danger"%string, lit "Error: All fields are required!")])
             (trace Sample.jane_stored) (db_trips Sample.jane_stored)).
Proof.
  apply (blank_field_is_rejected
           (Sample.globals (Some Sample.funded) Sample.no_fault)
           (Sample.issue "Jane Doe" "CS/2020/001" "2024" "2024-07-01" "  "
                         "Computer Science")
           Sample.jane_stored
           (lit "Jane Doe") (lit "CS/2020/001") (lit "2024")
           (lit "2024-07-01") (lit "  ") (lit "Computer Science"));
    reflexivity.
Defined.

(* ================================================================== *)
(** ** Verification *)
(* ================================================================== *)

Lemma verify_on_blockchain_returns rt bc h w :
  exists d evs,
    verify_certificate_on_blockchain rt bc h w = (Ok d, logged w evs)
    /\ forallb is_read_event evs = true.
Proof.
  destruct w as [t p f tr n].
  unfold verify_certificate_on_blockchain. simpl_eff.
  split_outcomes; do 2 eexists;
    (split; [f_equal; f_equal; solve_trace|reflexivity]).
Qed.

Lemma find_snoc_new (p : Student -> bool) (t : list Student) (x : Student) :
  (forall r, In r t -> p r = false) -> p x = true ->
  find p (t ++ [x]) = Some x.
Proof.
  intros Hno Hx. induction t as [|y t IH]; simpl.
  - rewrite Hx. reflexivity.
  - rewrite (Hno y (or_introl eq_refl)). apply IH.
    intros r Hr. apply Hno. right. exact Hr.
Qed.

(** X8.  A certificate that has just been issued is found by the
    verification view under its hash: the results page shows the stored
    row of that certificate, whatever the ledger answers. *)
Theorem issued_certificate_is_verified :
  forall (g : Globals) (request request' : request) (w w1 : world)
         (s : Student),
    req_method request = POST ->
    pending w = [] ->
    prepare g request w = (Ok (inr s), w1) ->
    commit_failure g w1 s = None ->
    candidate request' = Some (certificate_hash s) ->
    io_fault (db g) (db_trips (snd (upload_certificate_page g request w)))
    = None ->
    exists (row : Student) (blockchain_result : template_value),
      fst (verify_certificate g request'
             (snd (upload_certificate_page g request w)))
      = Ok (render_template "verification_results.html"
              [ ("student"%string, TStudent row);
                ("blockchain_result"%string, blockchain_result) ])
      /\ stores row s
      /\ id row = fresh_id (table w)
      /\ In row (table (snd (upload_certificate_page g request w))).
Proof.
  intros g request request' w w1 s Hm Hpend Hprep Hcommit Hcand Hio.
  destruct (prepare_row g request w s w1 Hprep) as [Hh _].
  pose proof (certificate_hash_shaped _ _ _ _ _ _ _ Hh) as Hshape.
  destruct (fingerprint_shaped_strip _ Hshape) as [_ [Htruthy Hlen]].
  destruct (prepare_frame g request w) as [evs [_ [_ [_ [Htab _]]]]].
  rewrite Hprep in Htab. cbn [snd] in Htab.
  destruct (commit_failure_none g w1 s Hcommit) as [_ Hu]. rewrite Htab in Hu.
  assert (Hrow : exists row,
             table (snd (upload_certificate_page g request w))
             = table w ++ [row]
             /\ stores row s /\ id row = fresh_id (table w)).
  { destruct (upload_table_stored g request w s w1 Hm Hpend Hprep Hcommit)
      as [H|[tx [bn H]]]; eexists; (split; [exact H|]);
      split; try reflexivity; unfold stores; cbn; auto. }
  destruct Hrow as [row [Htable [Hst Hid]]].
  assert (Hfind : find (fun r => str_eqb (certificate_hash r)
                                         (certificate_hash s))
                       (table (snd (upload_certificate_page g request w)))
                  = Some row).
  { rewrite Htable. apply find_snoc_new.
    - intros r Hr. destruct (unique_violation_false _ s r Hu Hr) as [_ Hne].
      destruct (str_eqb (certificate_hash r) (certificate_hash s)) eqn:E;
        [apply str_eqb_eq in E; contradiction|reflexivity].
    - destruct Hst as [_ [_ [-> _]]]. apply str_eqb_refl. }
  assert (Hin : In row (table (snd (upload_certificate_page g request w)))).
  { rewrite Htable. apply in_or_app. right. left. reflexivity. }
  revert Hio Hfind Hin.
  generalize (snd (upload_certificate_page g request w)) as W.
  intros [t' p' f' tr' n'] Hio Hfind Hin. cbn [db_trips table] in *.
  apply Z.eqb_eq in Hlen.
  assert (Hrun : forall raw,
    strip raw = certificate_hash s ->
    exists result,
      fst ((hash_value <- ret (Some (strip raw)) ;;
            match hash_value with
            | Some hash_value =>
              if str_truthy hash_value then
                if len hash_value =? 64 then
                  (student <- query_first_by_hash g hash_value ;;
                   blockchain_result <-
                     match blockchain g with
                     | Some bc =>
                       (r <- verify_certificate_on_blockchain (runtime g) bc
                               hash_value ;;
                        ret (TDict r))
                     | None => ret TNone
                     end ;;
                   ret (render_template "verification_results.html"
                          [ ("student"%string,
                             match student with
                             | Some s => TStudent s
                             | None => TNone
                             end);
                            ("blockchain_result"%string, blockchain_result) ]))
                else
                  ret (render_template "verification_results.html"
                         [ ("student"%string, TNone);
                           ("blockchain_result"%string, TNone) ])
              else ret (render_template "verify_certificate.html" [])
            | None => ret (render_template "verify_certificate.html" [])
            end)%eff (mkWorld t' p' f' tr' n'))
      = Ok (render_template "verification_results.html"
              [ ("student"%string, TStudent row);
                ("blockchain_result"%string, result) ])).
  { intros raw Hraw. unfold query_first_by_hash, db_trip, select_first.
    simpl_eff. rewrite Hraw, Htruthy, Hlen, Hio. simpl_eff. rewrite Hfind.
    destruct (blockchain g) as [bc|]; simpl_eff.
    - match goal with
      | |- context [verify_certificate_on_blockchain ?rt ?b ?h ?ww] =>
        destruct (verify_on_blockchain_returns rt b h ww) as [d [ev [Hv _]]];
        rewrite Hv
      end.
      simpl_eff. eexists. reflexivity.
    - eexists. reflexivity. }
  unfold candidate in Hcand. unfold verify_certificate, strip_opt.
  destruct (req_method request'); [| |discriminate].
  - destruct (lookup (args request') "hash") as [raw|]; [|discriminate].
    cbn [option_map] in Hcand. inversion Hcand as [Hraw].
    destruct (Hrun raw Hraw) as [result Hres].
    exists row, result. split; [|auto].
    rewrite <- Hres. unfold bind, ret. reflexivity.
  - destruct (lookup (form request') "certificate_hash") as [raw|];
      [|discriminate].
    cbn [option_map] in Hcand. inversion Hcand as [Hraw].
    destruct (Hrun raw Hraw) as [result Hres].
    exists row, result. split; [|auto].
    rewrite <- Hres. unfold bind, ret. reflexivity.
Qed.

Lemma issued_certificate_is_verified_witness :
  exists (row : Student) (blockchain_result : template_value),
    fst (verify_certificate
           (Sample.globals (Some Sample.funded) Sample.no_fault)
           (Sample.verify_get Sample.jane_hash)
           (snd (upload_certificate_page
                   (Sample.globals (Some Sample.funded) Sample.no_fault)
                   Sample.jane empty_world)))
    = Ok (render_template "verification_results.html"
            [ ("student"%string, TStudent row);
              ("blockchain_result"%string, blockchain_result) ])
    /\ stores row Sample.jane_row
    /\ id row = fresh_id (table empty_world)
    /\ In row (table (snd (upload_certificate_page
                             (Sample.globals (Some Sample.funded)
                                             Sample.no_fault)
                             Sample.jane empty_world))).
Proof.
  apply (issued_certificate_is_verified
           (Sample.globals (Some Sample.funded) Sample.no_fault)
           Sample.jane (Sample.verify_get Sample.jane_hash)
           empty_world Sample.jane_prepared Sample.jane_row);
    vm_compute; reflexivity.
Defined.

(** X9.  The verification view only reads.  It leaves the table, the
    session and the flashed messages as they were; its only events are the
    look-up by hash, the call of the contract's view function and output.
    An exception escapes it only when a [POST] lacks the field
    [certificate_hash] or when the look-up in the database fails: never
    because of the ledger. *)
Theorem verification_only_reads :
  forall (g : Globals) (request : request) (w : world),
    table (snd (verify_certificate g request w)) = table w
    /\ pending (snd (verify_certificate g request w)) = pending w
    /\ flashes (snd (verify_certificate g request w)) = flashes w
    /\ (exists evs,
          trace (snd (verify_certificate g request w)) = trace w ++ evs
          /\ forallb is_read_event evs = true)
    /\ (forall e,
          fst (verify_certificate g request w) = Raise e ->
          (req_method request = POST
           /\ lookup (form request) "certificate_hash" = None
           /\ e = none_has_no_strip)
          \/ io_fault (db g) (db_trips w) = Some e).
Proof.
  intros g request [t p f tr n].
  unfold verify_certificate, strip_opt, query_first_by_hash, db_trip,
         select_first, verify_certificate_on_blockchain, none_has_no_strip.
  simpl_eff.
  split_outcomes; cbn [table pending flashes trace db_trips];
    (repeat match goal with |- _ /\ _ => split end;
     try reflexivity;
     [ eexists; split; [solve_trace|reflexivity]
     | intros e0 He0; try discriminate He0; inversion He0; subst;
       first [ left; repeat split; first [assumption|reflexivity]
             | right; first [assumption|reflexivity] ] ]).
Qed.

(* ================================================================== *)
(** ** The anchor call, step by step *)
(* ================================================================== *)

(** X10.  The anchor call sends at most one transaction, and only one
    that it has built and signed before: the events that concern a
    transaction are a beginning of "build, sign, send", all three for the
    same transaction, whose gas limit is the estimate plus 10000. *)
Theorem at_most_one_transaction_is_sent :
  forall (rt : Runtime) (self : BlockchainManager)
         (certificate_hash matric_number : str),
    transaction_events
      (anchor_events rt self certificate_hash matric_number) = []
    \/ exists nonce gas_estimate gas_price tx,
         eth_get_transaction_count (w3 self) (account_address self) = Ok nonce
         /\ storeCertificate_estimate_gas (contract self) certificate_hash
              matric_number (account_address self) = Ok gas_estimate
         /\ eth_gas_price (w3 self) = Ok gas_price
         /\ tx = mkTransaction certificate_hash matric_number
                               (account_address self) nonce
                               (gas_estimate + 10000) gas_price
         /\ (transaction_events
               (anchor_events rt self certificate_hash matric_number)
             = [EBuildTransaction tx]
             \/ transaction_events
                  (anchor_events rt self certificate_hash matric_number)
                = [EBuildTransaction tx; ESignTransaction tx]
             \/ transaction_events
                  (anchor_events rt self certificate_hash matric_number)
                = [EBuildTransaction tx; ESignTransaction tx;
                   ESendRawTransaction tx]).
Proof.
  intros rt self h m.
  unfold transaction_events, anchor_events, empty_world.
  unfold store_certificate_on_blockchain, is_connected, get_balance.
  simpl_eff.
  split_outcomes;
    first [ left; reflexivity
          | right; do 4 eexists;
            repeat match goal with |- _ /\ _ => split end;
            try reflexivity;
            first [ left; reflexivity
                  | right; left; reflexivity
                  | right; right; reflexivity ] ].
Qed.

(** X11.  The anchor call reports success only for a confirmed
    transaction: the transaction was sent, the receipt arrived within the
    wait, its status is 1, and the dictionary returned carries the hash of
    that transaction and the block number and gas of that receipt. *)
Theorem anchor_success_means_confirmed_receipt :
  forall (rt : Runtime) (self : BlockchainManager)
         (certificate_hash matric_number : str) (d : dict),
    anchor_outcome rt self certificate_hash matric_number = Ok d ->
    get d "success" = Some (VBool true) ->
    exists tx tx_hash receipt status block_number gas_used,
      submitted self certificate_hash matric_number tx tx_hash
      /\ In (ESendRawTransaction tx)
            (anchor_events rt self certificate_hash matric_number)
      /\ eth_wait_for_transaction_receipt (w3 self) tx_hash 120 = Ok receipt
      /\ get receipt "status" = Some status
      /\ eq_int status 1 = true
      /\ get receipt "blockNumber" = Some block_number
      /\ get receipt "gasUsed" = Some gas_used
      /\ d = [ "success" :- VBool true; "tx_hash" :- VStr tx_hash;
               "block_number" :- block_number; "gas_used" :- gas_used ].
Proof.
  intros rt self h m d.
  unfold anchor_outcome, anchor_events, empty_world, submitted.
  unfold store_certificate_on_blockchain, is_connected, get_balance.
  simpl_eff.
  split_outcomes; intros Hd Hs; inversion Hd; subst d; clear Hd;
    try discriminate Hs.
  do 6 eexists.
  repeat match goal with |- _ /\ _ => split end;
    try eassumption; try reflexivity.
  - eexists. split; [reflexivity|].
    match goal with
    | Hb : balance_lt (from_wei_ether ?a) _ = false |- _ =>
      destruct (N.lt_ge_cases a 1000000000000000) as [Hlt|Hge];
      [apply balance_lt_minimum in Hlt; congruence|exact Hge]
    end.
  - do 3 eexists. repeat split; reflexivity.
  - cbn [app In]. tauto.
Qed.

Lemma anchor_success_means_confirmed_receipt_witness :
  exists tx tx_hash receipt status block_number gas_used,
    submitted Sample.funded Sample.jane_hash (lit "CS/2020/001") tx tx_hash
    /\ In (ESendRawTransaction tx)
          (anchor_events Sample.rt Sample.funded Sample.jane_hash
                         (lit "CS/2020/001"))
    /\ eth_wait_for_transaction_receipt (w3 Sample.funded) tx_hash 120
       = Ok receipt
    /\ get receipt "status" = Some status
    /\ eq_int status 1 = true
    /\ get receipt "blockNumber" = Some block_number
    /\ get receipt "gasUsed" = Some gas_used
    /\ [ "success" :- VBool true; "tx_hash" :- VStr Sample.tx_hash;
         "block_number" :- VInt 4370000; "gas_used" :- VInt 91234 ]
       = [ "success" :- VBool true; "tx_hash" :- VStr tx_hash;
           "block_number" :- block_number; "gas_used" :- gas_used ].
Proof.
  apply (anchor_success_means_confirmed_receipt
           Sample.rt Sample.funded Sample.jane_hash (lit "CS/2020/001")
           [ "success" :- VBool true; "tx_hash" :- VStr Sample.tx_hash;
             "block_number" :- VInt 4370000; "gas_used" :- VInt 91234 ]);
    vm_compute; reflexivity.
Defined.

Lemma submitted_run rt self h m tx tx_hash (w : world) :
  submitted self h m tx tx_hash ->
  exists nonce gas_estimate gas_price,
    tx = mkTransaction h m (account_address self) nonce
                       (gas_estimate + 10000) gas_price
    /\ store_certificate_on_blockchain rt self h m w
       = try_except
           (print (lit "📤 Transaction sent: " ++ tx_hash) ;;;
            print (lit "⏳ Waiting for confirmation...") ;;;
            tx_receipt <- call (EWaitForReceipt tx_hash 120)
                               (eth_wait_for_transaction_receipt (w3 self)
                                  tx_hash 120) ;;
            status <- getitem tx_receipt "status" ;;
            if eq_int status 1 then
              block <- getitem tx_receipt "blockNumber" ;;
              print (lit "✅ Transaction confirmed in block " ++ str_of block) ;;;
              block_number <- getitem tx_receipt "blockNumber" ;;
              gas_used <- getitem tx_receipt "gasUsed" ;;
              ret [ "success" :- VBool true;
                    "tx_hash" :- VStr tx_hash;
                    "block_number" :- block_number;
                    "gas_used" :- gas_used ]
            else
              ret [ "success" :- VBool false;
                    "error" :- VStr (lit "Transaction failed on blockchain");
                    "tx_hash" :- VStr tx_hash ])%eff
           (fun e =>
              print (lit "❌ Blockchain error: " ++ exn_str e) ;;;
              ret [ "success" :- VBool false;
                    "error" :- VStr (exn_str e) ])%eff
           (logged w [EIsConnected; EGetBalance (account_address self);
                      EGetTransactionCount (account_address self);
                      EEstimateGas h m (account_address self); EGasPrice;
                      EBuildTransaction tx; ESignTransaction tx;
                      ESendRawTransaction tx]).
Proof.
  intros [Hc [[wei [Hb Hwei]] [[nonce [est [price [Hn [He [Hp Htx]]]]]]
          [Hbuild [Hsign Hsend]]]]].
  exists nonce, est, price. split; [exact Htx|].
  assert (Hbal : balance_lt (from_wei_ether wei) (1 # 1000) = false).
  { destruct (balance_lt (from_wei_ether wei) (1 # 1000)) eqn:E;
      [apply balance_lt_minimum in E; lia|reflexivity]. }
  destruct w as [t p f tr n]. subst tx.
  unfold store_certificate_on_blockchain, is_connected, get_balance.
  simpl_eff. rewrite Hc. simpl_eff. rewrite Hb. simpl_eff. rewrite Hbal.
  rewrite Hn. simpl_eff. rewrite He. simpl_eff. rewrite Hp. simpl_eff.
  rewrite Hbuild. simpl_eff. rewrite Hsign. simpl_eff. rewrite Hsend.
  simpl_eff. rewrite <- !app_assoc. reflexivity.
Qed.

(** X12.  When the transaction has been sent and its receipt reports a
    status other than 1, the anchor call returns a failure that carries
    the hash of the transaction. *)
Theorem reverted_transaction_is_reported_with_its_hash :
  forall (rt : Runtime) (self : BlockchainManager)
         (certificate_hash matric_number : str) (tx : transaction)
         (tx_hash : str) (receipt : dict) (status : value),
    submitted self certificate_hash matric_number tx tx_hash ->
    eth_wait_for_transaction_receipt (w3 self) tx_hash 120 = Ok receipt ->
    get receipt "status" = Some status ->
    eq_int status 1 = false ->
    anchor_outcome rt self certificate_hash matric_number
    = Ok [ "success" :- VBool false;
           "error" :- VStr (lit "Transaction failed on blockchain");
           "tx_hash" :- VStr tx_hash ]
    /\ In (ESendRawTransaction tx)
          (anchor_events rt self certificate_hash matric_number).
Proof.
  intros rt self h m tx tx_hash receipt status Hsub Hwait Hstatus Hne.
  unfold anchor_outcome, anchor_events.
  destruct (submitted_run rt self h m tx tx_hash empty_world Hsub)
    as [nonce [est [price [Htx Hrun]]]].
  rewrite Hrun. unfold empty_world. simpl_eff.
  rewrite Hwait. simpl_eff. rewrite Hstatus. simpl_eff. rewrite Hne.
  split; [reflexivity|]. cbn [app In]. tauto.
Qed.

Lemma reverted_transaction_is_reported_with_its_hash_witness :
  anchor_outcome Sample.rt Cases.reverting Sample.jane_hash (lit "CS/2020/001")
  = Ok [ "success" :- VBool false;
         "error" :- VStr (lit "Transaction failed on blockchain");
         "tx_hash" :- VStr Sample.tx_hash ]
  /\ In (ESendRawTransaction Cases.jane_tx)
        (anchor_events Sample.rt Cases.reverting Sample.jane_hash
                       (lit "CS/2020/001")).
Proof.
  apply (reverted_transaction_is_reported_with_its_hash
           Sample.rt Cases.reverting Sample.jane_hash (lit "CS/2020/001")
           Cases.jane_tx Sample.tx_hash Cases.reverted_receipt (VInt 0)).
  - unfold submitted.
    split; [reflexivity|].
    split; [exists 1000000000000000000%N; split; [reflexivity|vm_compute; discriminate]|].
    split; [exists 7, 81234, 20000000000; repeat split; reflexivity|].
    repeat split; reflexivity.
  - reflexivity.
  - reflexivity.
  - reflexivity.
Defined.

(** X13.  When the transaction has been sent and the wait for its
    receipt raises (a timeout, a lost connection), the anchor call returns
    a failure with the text of the exception and without the hash of the
    transaction that was sent. *)
Theorem failed_wait_loses_the_transaction_hash :
  forall (rt : Runtime) (self : BlockchainManager)
         (certificate_hash matric_number : str) (tx : transaction)
         (tx_hash : str) (e : exn),
    submitted self certificate_hash matric_number tx tx_hash ->
    eth_wait_for_transaction_receipt (w3 self) tx_hash 120 = Raise e ->
    anchor_outcome rt self certificate_hash matric_number
    = Ok [ "success" :- VBool false; "error" :- VStr (exn_str e) ]
    /\ get [ "success" :- VBool false; "error" :- VStr (exn_str e) ] "tx_hash"
       = None
    /\ In (ESendRawTransaction tx)
          (anchor_events rt self certificate_hash matric_number).
Proof.
  intros rt self h m tx tx_hash e Hsub Hwait.
  unfold anchor_outcome, anchor_events.
  destruct (submitted_run rt self h m tx tx_hash empty_world Hsub)
    as [nonce [est [price [Htx Hrun]]]].
  rewrite Hrun. unfold empty_world. simpl_eff.
  rewrite Hwait. simpl_eff.
  split; [reflexivity|]. split; [reflexivity|]. cbn [app In]. tauto.
Qed.

Lemma failed_wait_loses_the_transaction_hash_witness :
  anchor_outcome Sample.rt Cases.stalling Sample.jane_hash (lit "CS/2020/001")
  = Ok [ "success" :- VBool false;
         "error" :- VStr (exn_str Cases.time_exhausted) ]
  /\ get [ "success" :- VBool false;
           "error" :- VStr (exn_str Cases.time_exhausted) ] "tx_hash"
     = None
  /\ In (ESendRawTransaction Cases.jane_tx)
        (anchor_events Sample.rt Cases.stalling Sample.jane_hash
                       (lit "CS/2020/001")).
Proof.
  apply (failed_wait_loses_the_transaction_hash
           Sample.rt Cases.stalling Sample.jane_hash (lit "CS/2020/001")
           Cases.jane_tx Sample.tx_hash Cases.time_exhausted).
  - unfold submitted.
    split; [reflexivity|].
    split; [exists 1000000000000000000%N; split; [reflexivity|vm_compute; discriminate]|].
    split; [exists 7, 81234, 20000000000; repeat split; reflexivity|].
    repeat split; reflexivity.
  - reflexivity.
Defined.

(* ================================================================== *)
(** ** Construction of the client *)
(* ================================================================== *)

(** X14.  [initialize_blockchain] never raises, and only prints.  It
    answers a manager exactly when the three variables are set and not
    empty, the private key has an account and the contract address a
    checksum form; the manager then holds the provider of the URL, the
    contract at the checksum address, the address and the key as
    configured, and the account of the key.  In every other case it
    answers [None]. *)
Theorem initialize_blockchain_never_raises :
  forall (lib : Library) (environ : list (string * str)) (w : world),
  exists (r : option BlockchainManager) (prints : list event),
    initialize_blockchain lib environ w = (Ok r, logged w prints)
    /\ forallb is_print_event prints = true
    /\ match configured environ with
       | None => r = None
       | Some (url, address, key) =>
         match account_from_key lib key, to_checksum_address lib address with
         | Ok account, Ok checksum =>
           r = Some (mkBlockchainManager
                       (http_provider lib url)
                       (contract_at lib (http_provider lib url) checksum)
                       address key account)
         | _, _ => r = None
         end
       end.
Proof.
  intros lib environ [t p f tr n].
  unfold initialize_blockchain, configured, not_configured, init.
  destruct (lookup environ "INFURA_URL") as [[|u0 url]|];
    destruct (lookup environ "CONTRACT_ADDRESS") as [[|a0 address]|];
    destruct (lookup environ "PRIVATE_KEY") as [[|k0 key]|];
    cbn [forallb str_truthy andb]; simpl_eff;
    try (do 2 eexists; split; [rewrite <- ?app_assoc; reflexivity|];
         split; reflexivity).
  destruct (account_from_key lib (k0 :: key)) as [account|e]; simpl_eff;
    [destruct (to_checksum_address lib (a0 :: address)) as [checksum|e];
     simpl_eff|];
    (do 2 eexists; split; [rewrite <- ?app_assoc; reflexivity|];
     split; reflexivity).
Qed.

(* ================================================================== *)
(** ** What is hashed *)
(* ================================================================== *)

Lemma to_N_byte_of_N (n : N) : (n < 256)%N -> Byte.to_N (byte_of_N n) = n.
Proof.
  intros H. unfold byte_of_N.
  destruct (Byte.of_N n) as [b|] eqn:E.
  - apply Byte.to_of_N. exact E.
  - apply Byte.of_N_None_iff in E. lia.
Qed.

Lemma utf8_decode_encode_char (c : N) (rest : bytes) :
  encodable c = true ->
  utf8_decode (utf8_encode_char c ++ rest) = c :: utf8_decode rest.
Proof.
  unfold encodable, utf8_encode_char. intros Henc.
  assert (Hmax : (c < 1114112)%N).
  { apply orb_true_iff in Henc. destruct Henc as [H|H].
    - apply N.ltb_lt in H. lia.
    - apply andb_true_iff in H. destruct H as [_ H]. apply N.ltb_lt in H.
      exact H. }
  assert (Hm0 : (c mod 64 < 64)%N) by (apply N.mod_lt; discriminate).
  assert (Hm1 : ((c / 64) mod 64 < 64)%N) by (apply N.mod_lt; discriminate).
  assert (Hm2 : ((c / 4096) mod 64 < 64)%N) by (apply N.mod_lt; discriminate).
  pose proof (N.Div0.div_mod c 64) as Hd0.
  pose proof (N.Div0.div_mod (c / 64) 64) as Hd1.
  pose proof (N.Div0.div_mod (c / 4096) 64) as Hd2.
  assert (Hq1 : (c / 64 / 64 = c / 4096)%N)
    by (rewrite N.Div0.div_div; reflexivity).
  assert (Hq2 : (c / 4096 / 64 = c / 262144)%N)
    by (rewrite N.Div0.div_div; reflexivity).
  rewrite Hq1 in Hd1. rewrite Hq2 in Hd2. clear Hq1 Hq2.
  remember (c / 262144)%N as q3 eqn:Eq3.
  remember ((c / 4096) mod 64)%N as m2 eqn:Em2.
  remember (c / 4096)%N as q2 eqn:Eq2.
  remember ((c / 64) mod 64)%N as m1 eqn:Em1.
  remember (c / 64)%N as q1 eqn:Eq1.
  remember (c mod 64)%N as m0 eqn:Em0.
  clear Eq3 Em2 Eq2 Em1 Eq1 Em0.
  destruct (c <? 128)%N eqn:E1.
  { apply N.ltb_lt in E1. cbn [app utf8_decode].
    rewrite to_N_byte_of_N by lia.
    apply N.ltb_lt in E1. rewrite E1. reflexivity. }
  apply N.ltb_ge in E1.
  destruct (c <? 2048)%N eqn:E2.
  { apply N.ltb_lt in E2. cbn [app utf8_decode].
    rewrite !to_N_byte_of_N by lia.
    replace (192 + q1 <? 128)%N with false
      by (symmetry; apply N.ltb_ge; lia).
    replace ((192 <=? 192 + q1) && (192 + q1 <? 224))%N with true
      by (symmetry; apply andb_true_iff; split;
          [apply N.leb_le|apply N.ltb_lt]; lia).
    f_equal. lia. }
  apply N.ltb_ge in E2.
  destruct (c <? 65536)%N eqn:E3.
  { apply N.ltb_lt in E3. cbn [app utf8_decode].
    rewrite !to_N_byte_of_N by lia.
    replace (224 + q2 <? 128)%N with false
      by (symmetry; apply N.ltb_ge; lia).
    replace ((192 <=? 224 + q2) && (224 + q2 <? 224))%N
      with false
      by (symmetry; apply andb_false_iff; right; apply N.ltb_ge; lia).
    replace ((224 <=? 224 + q2) && (224 + q2 <? 240))%N
      with true
      by (symmetry; apply andb_true_iff; split;
          [apply N.leb_le|apply N.ltb_lt]; lia).
    f_equal. lia. }
  apply N.ltb_ge in E3. cbn [app utf8_decode].
  rewrite !to_N_byte_of_N by lia.
  replace (240 + q3 <? 128)%N with false
    by (symmetry; apply N.ltb_ge; lia).
  replace ((192 <=? 240 + q3) && (240 + q3 <? 224))%N
    with false
    by (symmetry; apply andb_false_iff; right; apply N.ltb_ge; lia).
  replace ((224 <=? 240 + q3) && (240 + q3 <? 240))%N
    with false
    by (symmetry; apply andb_false_iff; right; apply N.ltb_ge; lia).
  replace (240 <=? 240 + q3)%N with true
    by (symmetry; apply N.leb_le; lia).
  f_equal. lia.
Qed.

Lemma decode_of_encode (s : str) (b : bytes) :
  encode_utf8 s = Some b -> utf8_decode b = s.
Proof.
  revert b. induction s as [|c s IH]; simpl; intros b H.
  - inversion H. reflexivity.
  - destruct (encodable c) eqn:Hc; [|discriminate].
    destruct (encode_utf8 s) as [bs|]; [|discriminate].
    inversion H. rewrite (utf8_decode_encode_char c bs Hc).
    rewrite (IH bs eq_refl). reflexivity.
Qed.

(** X15.  Decoding undoes encoding: every string that [encode('utf-8')]
    accepts is read back, code point by code point, from the bytes that
    are hashed. *)
Theorem utf8_decode_encode :
  forall (s : str) (b : bytes),
    encode_utf8 s = Some b -> utf8_decode b = s.
Proof.
  exact decode_of_encode.
Qed.

Lemma utf8_decode_encode_witness :
  utf8_decode (list_byte_of_string "Zoë|✅") = lit "Zoë|✅".
Proof.
  apply (utf8_decode_encode (lit "Zoë|✅") (list_byte_of_string "Zoë|✅")).
  vm_compute. reflexivity.
Defined.

Lemma lit_bar : lit "|" = [bar].
Proof. reflexivity. Qed.

Lemma data_string_bars (a b c d e f : str) :
  data_string a b c d e f
  = a ++ bar :: b ++ bar :: c ++ bar :: d ++ bar :: e ++ bar :: f.
Proof.
  unfold data_string. rewrite lit_bar. cbn [app]. reflexivity.
Qed.

(** X16.  The six fields cannot always be told from what is hashed: a
    bar at the end of one field and the same bar at the start of the
    next give the same joined string, so that two requests whose names
    and matric numbers both differ get the same certificate hash. *)
Theorem bar_between_fields_is_ambiguous :
  forall (name rest matric year date honors course : str),
    data_string (name ++ bar :: rest) matric year date honors course
    = data_string name (rest ++ bar :: matric) year date honors course
    /\ certificate_hash_of (name ++ bar :: rest) matric year date honors course
       = certificate_hash_of name (rest ++ bar :: matric) year date honors
                             course
    /\ name ++ bar :: rest <> name
    /\ matric <> rest ++ bar :: matric.
Proof.
  intros name rest matric year date honors course.
  assert (H : data_string (name ++ bar :: rest) matric year date honors course
              = data_string name (rest ++ bar :: matric) year date honors
                            course).
  { rewrite !data_string_bars. rewrite <- !app_assoc. cbn [app].
    rewrite <- ?app_assoc. reflexivity. }
  split; [exact H|]. split.
  - unfold certificate_hash_of. rewrite H. reflexivity.
  - split; intros E; apply (f_equal (@List.length N)) in E;
      rewrite length_app in E; cbn [List.length] in E; lia.
Qed.

Lemma bar_free_split (a a' r r' : str) :
  bar_free a -> bar_free a' ->
  a ++ bar :: r = a' ++ bar :: r' -> a = a' /\ r = r'.
Proof.
  unfold bar_free. revert a'.
  induction a as [|x a IH]; intros [|y a'] Ha Ha' E; cbn [app forallb] in *.
  - injection E as ->. auto.
  - injection E as Hy _. rewrite <- Hy in Ha'.
    apply andb_true_iff in Ha'. destruct Ha' as [Hb _].
    rewrite N.eqb_refl in Hb. discriminate.
  - injection E as Hx _. rewrite Hx in Ha.
    apply andb_true_iff in Ha. destruct Ha as [Hb _].
    rewrite N.eqb_refl in Hb. discriminate.
  - injection E as -> Hr.
    apply andb_true_iff in Ha. apply andb_true_iff in Ha'.
    destruct (IH a' (proj2 Ha) (proj2 Ha') Hr) as [-> ->]. auto.
Qed.

(** X17.  When the first five fields hold no bar, the fields can be read
    back from the bytes that are hashed: two requests whose joined strings
    have the same UTF-8 encoding agree on all six fields, so that
    different certificates get the same hash only where SHA-256 itself
    collides. *)
Theorem hashed_bytes_determine_the_fields :
  forall (a b c d e f a' b' c' d' e' f' : str) (bs : bytes),
    bar_free a -> bar_free b -> bar_free c -> bar_free d -> bar_free e ->
    bar_free a' -> bar_free b' -> bar_free c' -> bar_free d' -> bar_free e' ->
    encode_utf8 (data_string a b c d e f) = Some bs ->
    encode_utf8 (data_string a' b' c' d' e' f') = Some bs ->
    a = a' /\ b = b' /\ c = c' /\ d = d' /\ e = e' /\ f = f'.
Proof.
  intros a b c d e f a' b' c' d' e' f' bs Ha Hb Hc Hd He Ha' Hb' Hc' Hd' He'
         H H'.
  apply decode_of_encode in H. apply decode_of_encode in H'.
  rewrite H in H'. clear H. rename H' into H.
  rewrite !data_string_bars in H.
  destruct (bar_free_split _ _ _ _ Ha Ha' H) as [-> H1].
  destruct (bar_free_split _ _ _ _ Hb Hb' H1) as [-> H2].
  destruct (bar_free_split _ _ _ _ Hc Hc' H2) as [-> H3].
  destruct (bar_free_split _ _ _ _ Hd Hd' H3) as [-> H4].
  destruct (bar_free_split _ _ _ _ He He' H4) as [-> ->].
  repeat split.
Qed.

Lemma hashed_bytes_determine_the_fields_witness :
  data_full_name Sample.jane_fields = lit "Jane Doe"
  /\ data_matric_number Sample.jane_fields = lit "CS/2020/001"
  /\ data_year_of_graduation Sample.jane_fields = lit "2024"
  /\ data_date_of_award Sample.jane_fields = lit "2024-07-01"
  /\ data_honors Sample.jane_fields = lit "Second Class Upper"
  /\ data_course_of_study Sample.jane_fields = lit "Computer Science".
Proof.
  apply (hashed_bytes_determine_the_fields
           (data_full_name Sample.jane_fields)
           (data_matric_number Sample.jane_fields)
           (data_year_of_graduation Sample.jane_fields)
           (data_date_of_award Sample.jane_fields)
           (data_honors Sample.jane_fields)
           (data_course_of_study Sample.jane_fields)
           (lit "Jane Doe") (lit "CS/2020/001") (lit "2024")
           (lit "2024-07-01") (lit "Second Class Upper")
           (lit "Computer Science")
           (list_byte_of_string
              "Jane Doe|CS/2020/001|2024|2024-07-01|Second Class Upper|Computer Science"));
    vm_compute; reflexivity.
Defined.

(* ================================================================== *)
(** ** The list of certificates *)
(* ================================================================== *)

Lemma insert_by_perm {A : Type} (leb : A -> A -> bool) (x : A) (l : list A) :
  Permutation (insert_by leb x l) (x :: l).
Proof.
  induction l as [|y l IH]; cbn [insert_by].
  - apply Permutation_refl.
  - destruct (leb x y).
    + apply Permutation_refl.
    + apply perm_trans with (y :: x :: l).
      * apply perm_skip. exact IH.
      * apply perm_swap.
Qed.

Lemma sort_by_perm {A : Type} (leb : A -> A -> bool) (l : list A) :
  Permutation (sort_by leb l) l.
Proof.
  induction l as [|x l IH]; cbn [sort_by fold_right].
  - apply perm_nil.
  - apply perm_trans with (x :: sort_by leb l).
    + apply insert_by_perm.
    + apply perm_skip. exact IH.
Qed.

Section Ordered.

Context {A : Type}.
Variable leb : A -> A -> bool.
Hypothesis leb_total : forall a b, leb a b = true \/ leb b a = true.
Hypothesis leb_trans :
  forall a b c, leb a b = true -> leb b c = true -> leb a c = true.

Lemma insert_by_sorted (x : A) (l : list A) :
  StronglySorted (fun a b => leb a b = true) l ->
  StronglySorted (fun a b => leb a b = true) (insert_by leb x l).
Proof.
  induction 1 as [|y l Hs IH Hy]; cbn [insert_by].
  - constructor; constructor.
  - destruct (leb x y) eqn:E.
    + constructor.
      * constructor; assumption.
      * constructor; [exact E|].
        apply Forall_forall. intros z Hz.
        apply (leb_trans x y z E).
        exact (proj1 (Forall_forall _ _) Hy z Hz).
    + constructor; [exact IH|].
      apply Forall_forall. intros z Hz.
      apply (Permutation_in _ (insert_by_perm leb x l)) in Hz.
      destruct Hz as [<-|Hz].
      * destruct (leb_total x y) as [H|H]; [congruence|exact H].
      * exact (proj1 (Forall_forall _ _) Hy z Hz).
Qed.

Lemma sort_by_sorted (l : list A) :
  StronglySorted (fun a b => leb a b = true) (sort_by leb l).
Proof.
  induction l as [|x l IH]; cbn [sort_by fold_right].
  - constructor.
  - apply insert_by_sorted. exact IH.
Qed.

End Ordered.

Lemma StronglySorted_impl {A : Type} (R R' : A -> A -> Prop) (l : list A) :
  (forall a b, R a b -> R' a b) ->
  StronglySorted R l -> StronglySorted R' l.
Proof.
  intros H. induction 1 as [|x l Hs IH Hx]; constructor.
  - exact IH.
  - apply Forall_forall. intros z Hz. apply H.
    exact (proj1 (Forall_forall _ _) Hx z Hz).
Qed.

Lemma str_leb_total (a b : str) : str_leb a b = true \/ str_leb b a = true.
Proof.
  revert b. induction a as [|x a IH]; intros [|y b]; cbn [str_leb]; auto.
  destruct (x <? y)%N eqn:Exy; [auto|].
  destruct (y <? x)%N eqn:Eyx; [auto|].
  apply N.ltb_ge in Exy. apply N.ltb_ge in Eyx.
  assert (x = y) by lia. subst y. rewrite N.eqb_refl. apply IH.
Qed.

Lemma str_leb_trans (a b c : str) :
  str_leb a b = true -> str_leb b c = true -> str_leb a c = true.
Proof.
  revert b c. induction a as [|x a IH]; intros [|y b] [|z c];
    cbn [str_leb]; try reflexivity; try discriminate.
  destruct (x <? y)%N eqn:Exy.
  - apply N.ltb_lt in Exy. intros _.
    destruct (y <? z)%N eqn:Eyz.
    + apply N.ltb_lt in Eyz. intros _.
      replace (x <? z)%N with true by (symmetry; apply N.ltb_lt; lia).
      reflexivity.
    + destruct (y =? z)%N eqn:E; [|discriminate].
      apply N.eqb_eq in E. subst z. intros _.
      replace (x <? y)%N with true by (symmetry; apply N.ltb_lt; lia).
      reflexivity.
  - destruct (x =? y)%N eqn:E; [|discriminate].
    apply N.eqb_eq in E. subst y. intros Hab.
    destruct (x <? z)%N; [reflexivity|].
    destruct (x =? z)%N; [|discriminate].
    apply IH. exact Hab.
Qed.

Lemma existsb_str_eqb (x : str) (l : list str) :
  existsb (str_eqb x) l = true <-> In x l.
Proof.
  rewrite existsb_exists. split.
  - intros [y [Hy E]]. apply str_eqb_eq in E. subst y. exact Hy.
  - intros H. exists x. split; [exact H|apply str_eqb_refl].
Qed.

Lemma distinct_In (x : str) (l : list str) : In x (distinct l) <-> In x l.
Proof.
  induction l as [|y l IH]; cbn [distinct]; [reflexivity|].
  destruct (existsb (str_eqb y) l) eqn:E.
  - rewrite IH. split; [right; assumption|].
    intros [<-|H]; [apply existsb_str_eqb; exact E|exact H].
  - cbn [In]. rewrite IH. reflexivity.
Qed.

Lemma distinct_NoDup (l : list str) : NoDup (distinct l).
Proof.
  induction l as [|y l IH]; cbn [distinct]; [constructor|].
  destruct (existsb (str_eqb y) l) eqn:E; [exact IH|].
  constructor; [|exact IH].
  intros H. apply (proj1 (distinct_In _ _)) in H.
  apply (proj2 (existsb_str_eqb _ _)) in H. congruence.
Qed.

Lemma selected_iff (course year : str) (s : Student) :
  selected course year s = true
  <-> (course = [] \/ course_of_study s = course)
      /\ (year = [] \/ year_of_graduation s = year).
Proof.
  assert (Hempty : forall x : str, negb (str_truthy x) = true <-> x = []).
  { intros [|c x]; cbn [str_truthy negb]; split; intros E;
      first [reflexivity|discriminate E]. }
  unfold selected.
  rewrite andb_true_iff, !orb_true_iff, !str_eqb_eq, !Hempty. reflexivity.
Qed.

Lemma view_certificates_runs g request t p f tr n :
  io_fault (db g) n = None -> io_fault (db g) (S n) = None ->
  io_fault (db g) (S (S n)) = None ->
  view_certificates g request (mkWorld t p f tr n)
  = (Ok (template "view_certificates.html"
           [ ("students"%string,
              CStudents
                (sort_by (fun a b => id b <=? id a)
                   (filter (selected (arg_or_empty request "course")
                                     (arg_or_empty request "year")) t)));
             ("unique_courses"%string,
              CStrs (sort_by str_leb (distinct (map course_of_study t))));
             ("unique_years"%string,
              CStrs (sort_by (fun a b => str_leb b a)
                             (distinct (map year_of_graduation t))));
             ("selected_course"%string, CStr (arg_or_empty request "course"));
             ("selected_year"%string, CStr (arg_or_empty request "year")) ]),
     mkWorld t p f tr (S (S (S n)))).
Proof.
  intros H0 H1 H2. unfold view_certificates, db_round_trip. simpl_eff.
  rewrite H0. simpl_eff. rewrite H1. simpl_eff. rewrite H2. reflexivity.
Qed.

(** X18.  The list of certificates shows exactly the stored rows that
    pass the filters, each once, the newest first: a row is listed when
    its course equals the course asked for, if one is asked for, and its
    year equals the year asked for, if one is asked for.  Nothing is
    changed. *)
Theorem certificate_list_is_selected_and_ordered :
  forall (g : Globals) (request : request) (w : world),
    db_answers g w 3 ->
    exists (students : list Student) (unique_courses unique_years : list str),
      view_certificates g request w
      = (Ok (template "view_certificates.html"
               [ ("students"%string, CStudents students);
                 ("unique_courses"%string, CStrs unique_courses);
                 ("unique_years"%string, CStrs unique_years);
                 ("selected_course"%string,
                  CStr (arg_or_empty request "course"));
                 ("selected_year"%string,
                  CStr (arg_or_empty request "year")) ]),
         after_trips w 3)
      /\ Permutation students
           (filter (selected (arg_or_empty request "course")
                             (arg_or_empty request "year")) (table w))
      /\ (forall s,
            In s students
            <-> In s (table w)
                /\ (arg_or_empty request "course" = []
                    \/ course_of_study s = arg_or_empty request "course")
                /\ (arg_or_empty request "year" = []
                    \/ year_of_graduation s = arg_or_empty request "year"))
      /\ StronglySorted (fun a b => id b <= id a) students.
Proof.
  intros g request [t p f tr n] H.
  pose proof (H 0%nat ltac:(lia)) as H0.
  pose proof (H 1%nat ltac:(lia)) as H1.
  pose proof (H 2%nat ltac:(lia)) as H2.
  cbn [db_trips Nat.add] in H0, H1, H2.
  do 3 eexists. split.
  - apply (view_certificates_runs g request t p f tr n H0 H1 H2).
  - cbn [table]. split; [apply sort_by_perm|]. split.
    + intros s. split.
      * intros Hs. apply (Permutation_in _ (sort_by_perm _ _)) in Hs.
        apply filter_In in Hs. destruct Hs as [Hin Hsel].
        apply selected_iff in Hsel. tauto.
      * intros [Hin Hsel].
        apply (Permutation_in _ (Permutation_sym (sort_by_perm _ _))).
        apply filter_In. split; [exact Hin|].
        apply selected_iff. exact Hsel.
    + apply StronglySorted_impl
        with (R := fun a b => (id b <=? id a) = true).
      * intros a b Hab. apply Z.leb_le. exact Hab.
      * apply sort_by_sorted.
        -- intros a b. rewrite !Z.leb_le. lia.
        -- intros a b c. rewrite !Z.leb_le. lia.
Qed.

Lemma certificate_list_is_selected_and_ordered_witness :
  exists (students : list Student) (unique_courses unique_years : list str),
    view_certificates (Sample.globals None Sample.no_fault)
      (Cases.list_request "Computer Science" "2024") Cases.register
    = (Ok (template "view_certificates.html"
             [ ("students"%string, CStudents students);
               ("unique_courses"%string, CStrs unique_courses);
               ("unique_years"%string, CStrs unique_years);
               ("selected_course"%string,
                CStr (arg_or_empty
                        (Cases.list_request "Computer Science" "2024")
                        "course"));
               ("selected_year"%string,
                CStr (arg_or_empty
                        (Cases.list_request "Computer Science" "2024")
                        "year")) ]),
       after_trips Cases.register 3)
    /\ Permutation students
         (filter (selected
                    (arg_or_empty
                       (Cases.list_request "Computer Science" "2024")
                       "course")
                    (arg_or_empty
                       (Cases.list_request "Computer Science" "2024")
                       "year"))
                 (table Cases.register))
    /\ (forall s,
          In s students
          <-> In s (table Cases.register)
              /\ (arg_or_empty (Cases.list_request "Computer Science" "2024")
                               "course" = []
                  \/ course_of_study s
                     = arg_or_empty
                         (Cases.list_request "Computer Science" "2024")
                         "course")
              /\ (arg_or_empty (Cases.list_request "Computer Science" "2024")
                               "year" = []
                  \/ year_of_graduation s
                     = arg_or_empty
                         (Cases.list_request "Computer Science" "2024")
                         "year"))
    /\ StronglySorted (fun a b => id b <= id a) students.
Proof.
  apply (certificate_list_is_selected_and_ordered
           (Sample.globals None Sample.no_fault)
           (Cases.list_request "Computer Science" "2024") Cases.register).
  intros k Hk. reflexivity.
Defined.

(** X19.  The two menus of the list of certificates hold every course
    and every year of graduation of the table, each once: the courses in
    ascending order of their code points, the years in descending
    order. *)
Theorem filter_menus_hold_each_value_once :
  forall (g : Globals) (request : request) (w : world),
    db_answers g w 3 ->
    exists (students : list Student) (unique_courses unique_years : list str),
      fst (view_certificates g request w)
      = Ok (template "view_certificates.html"
              [ ("students"%string, CStudents students);
                ("unique_courses"%string, CStrs unique_courses);
                ("unique_years"%string, CStrs unique_years);
                ("selected_course"%string,
                 CStr (arg_or_empty request "course"));
                ("selected_year"%string,
                 CStr (arg_or_empty request "year")) ])
      /\ NoDup unique_courses
      /\ (forall c, In c unique_courses
                    <-> exists s, In s (table w) /\ course_of_study s = c)
      /\ StronglySorted (fun a b => str_leb a b = true) unique_courses
      /\ NoDup unique_years
      /\ (forall y, In y unique_years
                    <-> exists s, In s (table w) /\ year_of_graduation s = y)
      /\ StronglySorted (fun a b => str_leb b a = true) unique_years.
Proof.
  intros g request [t p f tr n] H.
  pose proof (H 0%nat ltac:(lia)) as H0.
  pose proof (H 1%nat ltac:(lia)) as H1.
  pose proof (H 2%nat ltac:(lia)) as H2.
  cbn [db_trips Nat.add] in H0, H1, H2.
  do 3 eexists. split.
  - rewrite (view_certificates_runs g request t p f tr n H0 H1 H2).
    reflexivity.
  - cbn [table].
    assert (Hmem : forall (proj : Student -> str) leb v,
               In v (sort_by leb (distinct (map proj t)))
               <-> exists s, In s t /\ proj s = v).
    { intros proj leb v.
      assert (Hmap : In v (map proj t) <-> exists s, In s t /\ proj s = v).
      { rewrite in_map_iff. split; intros [s [Ha Hb]]; exists s; auto. }
      rewrite <- Hmap, <- (distinct_In v (map proj t)). split; apply Permutation_in.
      - apply sort_by_perm.
      - apply Permutation_sym, sort_by_perm. }
    repeat match goal with |- _ /\ _ => split end.
    + apply (Permutation_NoDup (Permutation_sym (sort_by_perm _ _))).
      apply distinct_NoDup.
    + intros c. apply Hmem.
    + apply sort_by_sorted; [apply str_leb_total|apply str_leb_trans].
    + apply (Permutation_NoDup (Permutation_sym (sort_by_perm _ _))).
      apply distinct_NoDup.
    + intros y. apply Hmem.
    + apply (sort_by_sorted (fun a b => str_leb b a)).
      * intros a b. destruct (str_leb_total a b); auto.
      * intros a b c Hab Hbc. exact (str_leb_trans c b a Hbc Hab).
Qed.

Lemma filter_menus_hold_each_value_once_witness :
  exists (students : list Student) (unique_courses unique_years : list str),
    fst (view_certificates (Sample.globals None Sample.no_fault)
           (Cases.list_request "" "") Cases.register)
    = Ok (template "view_certificates.html"
            [ ("students"%string, CStudents students);
              ("unique_courses"%string, CStrs unique_courses);
              ("unique_years"%string, CStrs unique_years);
              ("selected_course"%string,
               CStr (arg_or_empty (Cases.list_request "" "") "course"));
              ("selected_year"%string,
               CStr (arg_or_empty (Cases.list_request "" "") "year")) ])
    /\ NoDup unique_courses
    /\ (forall c, In c unique_courses
                  <-> exists s, In s (table Cases.register)
                                /\ course_of_study s = c)
    /\ StronglySorted (fun a b => str_leb a b = true) unique_courses
    /\ NoDup unique_years
    /\ (forall y, In y unique_years
                  <-> exists s, In s (table Cases.register)
                                /\ year_of_graduation s = y)
    /\ StronglySorted (fun a b => str_leb b a = true) unique_years.
Proof.
  apply (filter_menus_hold_each_value_once
           (Sample.globals None Sample.no_fault)
           (Cases.list_request "" "") Cases.register).
  intros k Hk. reflexivity.
Defined.

(* ================================================================== *)
(** ** The dashboard and the success page *)
(* ================================================================== *)

(** X20.  The dashboard is shown whatever the ledger does.  When the two
    counting queries go through, the view returns its page: the number of
    anchored certificates lies between 0 and the number of certificates,
    the total of the ledger is 0 when no ledger is configured or when the
    call of the contract fails, and nothing is changed but the trace. *)
Theorem dashboard_is_shown_whatever_the_ledger_does :
  forall (g : Globals) (w : world),
    db_answers g w 2 ->
    exists (anchored ledger_total : Z) (evs : list event),
      dashboard_home g w
      = (Ok (template "dashboard_overview.html"
               [ ("total_certificates"%string,
                  CInt (Z.of_nat (List.length (table w))));
                 ("blockchain_certificates"%string, CInt anchored);
                 ("blockchain_total"%string, CInt ledger_total);
                 ("blockchain_enabled"%string,
                  CBool match blockchain g with
                        | Some _ => true
                        | None => false
                        end) ]),
         logged (after_trips w 2) evs)
      /\ 0 <= anchored <= Z.of_nat (List.length (table w))
      /\ (blockchain g = None -> ledger_total = 0 /\ evs = [])
      /\ (forall bc e,
            blockchain g = Some bc ->
            getTotalCertificates_call (contract bc) = Raise e ->
            ledger_total = 0)
      /\ (forall bc total,
            blockchain g = Some bc ->
            getTotalCertificates_call (contract bc) = Ok total ->
            ledger_total = total).
Proof.
  intros g [t p f tr n] H.
  pose proof (H 0%nat ltac:(lia)) as H0.
  pose proof (H 1%nat ltac:(lia)) as H1.
  cbn [db_trips Nat.add] in H0, H1.
  assert (Hle : 0 <= Z.of_nat (List.length (filter on_blockchain t))
                <= Z.of_nat (List.length t)).
  { pose proof (filter_length_le on_blockchain t). lia. }
  unfold dashboard_home, db_round_trip, get_total_certificates, after_trips.
  simpl_eff. rewrite H0. simpl_eff. rewrite H1. simpl_eff.
  destruct (blockchain g) as [bc|]; simpl_eff.
  - destruct (getTotalCertificates_call (contract bc)) as [total|e] eqn:E;
      simpl_eff; rewrite <- ?app_assoc; do 3 eexists;
      (split; [reflexivity|]); (split; [exact Hle|]);
      (split; [discriminate|]); split; intros bc' x Hbc Hx;
      inversion Hbc; subst bc'; congruence.
  - exists (Z.of_nat (List.length (filter on_blockchain t))), 0, [].
    rewrite app_nil_r.
    split; [reflexivity|]. split; [exact Hle|].
    split; [auto|]. split; intros bc' x Hbc; discriminate Hbc.
Qed.

Lemma dashboard_is_shown_whatever_the_ledger_does_witness :
  exists (anchored ledger_total : Z) (evs : list event),
    dashboard_home (Sample.globals (Some Sample.unreachable) Sample.no_fault)
                   Cases.register
    = (Ok (template "dashboard_overview.html"
             [ ("total_certificates"%string,
                CInt (Z.of_nat (List.length (table Cases.register))));
               ("blockchain_certificates"%string, CInt anchored);
               ("blockchain_total"%string, CInt ledger_total);
               ("blockchain_enabled"%string,
                CBool match blockchain
                              (Sample.globals (Some Sample.unreachable)
                                              Sample.no_fault) with
                      | Some _ => true
                      | None => false
                      end) ]),
       logged (after_trips Cases.register 2) evs)
    /\ 0 <= anchored <= Z.of_nat (List.length (table Cases.register))
    /\ (blockchain (Sample.globals (Some Sample.unreachable) Sample.no_fault)
        = None -> ledger_total = 0 /\ evs = [])
    /\ (forall bc e,
          blockchain (Sample.globals (Some Sample.unreachable) Sample.no_fault)
          = Some bc ->
          getTotalCertificates_call (contract bc) = Raise e ->
          ledger_total = 0)
    /\ (forall bc total,
          blockchain (Sample.globals (Some Sample.unreachable) Sample.no_fault)
          = Some bc ->
          getTotalCertificates_call (contract bc) = Ok total ->
          ledger_total = total).
Proof.
  apply (dashboard_is_shown_whatever_the_ledger_does
           (Sample.globals (Some Sample.unreachable) Sample.no_fault)
           Cases.register).
  intros k Hk. reflexivity.
Defined.

(** X21.  The success page that an issuance redirects to shows the
    certificate just stored: when the row of a request has been stored
    and the look-up goes through, the page of its hash is rendered with
    the stored row and with the verification link of that same hash, and
    the page changes nothing in the table. *)
Theorem success_page_shows_the_stored_certificate :
  forall (g : Globals) (url_for_verify : str -> str) (request : request)
         (w w1 : world) (s : Student),
    req_method request = POST ->
    pending w = [] ->
    prepare g request w = (Ok (inr s), w1) ->
    commit_failure g w1 s = None ->
    io_fault (db g) (db_trips (snd (upload_certificate_page g request w)))
    = None ->
    exists row : Student,
      fst (upload_success_page g url_for_verify (certificate_hash s)
             (snd (upload_certificate_page g request w)))
      = Ok (template "upload_success.html"
              [ ("student"%string, CStudent row);
                ("qr_data"%string, CStr (url_for_verify (certificate_hash s))) ])
      /\ stores row s
      /\ id row = fresh_id (table w)
      /\ table (snd (upload_success_page g url_for_verify (certificate_hash s)
                       (snd (upload_certificate_page g request w))))
         = table w ++ [row].
Proof.
  intros g url request w w1 s Hm Hpend Hprep Hcommit Hio.
  destruct (prepare_frame g request w) as [evs [_ [_ [_ [Htab _]]]]].
  rewrite Hprep in Htab. cbn [snd] in Htab.
  destruct (commit_failure_none g w1 s Hcommit) as [_ Hu]. rewrite Htab in Hu.
  assert (Hrow : exists row,
             table (snd (upload_certificate_page g request w))
             = table w ++ [row]
             /\ stores row s /\ id row = fresh_id (table w)).
  { destruct (upload_table_stored g request w s w1 Hm Hpend Hprep Hcommit)
      as [H|[tx [bn H]]]; eexists; (split; [exact H|]);
      split; try reflexivity; unfold stores; cbn; auto. }
  destruct Hrow as [row [Htable [Hst Hid]]].
  assert (Hfind : find (fun r => str_eqb (certificate_hash r)
                                         (certificate_hash s))
                       (table (snd (upload_certificate_page g request w)))
                  = Some row).
  { rewrite Htable. apply find_snoc_new.
    - intros r Hr. destruct (unique_violation_false _ s r Hu Hr) as [_ Hne].
      destruct (str_eqb (certificate_hash r) (certificate_hash s)) eqn:E;
        [apply str_eqb_eq in E; contradiction|reflexivity].
    - destruct Hst as [_ [_ [-> _]]]. apply str_eqb_refl. }
  revert Hio Hfind Htable.
  generalize (snd (upload_certificate_page g request w)) as W.
  intros [t' p' f' tr' n'] Hio Hfind Htable. cbn [db_trips table] in *.
  exists row.
  unfold upload_success_page, query_first_by_hash, db_trip, select_first,
         or_404.
  simpl_eff. rewrite Hio. simpl_eff. rewrite Hfind. simpl_eff.
  pose proof Hst as [_ [_ [Hs3 _]]]. rewrite Hs3.
  repeat match goal with |- _ /\ _ => split end;
    first [reflexivity|assumption|apply Hst].
Qed.

Lemma success_page_shows_the_stored_certificate_witness :
  exists row : Student,
    fst (upload_success_page
           (Sample.globals (Some Sample.funded) Sample.no_fault)
           Cases.verify_url (certificate_hash Sample.jane_row)
           (snd (upload_certificate_page
                   (Sample.globals (Some Sample.funded) Sample.no_fault)
                   Sample.jane empty_world)))
    = Ok (template "upload_success.html"
            [ ("student"%string, CStudent row);
              ("qr_data"%string,
               CStr (Cases.verify_url (certificate_hash Sample.jane_row))) ])
    /\ stores row Sample.jane_row
    /\ id row = fresh_id (table empty_world)
    /\ table (snd (upload_success_page
                     (Sample.globals (Some Sample.funded) Sample.no_fault)
                     Cases.verify_url (certificate_hash Sample.jane_row)
                     (snd (upload_certificate_page
                             (Sample.globals (Some Sample.funded)
                                             Sample.no_fault)
                             Sample.jane empty_world))))
       = table empty_world ++ [row].
Proof.
  apply (success_page_shows_the_stored_certificate
           (Sample.globals (Some Sample.funded) Sample.no_fault)
           Cases.verify_url Sample.jane empty_world Sample.jane_prepared
           Sample.jane_row);
    vm_compute; reflexivity.
Defined.

(* ================================================================== *)
(** ** Deletion *)
(* ================================================================== *)

Lemma kept_rows_stay_distinct {K : Type} (column : Student -> K)
      (keep : Student -> bool) (t : list Student) :
  NoDup (map column t) -> NoDup (map column (filter keep t)).
Proof.
  intros Hnd. induction t as [|row t IH]; cbn [map filter] in *;
    [exact Hnd|].
  inversion Hnd as [|k ks Hrow Ht]; subst.
  destruct (keep row); cbn [map]; [|exact (IH Ht)].
  constructor; [|exact (IH Ht)].
  intros Hin. apply Hrow. apply in_map_iff in Hin.
  destruct Hin as [other [Hk Hin]]. apply filter_In in Hin.
  apply in_map_iff. exists other. tauto.
Qed.

Lemma table_ok_filter (keep : Student -> bool) (t : list Student) :
  table_ok t -> table_ok (filter keep t).
Proof.
  intros [H1 [H2 H3]].
  repeat split; apply kept_rows_stay_distinct; assumption.
Qed.

Lemma filter_other_ids (k : Z) (t : list Student) :
  ~ In k (map id t) -> filter (fun s => negb (id s =? k)) t = t.
Proof.
  induction t as [|x t IH]; cbn [map filter In]; intros H; [reflexivity|].
  destruct (id x =? k) eqn:E.
  - apply Z.eqb_eq in E. tauto.
  - cbn [negb]. rewrite IH; [reflexivity|tauto].
Qed.

Lemma delete_by_id_perm (k : Z) (t : list Student) (row : Student) :
  NoDup (map id t) ->
  find (fun s => id s =? k) t = Some row ->
  Permutation t (row :: filter (fun s => negb (id s =? k)) t).
Proof.
  induction t as [|x t IH]; cbn [map find filter]; intros Hnd Hf;
    [discriminate|].
  inversion Hnd as [|y m Hx Ht]; subst.
  destruct (id x =? k) eqn:E; cbn [negb].
  - inversion Hf; subst x. apply Z.eqb_eq in E. rewrite E in Hx.
    rewrite (filter_other_ids k t Hx). apply Permutation_refl.
  - apply perm_trans
      with (x :: row :: filter (fun s => negb (id s =? k)) t).
    + apply perm_skip. exact (IH Ht Hf).
    + apply perm_swap.
Qed.

Lemma delete_certificate_runs g student_id t f tr n row :
  io_fault (db g) n = None ->
  find (fun s => id s =? student_id) t = Some row ->
  delete_certificate g student_id (mkWorld t [] f tr n)
  = match io_fault (db g) (S n) with
    | None =>
      (Ok (redirect_to "view_certificates"),
       mkWorld (filter (fun s => negb (id s =? id row)) t) []
               (f ++ [("success"%string,
                       lit "Record for " ++ full_name row ++ lit " (ID: "
                       ++ str_of_int student_id
                       ++ lit ") successfully deleted.")])
               (tr ++ [ECommit]) (S (S n)))
    | Some e =>
      (Ok (redirect_to "view_certificates"),
       mkWorld t []
               (f ++ [("danger"%string,
                       lit "Error deleting record: " ++ exn_str e)])
               (tr ++ [ECommit; ERollback]) (S (S n)))
    end.
Proof.
  intros H0 Hf.
  unfold delete_certificate, get_or_404, db_round_trip, select_first, or_404,
         delete_and_commit, db_trip, rollback.
  simpl_eff. rewrite H0. simpl_eff. rewrite Hf. simpl_eff.
  destruct (io_fault (db g) (S n)) as [e|]; simpl_eff; cbn [flush];
    rewrite <- ?app_assoc; reflexivity.
Qed.

(** X22.  A deletion removes the row of the given id and nothing else.
    When the look-up and the commit go through and the table holds a row
    with that id, the view redirects to the list, flashes the success
    message with the name of that row, and the table keeps exactly the
    rows with another id; the commit is the only event, so that no call
    reaches the ledger and an anchor of the certificate stays where it
    is.  On a table that meets its constraints the row found is the only
    one removed, and the constraints still hold. *)
Theorem deletion_removes_exactly_that_row :
  forall (g : Globals) (student_id : Z) (w : world) (row : Student),
    pending w = [] ->
    db_answers g w 2 ->
    find (fun s => id s =? student_id) (table w) = Some row ->
    exists t' : list Student,
      delete_certificate g student_id w
      = (Ok (redirect_to "view_certificates"),
         mkWorld t' []
                 (flashes w
                  ++ [("success"%string,
                       lit "Record for " ++ full_name row ++ lit " (ID: "
                       ++ str_of_int student_id
                       ++ lit ") successfully deleted.")])
                 (trace w ++ [ECommit]) (2 + db_trips w))
      /\ (forall r, In r t' <-> In r (table w) /\ id r <> student_id)
      /\ (table_ok (table w) ->
          table_ok t' /\ Permutation (table w) (row :: t')).
Proof.
  intros g student_id [t p f tr n] row Hp H Hf. cbn [pending] in Hp. subst p.
  pose proof (H 0%nat ltac:(lia)) as H0.
  pose proof (H 1%nat ltac:(lia)) as H1.
  cbn [db_trips Nat.add table flashes trace] in *.
  assert (Hid : id row = student_id).
  { apply find_some in Hf. destruct Hf as [_ E]. apply Z.eqb_eq. exact E. }
  exists (filter (fun s => negb (id s =? student_id)) t).
  split; [|split].
  - rewrite (delete_certificate_runs g student_id t f tr n row H0 Hf).
    rewrite H1, Hid. reflexivity.
  - intros r. rewrite filter_In, negb_true_iff, Z.eqb_neq. reflexivity.
  - intros Hok. split.
    + apply table_ok_filter. exact Hok.
    + apply delete_by_id_perm; [apply Hok|exact Hf].
Qed.

Lemma deletion_removes_exactly_that_row_witness :
  exists t' : list Student,
    delete_certificate (Sample.globals (Some Sample.funded) Sample.no_fault)
                       2 Cases.register
    = (Ok (redirect_to "view_certificates"),
       mkWorld t' []
               (flashes Cases.register
                ++ [("success"%string,
                     lit "Record for " ++ full_name Cases.john_row
                     ++ lit " (ID: " ++ str_of_int 2
                     ++ lit ") successfully deleted.")])
               (trace Cases.register ++ [ECommit])
               (2 + db_trips Cases.register))
    /\ (forall r, In r t' <-> In r (table Cases.register) /\ id r <> 2)
    /\ (table_ok (table Cases.register) ->
        table_ok t' /\ Permutation (table Cases.register)
                                   (Cases.john_row :: t')).
Proof.
  apply (deletion_removes_exactly_that_row
           (Sample.globals (Some Sample.funded) Sample.no_fault)
           2 Cases.register Cases.john_row).
  - reflexivity.
  - intros k Hk. reflexivity.
  - vm_compute. reflexivity.
Defined.

(** X23.  A deletion never touches another row and never reaches the
    ledger.  Every row it removes has the given id, its events are at
    most the commit and a rollback, and an exception escapes only as the
    404 of an id that the table does not hold or as a failure of the
    look-up; a commit that fails is reported by a message and leaves the
    table as it was. *)
Theorem deletion_touches_no_other_row :
  forall (g : Globals) (student_id : Z) (w : world),
    pending w = [] ->
    (forall r, In r (table (snd (delete_certificate g student_id w))) ->
               In r (table w))
    /\ (forall r, In r (table w) -> id r <> student_id ->
                  In r (table (snd (delete_certificate g student_id w))))
    /\ (exists evs,
          trace (snd (delete_certificate g student_id w)) = trace w ++ evs
          /\ existsb is_ledger_event evs = false)
    /\ (forall e,
          fst (delete_certificate g student_id w) = Raise e ->
          io_fault (db g) (db_trips w) = Some e
          \/ (e = NotFound
              /\ find (fun s => id s =? student_id) (table w) = None))
    /\ (forall e,
          io_fault (db g) (db_trips w) = None ->
          io_fault (db g) (S (db_trips w)) = Some e ->
          table (snd (delete_certificate g student_id w)) = table w
          /\ (find (fun s => id s =? student_id) (table w) <> None ->
              flashes (snd (delete_certificate g student_id w))
              = flashes w
                ++ [("danger"%string,
                     lit "Error deleting record: " ++ exn_str e)])).
Proof.
  intros g student_id [t p f tr n] Hp. cbn [pending] in Hp. subst p.
  cbn [table trace db_trips flashes].
  destruct (io_fault (db g) n) as [e0|] eqn:H0.
  { unfold delete_certificate, get_or_404, db_round_trip. simpl_eff.
    rewrite H0. simpl_eff.
    repeat match goal with |- _ /\ _ => split end; auto.
    - exists []. rewrite app_nil_r. auto.
    - intros e He. inversion He. auto.
    - intros e He. discriminate He. }
  destruct (find (fun s => id s =? student_id) t) as [row|] eqn:Hf.
  - rewrite (delete_certificate_runs g student_id t f tr n row H0 Hf).
    assert (Hid : id row = student_id).
    { apply find_some in Hf. destruct Hf as [_ E]. apply Z.eqb_eq. exact E. }
    rewrite Hid.
    destruct (io_fault (db g) (S n)) as [e1|] eqn:H1; simpl_eff.
    + repeat match goal with |- _ /\ _ => split end; auto.
      * exists [ECommit; ERollback]. auto.
      * intros e He. discriminate He.
      * intros e _ He. inversion He; subst. split; auto.
    + repeat match goal with |- _ /\ _ => split end.
      * intros r Hr. apply filter_In in Hr. tauto.
      * intros r Hr Hne. apply filter_In. split; [exact Hr|].
        apply negb_true_iff, Z.eqb_neq. exact Hne.
      * exists [ECommit]. auto.
      * intros e He. discriminate He.
      * intros e _ He. discriminate He.
  - unfold delete_certificate, get_or_404, db_round_trip, select_first,
           or_404.
    simpl_eff. rewrite H0. simpl_eff. rewrite Hf. simpl_eff.
    repeat match goal with |- _ /\ _ => split end; auto.
    + exists []. rewrite app_nil_r. auto.
    + intros e He. inversion He. auto.
    + intros e _ _. split; [reflexivity|].
      intros Hne. contradiction Hne. reflexivity.
Qed.

Lemma deletion_touches_no_other_row_witness :
  (forall r,
      In r (table (snd (delete_certificate
                          (Sample.globals None (Sample.fault_at 1)) 2
                          Cases.register))) ->
      In r (table Cases.register))
  /\ (forall r,
        In r (table Cases.register) -> id r <> 2 ->
        In r (table (snd (delete_certificate
                            (Sample.globals None (Sample.fault_at 1)) 2
                            Cases.register))))
  /\ (exists evs,
        trace (snd (delete_certificate
                      (Sample.globals None (Sample.fault_at 1)) 2
                      Cases.register))
        = trace Cases.register ++ evs
        /\ existsb is_ledger_event evs = false)
  /\ (forall e,
        fst (delete_certificate (Sample.globals None (Sample.fault_at 1)) 2
                                Cases.register) = Raise e ->
        io_fault (db (Sample.globals None (Sample.fault_at 1)))
                 (db_trips Cases.register) = Some e
        \/ (e = NotFound
            /\ find (fun s => id s =? 2) (table Cases.register) = None))
  /\ (forall e,
        io_fault (db (Sample.globals None (Sample.fault_at 1)))
                 (db_trips Cases.register) = None ->
        io_fault (db (Sample.globals None (Sample.fault_at 1)))
                 (S (db_trips Cases.register)) = Some e ->
        table (snd (delete_certificate
                      (Sample.globals None (Sample.fault_at 1)) 2
                      Cases.register))
        = table Cases.register
        /\ (find (fun s => id s =? 2) (table Cases.register) <> None ->
            flashes (snd (delete_certificate
                            (Sample.globals None (Sample.fault_at 1)) 2
                            Cases.register))
            = flashes Cases.register
              ++ [("danger"%string,
                   lit "Error deleting record: " ++ exn_str e)])).
Proof.
  apply (deletion_touches_no_other_row
           (Sample.globals None (Sample.fault_at 1)) 2 Cases.register).
  reflexivity.
Defined.

(* ================================================================== *)
(** ** The file of the certificate *)
(* ================================================================== *)

Lemma replace_slash_free (s : str) :
  slash_free (replace_char slash underscore s).
Proof.
  unfold slash_free, replace_char.
  induction s as [|c s IH]; cbn [map forallb]; [reflexivity|].
  rewrite IH, andb_true_r.
  destruct (c =? slash)%N eqn:E; [reflexivity|]. rewrite E. reflexivity.
Qed.

Lemma hex_slash_free (s : str) :
  forallb is_hex_digit s = true -> slash_free s.
Proof.
  unfold slash_free. induction s as [|c s IH]; cbn [forallb]; [reflexivity|].
  intros H. apply andb_true_iff in H. destruct H as [Hc Hs].
  rewrite (IH Hs), andb_true_r. apply negb_true_iff, N.eqb_neq.
  intros ->. discriminate Hc.
Qed.

Lemma slash_free_app (a b : str) :
  slash_free a -> slash_free b -> slash_free (a ++ b).
Proof.
  unfold slash_free. intros Ha Hb. rewrite forallb_app, Ha, Hb. reflexivity.
Qed.

Lemma slash_free_firstn (n : nat) (s : str) :
  slash_free s -> slash_free (firstn n s).
Proof.
  unfold slash_free. revert s.
  induction n as [|n IH]; intros [|c s]; cbn [firstn forallb]; auto.
  intros H. apply andb_true_iff in H. destruct H as [Hc Hs].
  rewrite Hc, (IH s Hs). reflexivity.
Qed.

Lemma slash_free_start (s : str) :
  slash_free s -> startswith_char slash s = false.
Proof.
  unfold slash_free. destruct s as [|c s]; cbn [forallb startswith_char];
    [reflexivity|].
  intros H. apply andb_true_iff in H. destruct H as [Hc _].
  apply negb_true_iff. exact Hc.
Qed.

(** X24.  The PDF of a certificate is written directly into the
    directory [certificates], whatever the matric number is: with the
    hash of a certificate, the file name holds no slash (those of the
    matric number have become underscores), it is as long as the matric
    number and thirteen characters more, and the path is
    [certificates/] followed by that name. *)
Theorem certificate_file_stays_in_its_directory :
  forall (d : student_data) (certificate_hash : str),
    fingerprint_shaped certificate_hash = true ->
    file_path d certificate_hash
    = lit "certificates/" ++ pdf_filename d certificate_hash
    /\ slash_free (pdf_filename d certificate_hash)
    /\ len (pdf_filename d certificate_hash)
       = len (data_matric_number d) + 13.
Proof.
  intros d h Hh. unfold fingerprint_shaped in Hh.
  apply andb_true_iff in Hh. destruct Hh as [Hlen Hhex].
  apply Z.eqb_eq in Hlen.
  assert (Hname : slash_free (pdf_filename d h)).
  { unfold pdf_filename, slice_to.
    repeat apply slash_free_app;
      first [ apply replace_slash_free
            | apply slash_free_firstn, hex_slash_free; exact Hhex
            | reflexivity ]. }
  split; [|split; [exact Hname|]].
  - unfold file_path, path_join. rewrite (slash_free_start _ Hname).
    reflexivity.
  - unfold pdf_filename, slice_to, replace_char, len in *.
    rewrite !length_app, length_map, length_firstn.
    change (List.length (lit "_")) with 1%nat.
    change (List.length (lit ".pdf")) with 4%nat. lia.
Qed.

Lemma certificate_file_stays_in_its_directory_witness :
  file_path Sample.jane_fields Sample.jane_hash
  = lit "certificates/" ++ pdf_filename Sample.jane_fields Sample.jane_hash
  /\ slash_free (pdf_filename Sample.jane_fields Sample.jane_hash)
  /\ len (pdf_filename Sample.jane_fields Sample.jane_hash)
     = len (data_matric_number Sample.jane_fields) + 13.
Proof.
  apply (certificate_file_stays_in_its_directory
           Sample.jane_fields Sample.jane_hash).
  vm_compute. reflexivity.
Defined.
